(** * Tank survival: level lifecycle, combat and scavenging

    A shallow embedding of the simulation core of the Tkinter prototype
    [tank survival v5.py] (class [TankGame]), the last of the five variants
    of the game, together with the properties of its resource ledger, loot
    pool and level state machine.  Line numbers refer to that file.  The
    cannon of the first variant, [tank survival v1.py], is modelled in
    module [V1] for comparison.

    Conventions of the embedding:
    - Python [int] is [Z];
    - Python [float] is IEEE 754 binary64, given by [SpecFloat] of the
      Standard Library (module [B64]): the loot fraction, the shares
      [int(avail * frac)] and the percentage [int(chance * 100)] are
      computed in it, operation by operation.  The survival chance is
      carried twice: [scavenge_chance] is the exact rational the formula of
      the source denotes, [scavenge_chance_float] the double the
      interpreter computes; they differ by at most 2^-52
      ([scavenge_chance_float_close]).  The draw of [random.random()] (a
      rational, the value of the double drawn) is compared with the former,
      which decides as the double does unless the draw lies within 2^-52
      of the chance ([survival_test_agrees]);
    - the string-valued enumerations of the source (sprite kinds, view keys,
      level reasons, scavenging approaches) are inductive types whose
      constructors are named after the string literals;
    - every call of the [random] module takes its value from an explicit
      record of draws handed to the operation;
    - message boxes are the observable result of a command: each handler
      returns the new state and the list of message boxes it opened;
    - images, sounds, fades and timer identifiers are not modelled. *)

From Stdlib Require Import ZArith QArith Qminmax Qpower Qabs SpecFloat.
From Stdlib Require Import List Bool Lia Lqa.
Import ListNotations.

Open Scope Z_scope.

(** ** Tunable game variables *)

Definition STARTING_FUEL : Z := 200.
Definition FUEL_CONSUMPTION_PER_SEC : Z := 1.
Definition STARTING_SHELLS : Z := 6.
Definition STARTING_GUNS : Z := 4.
Definition STARTING_CREW : Z := 4.
Definition STARTING_AMMO : Z := 200.
Definition STARTING_PARTS : Z := 0.

Definition FUEL_CAN_MIN : Z := 10.
Definition FUEL_CAN_MAX : Z := 100.
Definition AMMO_PER_BOX : Z := 100.
Definition MG_AMMO_COST : Z := 33.

Definition ZOMBIE_PENALTY_PER_ZOMBIE : Q := 5 # 100.
Definition GUN_BONUS : Q := 15 # 100.
Definition CHANCE_MIN : Q := 5 # 100.
Definition CHANCE_MAX : Q := 95 # 100.

Definition VIEW_W : Z := 1200.
Definition VIEW_H : Z := 800.

(** ** Python primitives used by the game *)

(** [a < b] on floats. *)
Definition Qltb (a b : Q) : bool := negb (Qle_bool b a).

(** [max(a, b)]: the first argument unless the second is strictly larger. *)
Definition py_max (a b : Q) : Q := if Qltb a b then b else a.

(** [min(a, b)]: the first argument unless the second is strictly smaller. *)
Definition py_min (a b : Q) : Q := if Qltb b a then b else a.

(** [int(x)] on a float: truncation towards zero. *)
Definition py_int (x : Q) : Z := Z.quot (Qnum x) (Zpos (Qden x)).

(** ** Python floats

    Binary64 with rounding to nearest, ties to even: [SpecFloat] with a
    mantissa of 53 bits and the exponent 1024 of the infinities. *)
Module B64.

Definition prec : Z := 53.
Definition emax : Z := 1024.

(** [float(z)] for an [int] (exact up to 2^53). *)
Definition of_int (z : Z) : spec_float := binary_normalize prec emax z 0 false.

Definition add : spec_float -> spec_float -> spec_float := SFadd prec emax.
Definition sub : spec_float -> spec_float -> spec_float := SFsub prec emax.
Definition mul : spec_float -> spec_float -> spec_float := SFmul prec emax.
Definition div : spec_float -> spec_float -> spec_float := SFdiv prec emax.
Definition ltb : spec_float -> spec_float -> bool := SFltb.
Definition leb : spec_float -> spec_float -> bool := SFleb.

(** The decimal literal [n/d] (as in [0.75] = 75/100): the double nearest
    to it, which is the correctly rounded quotient of the two integers. *)
Definition lit (n d : Z) : spec_float := div (of_int n) (of_int d).

(** The rational [m * 2^e]. *)
Definition F2Q (m e : Z) : Q := (inject_Z m * 2 ^ e)%Q.

(** The rational a double stands for (0 for an infinity or a NaN, which do
    not occur below). *)
Definition to_Q (x : spec_float) : Q :=
  match x with
  | S754_finite s m e => if s then (- F2Q (Zpos m) e)%Q else F2Q (Zpos m) e
  | _ => 0%Q
  end.

(** [max(a, b)] and [min(a, b)] on floats: the first argument unless the
    second is strictly larger (smaller). *)
Definition py_max (a b : spec_float) : spec_float := if ltb a b then b else a.
Definition py_min (a b : spec_float) : spec_float := if ltb b a then b else a.

(** [_clamp] (v5 l. 378-379), [clamp] (v2 l. 74-75) on floats. *)
Definition clamp (x lo hi : spec_float) : spec_float := py_max lo (py_min hi x).

(** [int(x)] on a finite float: truncation towards zero. *)
Definition to_int (x : spec_float) : Z := py_int (to_Q x).

(** Zero or a positive finite number. *)
Definition nonneg (x : spec_float) : bool :=
  match x with
  | S754_zero _ => true
  | S754_finite false _ _ => true
  | _ => false
  end.

(** Anything but a negative number. *)
Definition not_negative (x : spec_float) : bool :=
  match x with
  | S754_finite true _ _ => false
  | S754_infinity true => false
  | _ => true
  end.

(** A value of [random.random()]: a double in [[0.0, 1.0)]. *)
Definition in_unit (x : spec_float) : Prop :=
  valid_binary prec emax x = true /\ nonneg x = true /\ (to_Q x < 1)%Q.

(** Whether bits were lost in a right shift of the mantissa. *)
Definition sticky (mrs : shr_record) : bool := shr_r mrs || shr_s mrs.

End B64.

(** [random.choice(l)], the draw being the index [i] (reduced modulo the
    length, so that every draw selects an element of [l]). *)
Definition choice {A : Type} (l : list A) (i : nat) (dflt : A) : A :=
  nth (Nat.modulo i (length l)) l dflt.

(** [del l[i]]. *)
Fixpoint del_nth {A : Type} (i : nat) (l : list A) : list A :=
  match l with
  | [] => []
  | a :: tl => match i with
               | O => tl
               | S i' => a :: del_nth i' tl
               end
  end.

(** ** Data structures *)

(** [Sprite.kind]: "fuel", "part", "shell", "zombie", "ammo". *)
Inductive Kind : Type := fuel_ | part_ | shell_ | zombie_ | ammo_.

Definition Kind_eqb (a b : Kind) : bool :=
  match a, b with
  | fuel_, fuel_ | part_, part_ | shell_, shell_
  | zombie_, zombie_ | ammo_, ammo_ => true
  | _, _ => false
  end.

Module Sprite.
Record t : Type := mk { kind : Kind; x : Z; y : Z; w : Z; h : Z }.
End Sprite.

(** The keys of the views: four internal stations, three vision slits. *)
Inductive View : Type :=
| ENGINE | DRIVER | LEFT_GUNNER | RIGHT_GUNNER
| OUT_DRIVER | OUT_LEFT | OUT_RIGHT.

(** [view_key in ("OUT_LEFT", "OUT_RIGHT", "OUT_DRIVER")]. *)
Definition is_outside (v : View) : bool :=
  match v with
  | OUT_DRIVER | OUT_LEFT | OUT_RIGHT => true
  | _ => false
  end.

(** [LevelState.reason]: "", "Manual stop", "Engine breakdown",
    "Out of fuel". *)
Inductive Reason : Type :=
| No_reason | Manual_stop | Engine_breakdown | Out_of_fuel.

Definition Reason_eqb (a b : Reason) : bool :=
  match a, b with
  | No_reason, No_reason | Manual_stop, Manual_stop
  | Engine_breakdown, Engine_breakdown | Out_of_fuel, Out_of_fuel => true
  | _, _ => false
  end.

(** [LevelState]: the per-level counters drawn when the level starts. *)
Module Level.
Record t : Type := mk {
  active : bool;
  reason : Reason;
  fuel_cans : Z;
  parts : Z;
  shells : Z;
  zombies : Z;
  ammo_boxes : Z
}.
End Level.

(** [sprites_by_view]: a dictionary with exactly the three outside keys,
    in insertion order OUT_DRIVER, OUT_LEFT, OUT_RIGHT. *)
Record SpriteMap : Type := mkSpriteMap {
  at_OUT_DRIVER : list Sprite.t;
  at_OUT_LEFT : list Sprite.t;
  at_OUT_RIGHT : list Sprite.t
}.

(** [sprites_by_view[k]]; [None] stands for the KeyError of an inside key. *)
Definition sprites_at (k : View) (m : SpriteMap) : option (list Sprite.t) :=
  match k with
  | OUT_DRIVER => Some (at_OUT_DRIVER m)
  | OUT_LEFT => Some (at_OUT_LEFT m)
  | OUT_RIGHT => Some (at_OUT_RIGHT m)
  | _ => None
  end.

(** Replace the list stored under an outside key (the lists are mutated in
    place in the source; an inside key is never used there). *)
Definition store_at (k : View) (l : list Sprite.t) (m : SpriteMap) : SpriteMap :=
  match k with
  | OUT_DRIVER => mkSpriteMap l (at_OUT_LEFT m) (at_OUT_RIGHT m)
  | OUT_LEFT => mkSpriteMap (at_OUT_DRIVER m) l (at_OUT_RIGHT m)
  | OUT_RIGHT => mkSpriteMap (at_OUT_DRIVER m) (at_OUT_LEFT m) l
  | _ => m
  end.

Definition no_sprites : SpriteMap := mkSpriteMap [] [] [].

(** The fields of [TankGame] that carry game state.  [destroyed] records
    that [self.destroy()] has torn the Tk root window down. *)
Record TankGame : Type := mkTankGame {
  fuel : Z;
  parts : Z;
  shells : Z;
  guns : Z;
  crew : Z;
  ammo : Z;
  driving : bool;
  engine_broken : bool;
  out_of_fuel : bool;
  level : Level.t;
  current_view_key : View;
  sprites_by_view : SpriteMap;
  destroyed : bool
}.

(** Message boxes, named after their titles (and, where one title is used
    twice, after the text). *)
Inductive Msg : Type :=
| Cannot_start_engine_broken
| Cannot_start_no_fuel
| Not_enough_ammo
| No_shells
| No_repair_needed_driving
| No_repair_needed_not_broken
| Not_enough_parts
| Engine_fixed
| Cannot_scavenge
| No_crew
| Scavenging
| Lost
| Game_Over
| Returned (got_parts got_shells fuel_gained ammo_gained percent : Z).

(** ** Field updates *)

Definition set_fuel (v : Z) (g : TankGame) : TankGame :=
  mkTankGame v (parts g) (shells g) (guns g) (crew g) (ammo g) (driving g)
    (engine_broken g) (out_of_fuel g) (level g) (current_view_key g)
    (sprites_by_view g) (destroyed g).

Definition set_parts (v : Z) (g : TankGame) : TankGame :=
  mkTankGame (fuel g) v (shells g) (guns g) (crew g) (ammo g) (driving g)
    (engine_broken g) (out_of_fuel g) (level g) (current_view_key g)
    (sprites_by_view g) (destroyed g).

Definition set_shells (v : Z) (g : TankGame) : TankGame :=
  mkTankGame (fuel g) (parts g) v (guns g) (crew g) (ammo g) (driving g)
    (engine_broken g) (out_of_fuel g) (level g) (current_view_key g)
    (sprites_by_view g) (destroyed g).

Definition set_guns (v : Z) (g : TankGame) : TankGame :=
  mkTankGame (fuel g) (parts g) (shells g) v (crew g) (ammo g) (driving g)
    (engine_broken g) (out_of_fuel g) (level g) (current_view_key g)
    (sprites_by_view g) (destroyed g).

Definition set_crew (v : Z) (g : TankGame) : TankGame :=
  mkTankGame (fuel g) (parts g) (shells g) (guns g) v (ammo g) (driving g)
    (engine_broken g) (out_of_fuel g) (level g) (current_view_key g)
    (sprites_by_view g) (destroyed g).

Definition set_ammo (v : Z) (g : TankGame) : TankGame :=
  mkTankGame (fuel g) (parts g) (shells g) (guns g) (crew g) v (driving g)
    (engine_broken g) (out_of_fuel g) (level g) (current_view_key g)
    (sprites_by_view g) (destroyed g).

Definition set_driving (v : bool) (g : TankGame) : TankGame :=
  mkTankGame (fuel g) (parts g) (shells g) (guns g) (crew g) (ammo g) v
    (engine_broken g) (out_of_fuel g) (level g) (current_view_key g)
    (sprites_by_view g) (destroyed g).

Definition set_engine_broken (v : bool) (g : TankGame) : TankGame :=
  mkTankGame (fuel g) (parts g) (shells g) (guns g) (crew g) (ammo g)
    (driving g) v (out_of_fuel g) (level g) (current_view_key g)
    (sprites_by_view g) (destroyed g).

Definition set_out_of_fuel (v : bool) (g : TankGame) : TankGame :=
  mkTankGame (fuel g) (parts g) (shells g) (guns g) (crew g) (ammo g)
    (driving g) (engine_broken g) v (level g) (current_view_key g)
    (sprites_by_view g) (destroyed g).

Definition set_level (v : Level.t) (g : TankGame) : TankGame :=
  mkTankGame (fuel g) (parts g) (shells g) (guns g) (crew g) (ammo g)
    (driving g) (engine_broken g) (out_of_fuel g) v (current_view_key g)
    (sprites_by_view g) (destroyed g).

Definition set_current_view_key (v : View) (g : TankGame) : TankGame :=
  mkTankGame (fuel g) (parts g) (shells g) (guns g) (crew g) (ammo g)
    (driving g) (engine_broken g) (out_of_fuel g) (level g) v
    (sprites_by_view g) (destroyed g).

Definition set_sprites_by_view (v : SpriteMap) (g : TankGame) : TankGame :=
  mkTankGame (fuel g) (parts g) (shells g) (guns g) (crew g) (ammo g)
    (driving g) (engine_broken g) (out_of_fuel g) (level g)
    (current_view_key g) v (destroyed g).

Definition set_destroyed (v : bool) (g : TankGame) : TankGame :=
  mkTankGame (fuel g) (parts g) (shells g) (guns g) (crew g) (ammo g)
    (driving g) (engine_broken g) (out_of_fuel g) (level g)
    (current_view_key g) (sprites_by_view g) v.

Definition set_level_active (v : bool) (l : Level.t) : Level.t :=
  Level.mk v (Level.reason l) (Level.fuel_cans l) (Level.parts l)
    (Level.shells l) (Level.zombies l) (Level.ammo_boxes l).

(** ** Random draws *)

(** One iteration of [place]: [x], [y] and the index drawn by
    [random.choice(["OUT_DRIVER", "OUT_LEFT", "OUT_RIGHT"])]. *)
Record Placement : Type := mkPlacement { px : Z; py : Z; pchoice : nat }.

(** The draws of [_start_level]: the five [random.randint] results and,
    for every kind, the placement of its i-th sprite. *)
Record LevelDraws : Type := mkLevelDraws {
  d_parts : Z;
  d_fuel_cans : Z;
  d_shells : Z;
  d_zombies : Z;
  d_ammo_boxes : Z;
  d_place : Kind -> nat -> Placement
}.

(** The draws of [_resolve_scavenge]: [random.random()] for survival,
    [random.random()] for the loot fraction, the index of
    [random.choice(choices)], and the yield of the i-th fuel can. *)
Record ScavDraws : Type := mkScavDraws {
  r_survive : Q;
  r_frac : spec_float;
  r_pick : nat;
  r_fuel : nat -> Z
}.

(** ** Driving and level timers *)

(** [_clamp] (l. 378-379). *)
Definition _clamp (x lo hi : Q) : Q := py_max lo (py_min hi x).

(** [_start_timers_for_driving] (l. 591-607); the two timers it arms are the
    events [Ev_fuel_tick] and [Ev_breakdown] of the session below. *)
Definition _start_timers_for_driving (g : TankGame) : TankGame :=
  let g := set_driving true g in
  let g := set_level (set_level_active false (level g)) g in
  let g := set_engine_broken false g in
  set_out_of_fuel false g.

(** [_show_view] (l. 470-489), [_transition_to] and [_attempt_outside]: the
    game state they change is the key of the current view. *)
Definition _show_view (view_key : View) (g : TankGame) : TankGame :=
  set_current_view_key view_key g.

Definition _transition_to (view_key : View) (g : TankGame) : TankGame :=
  _show_view view_key g.

Definition _attempt_outside (outside_key : View) (g : TankGame) : TankGame :=
  _show_view outside_key g.

(** ** Level creation *)

(** The list [place] chooses a view from. *)
Definition outside_keys : list View := [OUT_DRIVER; OUT_LEFT; OUT_RIGHT].

(** [self.sprites_by_view[view_key].append(sp)]. *)
Definition append_at (k : View) (sp : Sprite.t) (m : SpriteMap) : SpriteMap :=
  match sprites_at k m with
  | Some l => store_at k (l ++ [sp]) m
  | None => m
  end.

(** [place(kind, n)], iterations [i, i + n). *)
Fixpoint place_from (draw : nat -> Placement) (kind : Kind) (i n : nat)
    (m : SpriteMap) : SpriteMap :=
  match n with
  | O => m
  | S n' =>
      let d := draw i in
      let view_key := choice outside_keys (pchoice d) OUT_DRIVER in
      place_from draw kind (S i) n'
        (append_at view_key (Sprite.mk kind (px d) (py d) 50 50) m)
  end.

(** [place(kind, n)]; [range(n)] is empty for a negative [n]. *)
Definition place (ld : LevelDraws) (kind : Kind) (n : Z) (m : SpriteMap)
    : SpriteMap :=
  place_from (d_place ld kind) kind 0 (Z.to_nat n) m.

(** [_populate_outside_sprites] (l. 788-810): the three lists are cleared,
    then parts, fuel cans, shells, zombies and ammo boxes are placed. *)
Definition _populate_outside_sprites (ld : LevelDraws) (g : TankGame)
    : TankGame :=
  let m := no_sprites in
  let m := place ld part_ (Level.parts (level g)) m in
  let m := place ld fuel_ (Level.fuel_cans (level g)) m in
  let m := place ld shell_ (Level.shells (level g)) m in
  let m := place ld zombie_ (Level.zombies (level g)) m in
  let m := place ld ammo_ (Level.ammo_boxes (level g)) m in
  set_sprites_by_view m g.

(** [_start_level] (l. 752-786). *)
Definition _start_level (reason : Reason) (ld : LevelDraws) (g : TankGame)
    : TankGame :=
  let g := set_driving false g in
  let g := set_engine_broken (Reason_eqb reason Engine_breakdown) g in
  let g := set_out_of_fuel (Reason_eqb reason Out_of_fuel) g in
  let g := set_level
             (Level.mk true reason
                (d_fuel_cans ld)
                (Z.max 1 (d_parts ld))
                (d_shells ld)
                (d_zombies ld)
                (d_ammo_boxes ld)) g in
  _populate_outside_sprites ld g.

(** [_trigger_breakdown_level] and [_trigger_out_of_fuel_level]
    (l. 742-750). *)
Definition _trigger_breakdown_level (ld : LevelDraws) (g : TankGame)
    : TankGame :=
  if negb (driving g) then g else _start_level Engine_breakdown ld g.

Definition _trigger_out_of_fuel_level (ld : LevelDraws) (g : TankGame)
    : TankGame :=
  if negb (driving g) then g else _start_level Out_of_fuel ld g.

(** [_fuel_tick] (l. 624-633). *)
Definition _fuel_tick (ld : LevelDraws) (g : TankGame) : TankGame :=
  if negb (driving g) then g
  else
    let g := set_fuel (fuel g - FUEL_CONSUMPTION_PER_SEC) g in
    if fuel g <=? 0 then
      let g := set_fuel 0 g in
      _trigger_out_of_fuel_level ld g
    else g.

(** [_driver_stop] (l. 635-642). *)
Definition _driver_stop (ld : LevelDraws) (g : TankGame) : TankGame :=
  if negb (driving g) then g else _start_level Manual_stop ld g.

(** [_driver_start] (l. 644-659). *)
Definition _driver_start (g : TankGame) : TankGame * list Msg :=
  if driving g then (g, [])
  else if engine_broken g then (g, [Cannot_start_engine_broken])
  else if out_of_fuel g && (fuel g <=? 0) then (g, [Cannot_start_no_fuel])
  else (_show_view DRIVER (_start_timers_for_driving g), []).

(** ** Clicking: cannon / machine gun *)

(** [sp.kind == "zombie"] and the click lies inside the sprite's box. *)
Definition zombie_hit (ex ey : Z) (sp : Sprite.t) : bool :=
  Kind_eqb (Sprite.kind sp) zombie_
  && ((Sprite.x sp <=? ex) && (ex <=? Sprite.x sp + Sprite.w sp))
  && ((Sprite.y sp <=? ey) && (ey <=? Sprite.y sp + Sprite.h sp)).

(** The backwards scan for the clicked zombie: the largest index (counted
    from [i]) whose sprite is hit. *)
Fixpoint find_clicked (ex ey : Z) (i : nat) (sprites : list Sprite.t)
    : option nat :=
  match sprites with
  | [] => None
  | sp :: tl =>
      match find_clicked ex ey (S i) tl with
      | Some j => Some j
      | None => if zombie_hit ex ey sp then Some i else None
      end
  end.

(** The "kill zombie" tail of the handler: [del sprites[clicked_idx]]. *)
Definition kill_zombie (clicked_idx : nat) (sprites : list Sprite.t)
    (g : TankGame) : TankGame :=
  set_sprites_by_view
    (store_at (current_view_key g) (del_nth clicked_idx sprites)
       (sprites_by_view g)) g.

(** [_on_canvas_click] (l. 862-914); [num] is [event.num], 1 for the left
    and 3 for the right button. *)
Definition _on_canvas_click (ex ey num : Z) (g : TankGame)
    : TankGame * list Msg :=
  if negb (Level.active (level g)) then (g, [])
  else
    match sprites_at (current_view_key g) (sprites_by_view g) with
    | None => (g, [])
    | Some sprites =>
        match find_clicked ex ey 0 sprites with
        | None => (g, [])
        | Some clicked_idx =>
            match current_view_key g with
            | OUT_DRIVER =>
                if ammo g <? MG_AMMO_COST then (g, [Not_enough_ammo])
                else
                  (kill_zombie clicked_idx sprites
                     (set_ammo (ammo g - MG_AMMO_COST) g), [])
            | _ =>
                if num =? 1 then
                  if shells g <=? 0 then (g, [No_shells])
                  else
                    (kill_zombie clicked_idx sprites
                       (set_shells (shells g - 1) g), [])
                else if num =? 3 then
                  if ammo g <? MG_AMMO_COST then (g, [Not_enough_ammo])
                  else
                    (kill_zombie clicked_idx sprites
                       (set_ammo (ammo g - MG_AMMO_COST) g), [])
                else (g, [])
            end
        end
    end.

(** ** Engine repair *)

(** [_fix_engine] (l. 920-945). *)
Definition _fix_engine (g : TankGame) : TankGame * list Msg :=
  if negb (Level.active (level g)) then (g, [No_repair_needed_driving])
  else if negb (engine_broken g) then (g, [No_repair_needed_not_broken])
  else if parts g <=? 0 then (g, [Not_enough_parts])
  else
    let g := set_parts (parts g - 1) g in
    let g := set_engine_broken false g in
    (g, [Engine_fixed]).

(** ** Scavenging *)

(** The value of the dialog's radio buttons: "quick", "moderate",
    "greedy" (the handler treats every other string as "greedy"). *)
Inductive Approach : Type := quick | moderate | greedy.

(** [base] and [max_frac] of the three approaches (l. 984-992). *)
Definition base_of (approach : Approach) : Q :=
  match approach with
  | quick => 75 # 100
  | moderate => 50 # 100
  | greedy => 33 # 100
  end.

(** [max_frac]: [1 / 3], [0.50] and [1.00] as doubles. *)
Definition max_frac_of (approach : Approach) : spec_float :=
  match approach with
  | quick => B64.div (B64.of_int 1) (B64.of_int 3)
  | moderate => B64.lit 50 100
  | greedy => B64.lit 100 100
  end.

(** The sprites of kind [k] in a list. *)
Definition count_kind (k : Kind) (l : list Sprite.t) : nat :=
  length (filter (fun sp => Kind_eqb (Sprite.kind sp) k) l).

(** [_count_remaining_items()[k]]. *)
Definition _count_remaining_items (m : SpriteMap) (k : Kind) : Z :=
  Z.of_nat (count_kind k (at_OUT_DRIVER m)
            + count_kind k (at_OUT_LEFT m)
            + count_kind k (at_OUT_RIGHT m)).

(** The inner [while] of [_remove_items_from_map] on one list: delete
    sprites of [kind] from the front until [remaining] reaches zero;
    returns the list and what is left of [remaining]. *)
Fixpoint remove_from (kind : Kind) (sprites : list Sprite.t)
    (remaining : nat) : list Sprite.t * nat :=
  match sprites with
  | [] => ([], remaining)
  | sp :: tl =>
      match remaining with
      | O => (sprites, O)
      | S r =>
          if Kind_eqb (Sprite.kind sp) kind then remove_from kind tl r
          else
            let (tl', r') := remove_from kind tl remaining in
            (sp :: tl', r')
      end
  end.

(** [_remove_items_from_map] (l. 1089-1101): the views in the order
    OUT_DRIVER, OUT_LEFT, OUT_RIGHT. *)
Definition _remove_items_from_map (kind : Kind) (n : Z) (m : SpriteMap)
    : SpriteMap :=
  let remaining := Z.to_nat n in
  let (l1, remaining) := remove_from kind (at_OUT_DRIVER m) remaining in
  let (l2, remaining) := remove_from kind (at_OUT_LEFT m) remaining in
  let (l3, _) := remove_from kind (at_OUT_RIGHT m) remaining in
  mkSpriteMap l1 l2 l3.

(** The chance computed at the head of [_resolve_scavenge] (l. 994-998),
    as the exact rational the formula denotes. *)
Definition scavenge_chance (approach : Approach) (give_gun : bool)
    (g : TankGame) : Q :=
  let chance := base_of approach in
  let chance :=
    (chance - inject_Z (Level.zombies (level g)) * ZOMBIE_PENALTY_PER_ZOMBIE)%Q in
  let chance :=
    if give_gun && (0 <? guns g) then (chance + GUN_BONUS)%Q else chance in
  _clamp chance CHANCE_MIN CHANCE_MAX.

(** The constants of l. 60-63 and the bases of l. 984-992 as doubles. *)
Definition ZOMBIE_PENALTY_PER_ZOMBIE_float : spec_float := B64.lit 5 100.
Definition GUN_BONUS_float : spec_float := B64.lit 15 100.
Definition CHANCE_MIN_float : spec_float := B64.lit 5 100.
Definition CHANCE_MAX_float : spec_float := B64.lit 95 100.

Definition base_of_float (approach : Approach) : spec_float :=
  match approach with
  | quick => B64.lit 75 100
  | moderate => B64.lit 50 100
  | greedy => B64.lit 33 100
  end.

(** The same chance as the interpreter computes it, in binary64. *)
Definition scavenge_chance_float (approach : Approach) (give_gun : bool)
    (g : TankGame) : spec_float :=
  let chance := base_of_float approach in
  let chance :=
    B64.sub chance
      (B64.mul (B64.of_int (Level.zombies (level g)))
         ZOMBIE_PENALTY_PER_ZOMBIE_float) in
  let chance :=
    if give_gun && (0 <? guns g) then B64.add chance GUN_BONUS_float
    else chance in
  B64.clamp chance CHANCE_MIN_float CHANCE_MAX_float.

(** [int(chance * 100)], the percentage of the "Returned" box (l. 1078). *)
Definition percent_float (approach : Approach) (give_gun : bool)
    (g : TankGame) : Z :=
  B64.to_int (B64.mul (scavenge_chance_float approach give_gun g)
                (B64.of_int 100)).

(** What the scavenger brings back, in sprites. *)
Record Loot : Type := mkLoot {
  got_parts : Z;
  got_shells : Z;
  got_fuel_cans : Z;
  got_ammo_boxes : Z
}.

(** [int(avail[kind] * frac)] (l. 1029-1032): the count becomes a float,
    the product is rounded, the result truncated.  A count below [2 ^ 53]
    is converted without rounding; the interpreter raises [OverflowError]
    for a count that no double holds, which [B64.of_int] does not show, so
    the theorems on the loot keep to counts below [2 ^ 53]. *)
Definition share (avail : Z) (frac : spec_float) : Z :=
  B64.to_int (B64.mul (B64.of_int avail) frac).

(** The loot of a survivor (l. 1029-1049): a fraction of each kind and,
    when that rounds to nothing although something is left, one item of a
    random kind. *)
Definition take_loot (avail : Kind -> Z) (frac : spec_float) (pick : nat)
    : Loot :=
  let got_parts := share (avail part_) frac in
  let got_shells := share (avail shell_) frac in
  let got_fuel_cans := share (avail fuel_) frac in
  let got_ammo_boxes := share (avail ammo_) frac in
  if (got_parts + got_shells + got_fuel_cans + got_ammo_boxes =? 0)
     && (0 <? avail part_ + avail shell_ + avail fuel_ + avail ammo_)
  then
    let choices :=
      (if 0 <? avail part_ then [part_] else [])
      ++ (if 0 <? avail shell_ then [shell_] else [])
      ++ (if 0 <? avail fuel_ then [fuel_] else [])
      ++ (if 0 <? avail ammo_ then [ammo_] else []) in
    match choice choices pick ammo_ with
    | part_ => mkLoot 1 got_shells got_fuel_cans got_ammo_boxes
    | shell_ => mkLoot got_parts 1 got_fuel_cans got_ammo_boxes
    | fuel_ => mkLoot got_parts got_shells 1 got_ammo_boxes
    | _ => mkLoot got_parts got_shells got_fuel_cans 1
    end
  else mkLoot got_parts got_shells got_fuel_cans got_ammo_boxes.

(** [fuel_gained]: one [random.randint(FUEL_CAN_MIN, FUEL_CAN_MAX)] per
    collected can. *)
Fixpoint fuel_yield (draw : nat -> Z) (n : nat) : Z :=
  match n with
  | O => 0
  | S n' => fuel_yield draw n' + draw n'
  end.

(** [_resolve_scavenge] (l. 981-1079). *)
Definition _resolve_scavenge (approach : Approach) (give_gun : bool)
    (rd : ScavDraws) (g : TankGame) : TankGame * list Msg :=
  let max_frac := max_frac_of approach in
  let chance := scavenge_chance approach give_gun g in
  let chance_float := scavenge_chance_float approach give_gun g in
  let gun_committed := give_gun && (0 <? guns g) in
  let g := if gun_committed then set_guns (guns g - 1) g else g in
  let survived := Qltb (r_survive rd) chance in
  if negb survived then
    let g := set_crew (crew g - 1) g in
    if crew g <=? 0 then (set_destroyed true g, [Scavenging; Lost; Game_Over])
    else (g, [Scavenging; Lost])
  else
    let g := if gun_committed then set_guns (guns g + 1) g else g in
    let frac := B64.mul (r_frac rd) max_frac in
    let avail := _count_remaining_items (sprites_by_view g) in
    let loot := take_loot avail frac (r_pick rd) in
    let fuel_gained := fuel_yield (r_fuel rd) (Z.to_nat (got_fuel_cans loot)) in
    let ammo_gained := got_ammo_boxes loot * AMMO_PER_BOX in
    let g := set_parts (parts g + got_parts loot) g in
    let g := set_shells (shells g + got_shells loot) g in
    let g := set_fuel (fuel g + fuel_gained) g in
    let g := set_ammo (ammo g + ammo_gained) g in
    let m := sprites_by_view g in
    let m := _remove_items_from_map part_ (got_parts loot) m in
    let m := _remove_items_from_map shell_ (got_shells loot) m in
    let m := _remove_items_from_map fuel_ (got_fuel_cans loot) m in
    let m := _remove_items_from_map ammo_ (got_ammo_boxes loot) m in
    let g := set_sprites_by_view m g in
    (g, [Scavenging;
         Returned (got_parts loot) (got_shells loot) fuel_gained ammo_gained
           (B64.to_int (B64.mul chance_float (B64.of_int 100)))]).

(** [_open_scavenge_dialog]: whether the dialog opens. *)
Definition _open_scavenge_dialog (g : TankGame) : bool * list Msg :=
  if negb (Level.active (level g)) then (false, [Cannot_scavenge])
  else if crew g <=? 0 then (false, [No_crew])
  else (true, []).

(** The "Send Scavenger" command: the dialog is modal, so pressing its
    Send button runs [_resolve_scavenge] on the state in which the dialog
    was opened. *)
Definition scavenge (approach : Approach) (give_gun : bool) (rd : ScavDraws)
    (g : TankGame) : TankGame * list Msg :=
  match _open_scavenge_dialog g with
  | (true, _) => _resolve_scavenge approach give_gun rd g
  | (false, msgs) => (g, msgs)
  end.

(** ** The session *)

(** [TankGame.__init__]. *)
Definition init : TankGame :=
  _start_timers_for_driving
    (mkTankGame STARTING_FUEL STARTING_PARTS STARTING_SHELLS STARTING_GUNS
       STARTING_CREW STARTING_AMMO true false false
       (Level.mk false No_reason 0 0 0 0 0) DRIVER no_sprites false).

(** [_on_close]. *)
Definition _on_close (g : TankGame) : TankGame := set_destroyed true g.

(** What the Tk main loop can deliver to the application: the two timers,
    the sidebar buttons, a canvas click, the scavenging dialog and the
    closing of the window. *)
Inductive Event : Type :=
| Ev_fuel_tick (ld : LevelDraws)
| Ev_breakdown (ld : LevelDraws)
| Ev_stop (ld : LevelDraws)
| Ev_start
| Ev_transition_to (view_key : View)
| Ev_attempt_outside (outside_key : View)
| Ev_canvas_click (ex ey num : Z)
| Ev_fix_engine
| Ev_scavenge (approach : Approach) (give_gun : bool) (rd : ScavDraws)
| Ev_close.

Definition handle (e : Event) (g : TankGame) : TankGame * list Msg :=
  match e with
  | Ev_fuel_tick ld => (_fuel_tick ld g, [])
  | Ev_breakdown ld => (_trigger_breakdown_level ld g, [])
  | Ev_stop ld => (_driver_stop ld g, [])
  | Ev_start => _driver_start g
  | Ev_transition_to v => (_transition_to v g, [])
  | Ev_attempt_outside v => (_attempt_outside v g, [])
  | Ev_canvas_click ex ey num => _on_canvas_click ex ey num g
  | Ev_fix_engine => _fix_engine g
  | Ev_scavenge approach give_gun rd => scavenge approach give_gun rd g
  | Ev_close => (_on_close g, [])
  end.

(** [run]: [mainloop] dispatches events to the handlers until the root
    window is destroyed; afterwards no callback runs any more. *)
Definition dispatch (e : Event) (g : TankGame) : TankGame * list Msg :=
  if destroyed g then (g, []) else handle e g.

Definition run (es : list Event) (g : TankGame) : TankGame :=
  fold_left (fun g e => fst (dispatch e g)) es g.

(** ** Contracts of the random source and reachable states *)

(** [random.randint(a, b)] returns an integer in [[a, b]]. *)
Definition valid_level_draws (ld : LevelDraws) : Prop :=
  1 <= d_parts ld <= 3 /\
  1 <= d_fuel_cans ld <= 3 /\
  0 <= d_shells ld <= 3 /\
  1 <= d_zombies ld <= 6 /\
  1 <= d_ammo_boxes ld <= 2 /\
  forall k i,
    80 <= px (d_place ld k i) <= VIEW_W - 120 /\
    533 <= py (d_place ld k i) <= VIEW_H - 100.

(** [random.random()] returns a float in [[0, 1)]. *)
Definition valid_scav_draws (rd : ScavDraws) : Prop :=
  (0 <= r_survive rd /\ r_survive rd < 1)%Q /\
  B64.in_unit (r_frac rd) /\
  forall i, FUEL_CAN_MIN <= r_fuel rd i <= FUEL_CAN_MAX.

Definition valid_event (e : Event) : Prop :=
  match e with
  | Ev_fuel_tick ld | Ev_breakdown ld | Ev_stop ld => valid_level_draws ld
  | Ev_transition_to v => is_outside v = false
  | Ev_attempt_outside v => is_outside v = true
  | Ev_scavenge _ _ rd => valid_scav_draws rd
  | _ => True
  end.

(** The states a session can be in. *)
Inductive reachable : TankGame -> Prop :=
| reachable_init : reachable init
| reachable_step (g : TankGame) (e : Event) :
    reachable g -> valid_event e -> reachable (fst (dispatch e g)).

(** The zombies still drawn in the outside views. *)
Definition zombies_alive (g : TankGame) : Z :=
  _count_remaining_items (sprites_by_view g) zombie_.

(** ** Concrete draws used in the examples *)

Definition place_left (k : Kind) (i : nat) : Placement :=
  mkPlacement 100 600 1.

(** One part, one fuel can, no shell, one zombie, one ammo box, all of
    them seen through the left gunner's slit. *)
Definition draws_one_zombie : LevelDraws :=
  mkLevelDraws 1 1 0 1 1 place_left.

(** A scavenger who does not come back ([random.random()] gives 0.99). *)
Definition draws_die : ScavDraws :=
  mkScavDraws (99 # 100) (B64.lit 1 2) 0 (fun _ => 10).

(** A scavenger who comes back ([random.random()] gives 0.0) with half of
    the loot fraction. *)
Definition draws_live : ScavDraws :=
  mkScavDraws 0 (B64.lit 1 2) 0 (fun _ => 10).

(** ** The cannon of the first prototype

    [tank survival v1.py] keeps the zombies of a level in
    [level_pool.zombies] and draws each of them in every outside view; its
    [shoot_zombie_at] is modelled on the fields it reads or writes. *)

Module V1.

Module LevelPool.
Record t : Type := mk { fuelcans : Z; shells : Z; parts : Z; zombies : Z }.
End LevelPool.

(** [pygame.Rect]. *)
Record Rect : Type := mkRect { left : Z; top : Z; width : Z; height : Z }.

(** [Rect.collidepoint]: the right and bottom edges lie outside. *)
Definition collidepoint (r : Rect) (mouse_pos : Z * Z) : bool :=
  let (mx, my) := mouse_pos in
  (left r <=? mx) && (mx <? left r + width r)
  && (top r <=? my) && (my <? top r + height r).

(** [SpriteObj.kind]: "ZOMBIE", or an item marker. *)
Inductive SpriteKind : Type := ZOMBIE | FUEL | PART | SHELL.

Record SpriteObj : Type := mkSpriteObj { kind : SpriteKind; rect : Rect }.

Definition is_zombie (sp : SpriteObj) : bool :=
  match kind sp with
  | ZOMBIE => true
  | _ => false
  end.

(** [outside_sprites], keyed by the three outside views. *)
Record Sprites : Type := mkSprites {
  at_V_OUT_DRIVER : list SpriteObj;
  at_V_OUT_LEFT : list SpriteObj;
  at_V_OUT_RIGHT : list SpriteObj
}.

Inductive Popup : Type := No_shells_left.

Record TankGame : Type := mk {
  shells : Z;
  in_level : bool;
  level_pool : option LevelPool.t;
  popup_text : option Popup;
  outside_sprites : Sprites
}.

(** The first zombie under the mouse, scanning the list forwards. *)
Fixpoint first_hit (mouse_pos : Z * Z) (sprites : list SpriteObj)
    : option nat :=
  match sprites with
  | [] => None
  | sp :: tl =>
      if is_zombie sp && collidepoint (rect sp) mouse_pos then Some O
      else option_map S (first_hit mouse_pos tl)
  end.

(** The loop over another view: pop its first zombie, if any. *)
Fixpoint pop_first_zombie (other : list SpriteObj) : list SpriteObj :=
  match other with
  | [] => []
  | osp :: tl => if is_zombie osp then tl else osp :: pop_first_zombie tl
  end.

(** [if level_pool and level_pool.zombies > 0: level_pool.zombies -= 1]. *)
Definition reduce_pool (pool : option LevelPool.t) : option LevelPool.t :=
  match pool with
  | Some p =>
      if 0 <? LevelPool.zombies p then
        Some (LevelPool.mk (LevelPool.fuelcans p) (LevelPool.shells p)
                (LevelPool.parts p) (LevelPool.zombies p - 1))
      else Some p
  | None => None
  end.

Definition shoot_zombie_at (view : View) (mouse_pos : Z * Z) (g : TankGame)
    : TankGame :=
  if negb (in_level g) then g
  else
    let s := outside_sprites g in
    match view with
    | OUT_LEFT =>
        if shells g <=? 0 then
          mk (shells g) (in_level g) (level_pool g) (Some No_shells_left) s
        else
          match first_hit mouse_pos (at_V_OUT_LEFT s) with
          | None => g
          | Some i =>
              mk (shells g - 1) (in_level g) (reduce_pool (level_pool g))
                (popup_text g)
                (mkSprites (pop_first_zombie (at_V_OUT_DRIVER s))
                   (del_nth i (at_V_OUT_LEFT s))
                   (pop_first_zombie (at_V_OUT_RIGHT s)))
          end
    | OUT_RIGHT =>
        if shells g <=? 0 then
          mk (shells g) (in_level g) (level_pool g) (Some No_shells_left) s
        else
          match first_hit mouse_pos (at_V_OUT_RIGHT s) with
          | None => g
          | Some i =>
              mk (shells g - 1) (in_level g) (reduce_pool (level_pool g))
                (popup_text g)
                (mkSprites (pop_first_zombie (at_V_OUT_DRIVER s))
                   (pop_first_zombie (at_V_OUT_LEFT s))
                   (del_nth i (at_V_OUT_RIGHT s)))
          end
    | _ => g
    end.

End V1.

(** ** Definitions used in the statements *)

(** The chance as the specification words it: the base of the risk mode,
    minus a penalty per zombie, plus a bonus when a gun is committed and a
    gun is available, clamped into [[0.05, 0.95]].  The specification
    gives the penalty 0.05 and the bonus 0.15. *)
Definition spec_base (approach : Approach) : Q :=
  match approach with
  | quick => 0.75
  | moderate => 0.50
  | greedy => 0.33
  end.

Definition chance_formula (base penalty bonus : Q) (zombies : Z) (gun : bool)
    : Q :=
  Qmax 0.05
    (Qmin 0.95 (base - inject_Z zombies * penalty + (if gun then bonus else 0))).

(** The same formula evaluated in binary64, operation by operation. *)
Definition chance_formula_float (base penalty bonus : spec_float)
    (zombies : Z) (gun : bool) : spec_float :=
  B64.clamp
    (B64.add (B64.sub base (B64.mul (B64.of_int zombies) penalty))
       (if gun then bonus else B64.of_int 0))
    (B64.lit 5 100) (B64.lit 95 100).

(** 2^-52, the distance between 1 and the next double. *)
Definition epsilon : Q := 1 # 4503599627370496.

(** The four removals at the end of a successful run. *)
Definition remove_loot (loot : Loot) (m : SpriteMap) : SpriteMap :=
  _remove_items_from_map ammo_ (got_ammo_boxes loot)
    (_remove_items_from_map fuel_ (got_fuel_cans loot)
       (_remove_items_from_map shell_ (got_shells loot)
          (_remove_items_from_map part_ (got_parts loot) m))).

(** The level counter of a kind, as [_start_level] stores it. *)
Definition level_count (l : Level.t) (k : Kind) : Z :=
  match k with
  | fuel_ => Level.fuel_cans l
  | part_ => Level.parts l
  | shell_ => Level.shells l
  | zombie_ => Level.zombies l
  | ammo_ => Level.ammo_boxes l
  end.

(** No counter of the ledger is negative. *)
Definition ledger_ok (g : TankGame) : Prop :=
  0 <= fuel g /\ 0 <= shells g /\ 0 <= guns g /\
  0 <= crew g /\ 0 <= parts g /\ 0 <= ammo g.

(** What every event preserves: the ledger is sound, a session without
    crew has lost its window, an empty tank stands in a level begun by the
    fuel running out, and a level is active exactly when the tank is not
    driving. *)
Record session_inv (g : TankGame) : Prop := mk_session_inv {
  inv_ledger : ledger_ok g;
  inv_crew : destroyed g = true \/ 0 < crew g;
  inv_fuel : 0 < fuel g \/ (driving g = false /\ out_of_fuel g = true);
  inv_active : Level.active (level g) = negb (driving g)
}.

(** ** Sessions used in the examples *)

(** The tank after 200 seconds of driving: the fuel has run out. *)
Definition ran_dry : TankGame :=
  run (repeat (Ev_fuel_tick draws_one_zombie) 200) init.

(** The level of the examples: the driver stops the tank, the player goes
    to the left gunner's station and looks through its slit. *)
Definition left_slit_level : TankGame :=
  run [Ev_stop draws_one_zombie; Ev_transition_to LEFT_GUNNER;
       Ev_attempt_outside OUT_LEFT] init.

(** ... and after a cannon shot at its only zombie. *)
Definition after_shot : TankGame :=
  fst (dispatch (Ev_canvas_click 110 610 1) left_slit_level).

(** A breakdown, with no part aboard. *)
Definition breakdown_level : TankGame :=
  run [Ev_breakdown draws_one_zombie] init.

(** The same level after a Quick run that brought back its only part. *)
Definition with_part : TankGame :=
  fst (dispatch (Ev_scavenge quick false draws_live) breakdown_level).

(** A manual stop followed by three lost scavengers: one crew member left. *)
Definition last_man : TankGame :=
  run (Ev_stop draws_one_zombie
       :: repeat (Ev_scavenge greedy false draws_die) 3) init.

(** ... and after the fourth. *)
Definition all_lost : TankGame :=
  fst (dispatch (Ev_scavenge greedy false draws_die) last_man).


(** ** Tactics *)

(** Reduce field accesses on updated records. *)
Ltac fields :=
  cbn [fst snd negb
       fuel parts shells guns crew ammo driving engine_broken out_of_fuel
       level current_view_key sprites_by_view destroyed
       set_fuel set_parts set_shells set_guns set_crew set_ammo set_driving
       set_engine_broken set_out_of_fuel set_level set_current_view_key
       set_sprites_by_view set_destroyed set_level_active
       Level.active Level.reason Level.fuel_cans Level.parts Level.shells
       Level.zombies Level.ammo_boxes] in *.

Ltac break_match :=
  repeat match goal with
         | |- context [match ?x with _ => _ end] => destruct x eqn:?
         end.

(** ** Further notions about the Tkinter game *)

(** Some zombie sprite of the list contains the point. *)
Definition zombie_under (ex ey : Z) (sprites : list Sprite.t) : bool :=
  existsb (zombie_hit ex ey) sprites.

(** The flags of the level state machine agree with the level: a level is
    active exactly when the tank does not drive, a broken engine belongs to
    a level begun by a breakdown, the out-of-fuel flag to a level begun by
    the fuel running out. *)
Definition lifecycle_ok (g : TankGame) : Prop :=
  Level.active (level g) = negb (driving g)
  /\ (engine_broken g = true ->
      driving g = false /\ Level.reason (level g) = Engine_breakdown)
  /\ (out_of_fuel g = true ->
      driving g = false /\ Level.reason (level g) = Out_of_fuel)
  /\ (driving g = true -> 0 < fuel g).

(** The largest value [_start_level] can draw for the counter of a kind. *)
Definition level_count_max (k : Kind) : Z :=
  match k with
  | fuel_ => 3
  | part_ => 3
  | shell_ => 3
  | zombie_ => 6
  | ammo_ => 2
  end.

(** The sprites of every kind are covered by the counters of the level,
    and the counters by the ranges they are drawn from. *)
Definition pool_bounded (g : TankGame) : Prop :=
  forall k : Kind,
    0 <= _count_remaining_items (sprites_by_view g) k
      <= level_count (level g) k
    /\ level_count (level g) k <= level_count_max k.

(** Every sprite of the map satisfies [P]. *)
Definition all_sprites (P : Sprite.t -> Prop) (m : SpriteMap) : Prop :=
  Forall P (at_OUT_DRIVER m) /\ Forall P (at_OUT_LEFT m)
  /\ Forall P (at_OUT_RIGHT m).

(** A sprite as [place] draws it: 50 by 50, horizontally inside the view,
    vertically in the bottom third of the picture. *)
Definition well_placed (sp : Sprite.t) : Prop :=
  Sprite.w sp = 50 /\ Sprite.h sp = 50
  /\ 80 <= Sprite.x sp <= VIEW_W - 120
  /\ 2 * VIEW_H <= 3 * (Sprite.y sp + 1)
  /\ Sprite.y sp <= VIEW_H - 100.

(** The sprites of the other kinds, in their order. *)
Definition others (kind : Kind) (l : list Sprite.t) : list Sprite.t :=
  filter (fun sp => negb (Kind_eqb (Sprite.kind sp) kind)) l.

(** The two flags of a level and its reason. *)
Definition flags_ok (g : TankGame) : Prop :=
  (engine_broken g = true ->
   driving g = false /\ Level.reason (level g) = Engine_breakdown)
  /\ (out_of_fuel g = true ->
      driving g = false /\ Level.reason (level g) = Out_of_fuel).

(** The level with its zombie counter set to [z]. *)
Definition set_level_zombies (z : Z) (l : Level.t) : Level.t :=
  Level.mk (Level.active l) (Level.reason l) (Level.fuel_cans l)
    (Level.parts l) (Level.shells l) z (Level.ammo_boxes l).



(** ** The second prototype

    [tank survival v2.py] (class [Game]): items and zombies are objects
    with a [collected] and an [alive] flag, kept per outside view; scavenging
    samples the items that are not yet collected.  The pop-ups a handler
    shows are returned with the new state; the clocks ([breakdown_timer],
    [fuel_accum], the pop-up timer), the pictures and the button rectangles
    are not modelled.  Line numbers refer to that file.  The floats of this
    module (the chance, [len(remaining_items) * frac]) are the exact
    rationals the source expressions denote; the chance as a double is
    [v2_scavenge_chance_float]. *)

From Stdlib Require Import Qround.

Module V2.

Definition STARTING_FUEL : Z := 200.
Definition STARTING_SHELLS : Z := 6.
Definition STARTING_GUNS : Z := 4.
Definition STARTING_CREW : Z := 4.
Definition FUEL_PICKUP_MIN : Z := 10.
Definition FUEL_PICKUP_MAX : Z := 100.
Definition MIN_PARTS_PER_LEVEL : Z := 1.
Definition EXTRA_PARTS_MAX : Z := 2.
Definition FUEL_CANS_MIN : Z := 1.
Definition FUEL_CANS_MAX : Z := 4.
Definition SHELLS_PICKUPS_MIN : Z := 0.
Definition SHELLS_PICKUPS_MAX : Z := 3.
Definition ZOMBIES_MIN : Z := 0.
Definition ZOMBIES_MAX : Z := 6.
Definition SHELLS_PER_SHOT : Z := 1.
Definition FADE_SPEED : Z := 18.

(** [clamp] (l. 74-75). *)
Definition clamp (v lo hi : Q) : Q := py_max lo (py_min hi v).

(** The seven views: four inside, three outside slits. *)
Inductive View : Type :=
| VIEW_DRIVER_INSIDE | VIEW_ENGINE | VIEW_CREW | VIEW_AMMO
| VIEW_OUT_DRIVER | VIEW_OUT_LEFT | VIEW_OUT_RIGHT.

Definition View_eqb (a b : View) : bool :=
  match a, b with
  | VIEW_DRIVER_INSIDE, VIEW_DRIVER_INSIDE | VIEW_ENGINE, VIEW_ENGINE
  | VIEW_CREW, VIEW_CREW | VIEW_AMMO, VIEW_AMMO
  | VIEW_OUT_DRIVER, VIEW_OUT_DRIVER | VIEW_OUT_LEFT, VIEW_OUT_LEFT
  | VIEW_OUT_RIGHT, VIEW_OUT_RIGHT => true
  | _, _ => false
  end.

(** [SpawnItem.kind]: "fuel", "part", "shells". *)
Inductive ItemKind : Type := fuel_item | part_item | shells_item.

(** [SpawnItem]; [amount] is [None] for a part. *)
Record SpawnItem : Type := mkSpawnItem {
  kind : ItemKind;
  rect : V1.Rect;
  collected : bool;
  amount : option Z
}.

Record Zombie : Type := mkZombie { zrect : V1.Rect; alive : bool }.

(** A dictionary with the three outside views as keys, in the order
    out_driver, out_left, out_right. *)
Record Outside (A : Type) : Type := mkOutside {
  at_out_driver : list A;
  at_out_left : list A;
  at_out_right : list A
}.
Arguments mkOutside {A} _ _ _.
Arguments at_out_driver {A} _.
Arguments at_out_left {A} _.
Arguments at_out_right {A} _.

(** [d.get(view, [])]. *)
Definition get {A : Type} (v : View) (d : Outside A) : list A :=
  match v with
  | VIEW_OUT_DRIVER => at_out_driver d
  | VIEW_OUT_LEFT => at_out_left d
  | VIEW_OUT_RIGHT => at_out_right d
  | _ => []
  end.

(** The dictionary with the list of an outside view replaced. *)
Definition put {A : Type} (v : View) (l : list A) (d : Outside A)
    : Outside A :=
  match v with
  | VIEW_OUT_DRIVER => mkOutside l (at_out_left d) (at_out_right d)
  | VIEW_OUT_LEFT => mkOutside (at_out_driver d) l (at_out_right d)
  | VIEW_OUT_RIGHT => mkOutside (at_out_driver d) (at_out_left d) l
  | _ => d
  end.

(** [fade_phase]: "out" then "in". *)
Inductive Phase : Type := phase_out | phase_in.

(** [selected_risk]: "quick", "moderate", "greedy". *)
Inductive Risk : Type := quick | moderate | greedy.

(** The fields of [Game] that carry game state. *)
Record Game : Type := mkGame {
  game_over : bool;
  fuel : Z;
  shells : Z;
  guns : Z;
  crew : Z;
  parts : Z;
  driving : bool;
  engine_broken : bool;
  view : View;
  fading : bool;
  fade_alpha : Z;
  fade_phase : Phase;
  pending_view : option View;
  level_items : Outside SpawnItem;
  level_zombies : Outside Zombie;
  level_active : bool;
  scavenge_mode : bool;
  selected_risk : option Risk;
  selected_give_gun : option bool
}.

(** The texts of [popup.show]. *)
Inductive Popup : Type :=
| Broken_down | Out_of_fuel_stop | Manual_stop_trouble
| Engine_rumbles
| Monotonous
| Out_of_shells | Zombie_down | No_target
| Collected_fuel (gained : Z) | Collected_parts | Collected_shells (gained : Z)
| Not_enough_parts | Engine_repaired
| Engine_still_broken | No_fuel
| Only_when_broken_down | No_crew_to_send | No_crew_left
| Nothing_left
| No_guns_left
| Scavenger_returned (fuel_gain parts_gain shells_gain : Z)
| Game_over_last_crew
| Scavenger_lost (with_gun : bool).

(** [Game.__init__]. *)
Definition init : Game :=
  mkGame false STARTING_FUEL STARTING_SHELLS STARTING_GUNS STARTING_CREW 0
    true false VIEW_DRIVER_INSIDE false 0 phase_out None
    (mkOutside [] [] []) (mkOutside [] [] []) false false None None.

(** *** Fades (l. 276-282, 790-807) *)

Definition start_fade_to (new_view : View) (g : Game) : Game :=
  if fading g then g
  else
    mkGame (game_over g) (fuel g) (shells g) (guns g) (crew g) (parts g)
      (driving g) (engine_broken g) (view g) true 0 phase_out
      (Some new_view) (level_items g) (level_zombies g) (level_active g)
      (scavenge_mode g) (selected_risk g) (selected_give_gun g).

Definition set_fade (v : View) (f : bool) (a : Z) (ph : Phase)
    (pv : option View) (g : Game) : Game :=
  mkGame (game_over g) (fuel g) (shells g) (guns g) (crew g) (parts g)
    (driving g) (engine_broken g) v f a ph pv
    (level_items g) (level_zombies g) (level_active g)
    (scavenge_mode g) (selected_risk g) (selected_give_gun g).

Definition update_fade (g : Game) : Game :=
  if negb (fading g) then g
  else
    match fade_phase g with
    | phase_out =>
        let a := fade_alpha g + FADE_SPEED in
        if 255 <=? a then
          let v := match pending_view g with
                   | Some pv => pv
                   | None => view g
                   end in
          set_fade v (fading g) 255 phase_in (pending_view g) g
        else set_fade (view g) (fading g) a (fade_phase g) (pending_view g) g
    | phase_in =>
        let a := fade_alpha g - FADE_SPEED in
        if a <=? 0 then set_fade (view g) false 0 (fade_phase g) None g
        else set_fade (view g) (fading g) a (fade_phase g) (pending_view g) g
    end.

(** [update_fade] called [n] times, once per frame. *)
Fixpoint frames (n : nat) (g : Game) : Game :=
  match n with
  | O => g
  | S n' => frames n' (update_fade g)
  end.

(** *** Level content (l. 284-365) *)

(** One spawn: the index drawn by [random.choice(views)], the position of
    [rand_pos] and, for fuel and shells, the amount. *)
Record SpawnDraw : Type := mkSpawnDraw {
  s_view : nat;
  s_x : Z;
  s_y : Z;
  s_amount : Z
}.

Record LevelDraws : Type := mkLevelDraws {
  d_extra_parts : Z;
  d_fuel : Z;
  d_shells : Z;
  d_zombies : Z;
  d_part : nat -> SpawnDraw;
  d_fuel_can : nat -> SpawnDraw;
  d_shell : nat -> SpawnDraw;
  d_zombie : nat -> SpawnDraw
}.

Definition views : list View :=
  [VIEW_OUT_DRIVER; VIEW_OUT_LEFT; VIEW_OUT_RIGHT].

(** [sprite.get_rect(center=pos)] for the 60 by 60 sprites. *)
Definition rect_at (x y : Z) : V1.Rect := V1.mkRect (x - 30) (y - 30) 60 60.

Definition append {A : Type} (v : View) (a : A) (d : Outside A) : Outside A :=
  put v (get v d ++ [a]) d.

(** One of the four spawning loops, iterations [i, i + n). *)
Fixpoint spawn {A : Type} (mk : SpawnDraw -> A) (draw : nat -> SpawnDraw)
    (i n : nat) (d : Outside A) : Outside A :=
  match n with
  | O => d
  | S n' =>
      let s := draw i in
      let v := choice views (s_view s) VIEW_OUT_DRIVER in
      spawn mk draw (S i) n' (append v (mk s) d)
  end.

Definition new_part (s : SpawnDraw) : SpawnItem :=
  mkSpawnItem part_item (rect_at (s_x s) (s_y s)) false None.

Definition new_fuel (s : SpawnDraw) : SpawnItem :=
  mkSpawnItem fuel_item (rect_at (s_x s) (s_y s)) false (Some (s_amount s)).

Definition new_shells (s : SpawnDraw) : SpawnItem :=
  mkSpawnItem shells_item (rect_at (s_x s) (s_y s)) false (Some (s_amount s)).

Definition new_zombie (s : SpawnDraw) : Zombie :=
  mkZombie (rect_at (s_x s) (s_y s)) true.

Definition set_level (items : Outside SpawnItem) (zombies : Outside Zombie)
    (g : Game) : Game :=
  mkGame (game_over g) (fuel g) (shells g) (guns g) (crew g) (parts g)
    (driving g) (engine_broken g) (view g) (fading g) (fade_alpha g)
    (fade_phase g) (pending_view g) items zombies (level_active g)
    (scavenge_mode g) (selected_risk g) (selected_give_gun g).

Definition _generate_level_spawns (ld : LevelDraws) (g : Game) : Game :=
  let total_parts := MIN_PARTS_PER_LEVEL + d_extra_parts ld in
  let items := mkOutside [] [] [] in
  let items := spawn new_part (d_part ld) 0 (Z.to_nat total_parts) items in
  let items := spawn new_fuel (d_fuel_can ld) 0 (Z.to_nat (d_fuel ld)) items in
  let items := spawn new_shells (d_shell ld) 0 (Z.to_nat (d_shells ld)) items in
  let zombies :=
    spawn new_zombie (d_zombie ld) 0 (Z.to_nat (d_zombies ld))
      (mkOutside [] [] []) in
  set_level items zombies g.

(** The argument of [begin_level]: "breakdown", "fuel", "manual_stop". *)
Inductive Reason : Type := breakdown | fuel_reason | manual_stop.

Definition begin_level (reason : Reason) (ld : LevelDraws) (g : Game)
    : Game * list Popup :=
  let g :=
    mkGame (game_over g) (fuel g) (shells g) (guns g) (crew g) (parts g)
      false true (view g) (fading g) (fade_alpha g) (fade_phase g)
      (pending_view g) (level_items g) (level_zombies g) true
      false None None in
  let g := _generate_level_spawns ld g in
  (g, [match reason with
       | breakdown => Broken_down
       | fuel_reason => Out_of_fuel_stop
       | manual_stop => Manual_stop_trouble
       end]).

Definition set_drive (lv dr eb : bool) (g : Game) : Game :=
  mkGame (game_over g) (fuel g) (shells g) (guns g) (crew g) (parts g)
    dr eb (view g) (fading g) (fade_alpha g) (fade_phase g)
    (pending_view g) (level_items g) (level_zombies g) lv
    (scavenge_mode g) (selected_risk g) (selected_give_gun g).

Definition end_level_and_resume_driving (g : Game) : Game * list Popup :=
  (set_drive false true false g, [Engine_rumbles]).

Definition count_alive (l : list Zombie) : nat :=
  length (filter alive l).

Definition total_zombies_alive (g : Game) : Z :=
  Z.of_nat (count_alive (at_out_driver (level_zombies g))
            + count_alive (at_out_left (level_zombies g))
            + count_alive (at_out_right (level_zombies g))).

(** *** Clicks in the outside views (l. 367-411, 771-788) *)

Definition set_ledger (f s gu c p : Z) (g : Game) : Game :=
  mkGame (game_over g) f s gu c p
    (driving g) (engine_broken g) (view g) (fading g) (fade_alpha g)
    (fade_phase g) (pending_view g) (level_items g) (level_zombies g)
    (level_active g) (scavenge_mode g) (selected_risk g)
    (selected_give_gun g).

(** The loop of [handle_shot_click]: the first zombie of the list that is
    alive and under the click dies. *)
Fixpoint shoot_first (pos : Z * Z) (zombies : list Zombie)
    : option (list Zombie) :=
  match zombies with
  | [] => None
  | z :: tl =>
      if alive z && V1.collidepoint (zrect z) pos
      then Some (mkZombie (zrect z) false :: tl)
      else option_map (cons z) (shoot_first pos tl)
  end.

Definition handle_shot_click (pos : Z * Z) (g : Game) : Game * list Popup :=
  if negb (level_active g) then (g, [Monotonous])
  else if shells g <? SHELLS_PER_SHOT then (g, [Out_of_shells])
  else
    match shoot_first pos (get (view g) (level_zombies g)) with
    | Some zombies =>
        let g :=
          set_ledger (fuel g) (shells g - SHELLS_PER_SHOT) (guns g) (crew g)
            (parts g) g in
        (set_level (level_items g) (put (view g) zombies (level_zombies g)) g,
         [Zombie_down])
    | None => (g, [No_target])
    end.

(** [it.amount or 0]. *)
Definition amount_or_0 (it : SpawnItem) : Z :=
  match amount it with
  | Some a => a
  | None => 0
  end.

Definition collect (it : SpawnItem) : SpawnItem :=
  mkSpawnItem (kind it) (rect it) true (amount it).

(** The loop of [handle_item_click]: the first item of the list that is not
    collected and under the click; returns it and the list with it marked
    collected. *)
Fixpoint pick_first (pos : Z * Z) (items : list SpawnItem)
    : option (SpawnItem * list SpawnItem) :=
  match items with
  | [] => None
  | it :: tl =>
      if negb (collected it) && V1.collidepoint (rect it) pos
      then Some (it, collect it :: tl)
      else
        match pick_first pos tl with
        | Some (x, tl') => Some (x, it :: tl')
        | None => None
        end
  end.

Definition handle_item_click (pos : Z * Z) (g : Game) : Game * list Popup :=
  if negb (level_active g) then (g, [Monotonous])
  else
    match pick_first pos (get (view g) (level_items g)) with
    | Some (it, items) =>
        let g := set_level (put (view g) items (level_items g))
                   (level_zombies g) g in
        match kind it with
        | fuel_item =>
            let gained := amount_or_0 it in
            (set_ledger (fuel g + gained) (shells g) (guns g) (crew g)
               (parts g) g, [Collected_fuel gained])
        | part_item =>
            (set_ledger (fuel g) (shells g) (guns g) (crew g) (parts g + 1) g,
             [Collected_parts])
        | shells_item =>
            let gained := amount_or_0 it in
            (set_ledger (fuel g) (shells g + gained) (guns g) (crew g)
               (parts g) g, [Collected_shells gained])
        end
    | None => (g, [])
    end.

Definition handle_outside_click (pos : Z * Z) (g : Game)
    : Game * list Popup :=
  match view g with
  | VIEW_OUT_LEFT | VIEW_OUT_RIGHT =>
      if level_active g then
        if existsb (fun z => alive z && V1.collidepoint (zrect z) pos)
             (get (view g) (level_zombies g))
        then handle_shot_click pos g
        else handle_item_click pos g
      else (g, [Monotonous])
  | _ => handle_item_click pos g
  end.

(** *** Engine and driving (l. 413-442) *)

Definition attempt_fix_engine (g : Game) : Game * list Popup :=
  if parts g <=? 0 then (g, [Not_enough_parts])
  else
    let g := set_ledger (fuel g) (shells g) (guns g) (crew g) (parts g - 1) g in
    (set_drive (level_active g) (driving g) false g, [Engine_repaired]).

Definition attempt_start_driving (g : Game) : Game * list Popup :=
  if level_active g then
    if engine_broken g then (g, [Engine_still_broken])
    else if fuel g <=? 0 then (g, [No_fuel])
    else end_level_and_resume_driving g
  else
    if fuel g <=? 0 then (g, [No_fuel])
    else (set_drive (level_active g) true (engine_broken g) g, []).

Definition stop_driving_now (ld : LevelDraws) (g : Game) : Game * list Popup :=
  if driving g then begin_level manual_stop ld g else (g, []).

(** *** Scavenging (l. 444-557) *)

Definition set_scavenge (m : bool) (r : option Risk) (gg : option bool)
    (g : Game) : Game :=
  mkGame (game_over g) (fuel g) (shells g) (guns g) (crew g) (parts g)
    (driving g) (engine_broken g) (view g) (fading g) (fade_alpha g)
    (fade_phase g) (pending_view g) (level_items g) (level_zombies g)
    (level_active g) m r gg.

Definition open_scavenge_menu (g : Game) : Game * list Popup :=
  if negb (level_active g) then (g, [Only_when_broken_down])
  else if crew g <=? 0 then (g, [No_crew_to_send])
  else (set_scavenge true None None g, []).

(** An item object: the view whose list holds it and its index there. *)
Definition Ref : Type := (View * nat)%type.

(** The uncollected items of one list, from index [i] on. *)
Fixpoint remaining_in (v : View) (i : nat) (l : list SpawnItem) : list Ref :=
  match l with
  | [] => []
  | it :: tl =>
      (if collected it then [] else [(v, i)]) ++ remaining_in v (S i) tl
  end.

(** [remaining_items]: the uncollected items across all outside views. *)
Definition remaining_items (items : Outside SpawnItem) : list Ref :=
  remaining_in VIEW_OUT_DRIVER 0 (at_out_driver items)
  ++ remaining_in VIEW_OUT_LEFT 0 (at_out_left items)
  ++ remaining_in VIEW_OUT_RIGHT 0 (at_out_right items).

Definition item_at (r : Ref) (items : Outside SpawnItem)
    : option SpawnItem :=
  nth_error (get (fst r) items) (snd r).

Fixpoint collect_nth (i : nat) (l : list SpawnItem) : list SpawnItem :=
  match l with
  | [] => []
  | it :: tl =>
      match i with
      | O => collect it :: tl
      | S i' => it :: collect_nth i' tl
      end
  end.

(** [it.collected = True] on the object [r]. *)
Definition collect_at (r : Ref) (items : Outside SpawnItem)
    : Outside SpawnItem :=
  put (fst r) (collect_nth (snd r) (get (fst r) items)) items.

Definition base_return (risk : Risk) : Q :=
  match risk with
  | quick => 75 # 100
  | moderate => 50 # 100
  | greedy => 33 # 100
  end.

Definition frac_of (risk : Risk) : Q :=
  match risk with
  | quick => 1 # 3
  | moderate => 50 # 100
  | greedy => 1
  end.

(** The chance of [do_scavenge] (l. 483-500): [give_gun] is what the
    player asked for. *)
Definition scavenge_chance (risk : Risk) (give_gun : bool) (g : Game) : Q :=
  let zombie_penalty := ((6 # 100) * inject_Z (total_zombies_alive g))%Q in
  let gun_bonus := (if give_gun then 18 # 100 else 0)%Q in
  let gun_bonus := (if give_gun && (guns g <=? 0) then 0 else gun_bonus)%Q in
  clamp (base_return risk - zombie_penalty + gun_bonus)%Q (5 # 100) (95 # 100).

(** [max(1, math.floor(len(remaining_items) * frac))]. *)
Definition max_take (risk : Risk) (g : Game) : Z :=
  Z.max 1
    (Qfloor (inject_Z (Z.of_nat (length (remaining_items (level_items g))))
             * frac_of risk)).

(** The draws of [do_scavenge]: the objects returned by [random.sample] and
    the value of [random.random()]. *)
Record ScavDraws : Type := mkScavDraws {
  found : list Ref;
  r_survive : Q
}.

Record Gains : Type := mkGains {
  fuel_gain : Z;
  parts_gain : Z;
  shells_gain : Z
}.

(** The loop over [found]: mark each item collected and add up what it
    yields. *)
Fixpoint bring_back (found : list Ref) (items : Outside SpawnItem)
    (gn : Gains) : Outside SpawnItem * Gains :=
  match found with
  | [] => (items, gn)
  | r :: rest =>
      match item_at r items with
      | Some it =>
          let items := collect_at r items in
          let gn :=
            match kind it with
            | fuel_item =>
                mkGains (fuel_gain gn + amount_or_0 it) (parts_gain gn)
                  (shells_gain gn)
            | part_item =>
                mkGains (fuel_gain gn) (parts_gain gn + 1) (shells_gain gn)
            | shells_item =>
                mkGains (fuel_gain gn) (parts_gain gn)
                  (shells_gain gn + amount_or_0 it)
            end in
          bring_back rest items gn
      | None => bring_back rest items gn
      end
  end.

Definition set_game_over (b : bool) (g : Game) : Game :=
  mkGame b (fuel g) (shells g) (guns g) (crew g) (parts g)
    (driving g) (engine_broken g) (view g) (fading g) (fade_alpha g)
    (fade_phase g) (pending_view g) (level_items g) (level_zombies g)
    (level_active g) (scavenge_mode g) (selected_risk g)
    (selected_give_gun g).

Definition do_scavenge (risk : Risk) (give_gun : bool) (sd : ScavDraws)
    (g : Game) : Game * list Popup :=
  if crew g <=? 0 then (g, [No_crew_left])
  else
    match remaining_items (level_items g) with
    | [] => (g, [Nothing_left])
    | _ :: _ =>
        let chance := scavenge_chance risk give_gun g in
        let warn := if give_gun && (guns g <=? 0) then [No_guns_left] else [] in
        let give_gun := if give_gun && (guns g <=? 0) then false else give_gun in
        let survives := Qltb (r_survive sd) chance in
        let (g, msg) :=
          if survives then
            let (items, gn) :=
              bring_back (found sd) (level_items g) (mkGains 0 0 0) in
            let g := set_level items (level_zombies g) g in
            let g :=
              set_ledger (fuel g + fuel_gain gn) (shells g + shells_gain gn)
                (guns g) (crew g) (parts g + parts_gain gn) g in
            (g, Scavenger_returned (fuel_gain gn) (parts_gain gn)
                  (shells_gain gn))
          else
            let g := set_ledger (fuel g) (shells g) (guns g) (crew g - 1)
                       (parts g) g in
            let g :=
              if give_gun && (0 <? guns g) then
                set_ledger (fuel g) (shells g) (guns g - 1) (crew g)
                  (parts g) g
              else g in
            if crew g <=? 0 then (set_game_over true g, Game_over_last_crew)
            else (g, Scavenger_lost give_gun) in
        (set_scavenge false None None g, warn ++ [msg])
    end.

(** [random.sample(remaining_items, k=take_count)] with [take_count] drawn
    by [random.randint(1, max_take)]: distinct uncollected items, at least
    one and at most [max_take]. *)
Definition valid_sample (risk : Risk) (g : Game) (fnd : list Ref) : Prop :=
  NoDup fnd
  /\ (forall r, In r fnd -> In r (remaining_items (level_items g)))
  /\ 1 <= Z.of_nat (length fnd) <= max_take risk g.

(** What an item adds to the counter of kind [k] when it is taken. *)
Definition worth (k : ItemKind) (it : SpawnItem) : Z :=
  match k, kind it with
  | fuel_item, fuel_item => amount_or_0 it
  | part_item, part_item => 1
  | shells_item, shells_item => amount_or_0 it
  | _, _ => 0
  end.



Definition count_items (P : SpawnItem -> bool) (items : Outside SpawnItem)
    : Z :=
  Z.of_nat (length (filter P (at_out_driver items))
            + length (filter P (at_out_left items))
            + length (filter P (at_out_right items))).

Definition is_kind (k : ItemKind) (it : SpawnItem) : bool :=
  match k, kind it with
  | fuel_item, fuel_item | part_item, part_item
  | shells_item, shells_item => true
  | _, _ => false
  end.

Definition uncollected (it : SpawnItem) : bool := negb (collected it).

End V2.

(** ** The first prototype: levels, engine and scavenging

    [tank survival v1.py] (class [TankGame] with its [GameState]): the level
    pool is a record of counters, the sprites of the outside views are
    drawn from it when a level starts, and scavenging takes from the
    counters.  The clock ([breakdown_at_ms], [trans_t]) and the pictures
    are not modelled: what [update] takes from the clock is a parameter of
    [update_driving]; the percentage printed in the scavenging pop-ups is
    left out of their text.  The floats of this module (the chance,
    [total * loot_frac]) are the exact rationals the source expressions
    denote.  Line numbers refer to that file. *)

From Stdlib Require Import Permutation.

Module V1Game.

Definition STARTING_FUEL : Z := 200.
Definition STARTING_SHELLS : Z := 6.
Definition STARTING_GUNS : Z := 4.
Definition STARTING_CREW : Z := 4.
Definition STARTING_PARTS : Z := 0.
Definition ZOMBIES_MIN : Z := 1.
Definition ZOMBIES_MAX : Z := 8.
Definition FUELCANS_MIN : Z := 1.
Definition FUELCANS_MAX : Z := 5.
Definition SHELLS_MIN : Z := 0.
Definition SHELLS_MAX : Z := 4.
Definition PARTS_MIN : Z := 1.
Definition PARTS_MAX : Z := 2.
Definition ZOMBIE_PENALTY_PER : Q := 4 # 100.
Definition GUN_BONUS : Q := 15 # 100.

(** The keys of [SCAVENGE_MODES] and their two entries. *)
Inductive Mode : Type := QUICK | MODERATE | GREEDY.

Definition base_return (m : Mode) : Q :=
  match m with
  | QUICK => 75 # 100
  | MODERATE => 50 # 100
  | GREEDY => 33 # 100
  end.

Definition loot_frac (m : Mode) : Q :=
  match m with
  | QUICK => 1 # 3
  | MODERATE => 50 # 100
  | GREEDY => 1
  end.

(** [clamp] (l. 114-115). *)
Definition clamp (x a b : Q) : Q := py_max a (py_min b x).

(** [LevelPool.total_items]. *)
Definition total_items (p : V1.LevelPool.t) : Z :=
  V1.LevelPool.fuelcans p + V1.LevelPool.shells p + V1.LevelPool.parts p.

(** The reasons handed to [start_new_level]. *)
Inductive Reason : Type := Fuel_depleted | Random_breakdown | Manual_STOP.

(** The texts of [show_popup]. *)
Inductive Popup : Type :=
| Level_started (reason : Reason)
| Engine_not_broken | Not_enough_parts | Engine_repaired
| Already_moving | Engine_still_broken | No_fuel | You_start_the_engine
| Already_stopped
| Monotonous_scenery
| Only_during_a_level | No_crew_left | Nothing_left_to_scavenge
| Scavenge_success (mode : Mode) (zombies : Z) (gave_gun : bool)
    (gained_fuel gained_shells gained_parts : Z)
| Scavenge_failed (mode : Mode) (zombies : Z) (gave_gun : bool)
| All_crew_gone.

(** [GameState], without the clock. *)
Record GameState : Type := mkGameState {
  fuel : Z;
  shells : Z;
  guns : Z;
  crew : Z;
  parts : Z;
  moving : bool;
  engine_broken : bool;
  view : View;
  in_level : bool;
  level_pool : option V1.LevelPool.t;
  popup_text : option Popup;
  scavenging_mode : option Mode;
  scavenging_give_gun : bool;
  scavenging_confirm : bool;
  transitioning : bool;
  trans_from : option View;
  trans_to : option View
}.

(** [TankGame]: the state and the sprites of the outside views. *)
Record TankGame : Type := mk {
  state : GameState;
  outside_sprites : V1.Sprites
}.

(** [GameState()] and [TankGame.__init__]. *)
Definition init : TankGame :=
  mk (mkGameState STARTING_FUEL STARTING_SHELLS STARTING_GUNS STARTING_CREW
        STARTING_PARTS true false DRIVER false None None None false false
        false None None)
     (V1.mkSprites [] [] []).

Definition set_ledger (f s gu c p : Z) (st : GameState) : GameState :=
  mkGameState f s gu c p (moving st) (engine_broken st) (view st)
    (in_level st) (level_pool st) (popup_text st) (scavenging_mode st)
    (scavenging_give_gun st) (scavenging_confirm st) (transitioning st)
    (trans_from st) (trans_to st).

Definition set_flags (lv mv eb : bool) (st : GameState) : GameState :=
  mkGameState (fuel st) (shells st) (guns st) (crew st) (parts st) mv eb
    (view st) lv (level_pool st) (popup_text st) (scavenging_mode st)
    (scavenging_give_gun st) (scavenging_confirm st) (transitioning st)
    (trans_from st) (trans_to st).

Definition set_pool (p : option V1.LevelPool.t) (st : GameState)
    : GameState :=
  mkGameState (fuel st) (shells st) (guns st) (crew st) (parts st)
    (moving st) (engine_broken st) (view st) (in_level st) p (popup_text st)
    (scavenging_mode st) (scavenging_give_gun st) (scavenging_confirm st)
    (transitioning st) (trans_from st) (trans_to st).

Definition set_popup (p : option Popup) (st : GameState) : GameState :=
  mkGameState (fuel st) (shells st) (guns st) (crew st) (parts st)
    (moving st) (engine_broken st) (view st) (in_level st) (level_pool st) p
    (scavenging_mode st) (scavenging_give_gun st) (scavenging_confirm st)
    (transitioning st) (trans_from st) (trans_to st).

Definition set_menu (m : option Mode) (gg cf : bool) (st : GameState)
    : GameState :=
  mkGameState (fuel st) (shells st) (guns st) (crew st) (parts st)
    (moving st) (engine_broken st) (view st) (in_level st) (level_pool st)
    (popup_text st) m gg cf (transitioning st) (trans_from st) (trans_to st).

Definition set_trans (v : View) (tr : bool) (from to : option View)
    (st : GameState) : GameState :=
  mkGameState (fuel st) (shells st) (guns st) (crew st) (parts st)
    (moving st) (engine_broken st) v (in_level st) (level_pool st)
    (popup_text st) (scavenging_mode st) (scavenging_give_gun st)
    (scavenging_confirm st) tr from to.

(** Apply a change to [self.state]. *)
Definition on_state (f : GameState -> GameState) (g : TankGame) : TankGame :=
  mk (f (state g)) (outside_sprites g).

Definition show_popup (text : Popup) (g : TankGame) : TankGame :=
  on_state (set_popup (Some text)) g.

Definition close_popup (g : TankGame) : TankGame :=
  on_state (set_popup None) g.

(** *** Sprites of a level (l. 243-270) *)

(** The draws of one call of [gen_outside_sprites_for_view]: the corner of
    each zombie, the list [markers] after [random.shuffle], and the corner
    of each marker. *)
Record SpriteDraws : Type := mkSpriteDraws {
  z_pos : nat -> Z * Z;
  shuffled : list V1.SpriteKind;
  m_pos : nat -> Z * Z
}.

(** [markers] before the shuffle. *)
Definition markers (pool : V1.LevelPool.t) : list V1.SpriteKind :=
  repeat V1.FUEL (Z.to_nat (Z.min (V1.LevelPool.fuelcans pool) 4))
  ++ repeat V1.PART (Z.to_nat (Z.min (V1.LevelPool.parts pool) 2))
  ++ repeat V1.SHELL (Z.to_nat (Z.min (V1.LevelPool.shells pool) 3)).

Fixpoint zombie_sprites (pos : nat -> Z * Z) (i n : nat)
    : list V1.SpriteObj :=
  match n with
  | O => []
  | S n' =>
      V1.mkSpriteObj V1.ZOMBIE (V1.mkRect (fst (pos i)) (snd (pos i)) 80 80)
      :: zombie_sprites pos (S i) n'
  end.

Fixpoint marker_sprites (pos : nat -> Z * Z) (i : nat)
    (ms : list V1.SpriteKind) : list V1.SpriteObj :=
  match ms with
  | [] => []
  | m :: tl =>
      V1.mkSpriteObj m (V1.mkRect (fst (pos i)) (snd (pos i)) 70 50)
      :: marker_sprites pos (S i) tl
  end.

Definition gen_outside_sprites_for_view (sd : SpriteDraws) (view : View)
    (pool : V1.LevelPool.t) : list V1.SpriteObj :=
  zombie_sprites (z_pos sd) 0 (Z.to_nat (V1.LevelPool.zombies pool))
  ++ marker_sprites (m_pos sd) 0 (shuffled sd).

(** *** Levels (l. 316-348) *)

Record LevelDraws : Type := mkLevelDraws {
  d_zombies : Z;
  d_fuelcans : Z;
  d_shells : Z;
  d_parts : Z;
  d_sprites : View -> SpriteDraws
}.

Definition start_new_level (reason : Reason) (ld : LevelDraws) (g : TankGame)
    : TankGame :=
  let st := set_flags true false true (state g) in
  let pool :=
    V1.LevelPool.mk (d_fuelcans ld) (d_shells ld) (d_parts ld)
      (d_zombies ld) in
  let st := set_pool (Some pool) st in
  let sprites :=
    V1.mkSprites
      (gen_outside_sprites_for_view (d_sprites ld OUT_DRIVER) OUT_DRIVER pool)
      (gen_outside_sprites_for_view (d_sprites ld OUT_LEFT) OUT_LEFT pool)
      (gen_outside_sprites_for_view (d_sprites ld OUT_RIGHT) OUT_RIGHT pool) in
  show_popup (Level_started reason) (mk st sprites).

Definition end_level_and_resume_driving (g : TankGame) : TankGame :=
  mk (set_flags false true false (state g)) (V1.mkSprites [] [] []).

(** *** Transitions (l. 356-371) *)

Definition View_eqb (a b : View) : bool :=
  match a, b with
  | ENGINE, ENGINE | DRIVER, DRIVER | LEFT_GUNNER, LEFT_GUNNER
  | RIGHT_GUNNER, RIGHT_GUNNER | OUT_DRIVER, OUT_DRIVER
  | OUT_LEFT, OUT_LEFT | OUT_RIGHT, OUT_RIGHT => true
  | _, _ => false
  end.

Definition begin_transition (to_view : View) (g : TankGame) : TankGame :=
  if transitioning (state g) then g
  else if View_eqb to_view (view (state g)) then g
  else
    on_state (fun st => set_trans (view st) true (Some (view st))
                          (Some to_view) st) g.

Definition finish_transition (g : TankGame) : TankGame :=
  on_state (fun st =>
              set_trans (match trans_to st with
                         | Some v => v
                         | None => view st
                         end) false None None st) g.

(** *** Engine and driving (l. 373-411) *)

Definition attempt_fix_engine (g : TankGame) : TankGame :=
  let st := state g in
  if negb (engine_broken st) then show_popup Engine_not_broken g
  else if parts st <=? 0 then show_popup Not_enough_parts g
  else
    show_popup Engine_repaired
      (on_state (fun st =>
                   set_flags (in_level st) (moving st) false
                     (set_ledger (fuel st) (shells st) (guns st) (crew st)
                        (parts st - 1) st)) g).

Definition attempt_start (g : TankGame) : TankGame :=
  let st := state g in
  if moving st then show_popup Already_moving g
  else if engine_broken st then show_popup Engine_still_broken g
  else if fuel st <=? 0 then show_popup No_fuel g
  else if in_level st then
    show_popup You_start_the_engine (end_level_and_resume_driving g)
  else on_state (fun st => set_flags (in_level st) true (engine_broken st) st) g.

Definition attempt_stop (ld : LevelDraws) (g : TankGame) : TankGame :=
  if negb (moving (state g)) then show_popup Already_stopped g
  else start_new_level Manual_STOP ld g.

Definition outside_monotony_message (g : TankGame) : TankGame :=
  show_popup Monotonous_scenery g.

(** *** Driving (l. 570-588)

    The part of [update] that runs while no pop-up is open: the fuel burnt
    in the frame is [burned] = [int(burn + 0.999)] (1 for a frame shorter
    than a second; [burn > 0] as the clock advances), and [breakdown_due]
    tells whether the breakdown timer has run out. *)
Definition update_driving (burned : Z) (breakdown_due : bool)
    (ld : LevelDraws) (g : TankGame) : TankGame :=
  match popup_text (state g) with
  | Some _ => g
  | None =>
      if moving (state g) then
        let g :=
          on_state (fun st =>
                      set_ledger (Z.max 0 (fuel st - burned)) (shells st)
                        (guns st) (crew st) (parts st) st) g in
        if fuel (state g) <=? 0 then start_new_level Fuel_depleted ld g
        else if breakdown_due then start_new_level Random_breakdown ld g
        else g
      else g
  end.

(** *** Scavenging (l. 444-556) *)

Definition open_scavenge_menu (g : TankGame) : TankGame :=
  let st := state g in
  if negb (in_level st) then show_popup Only_during_a_level g
  else if crew st <=? 0 then show_popup No_crew_left g
  else
    match level_pool st with
    | None => show_popup Nothing_left_to_scavenge g
    | Some pool =>
        if total_items pool <=? 0 then show_popup Nothing_left_to_scavenge g
        else on_state (set_menu (Some QUICK) false true) g
    end.

Definition close_scavenge_menu (g : TankGame) : TankGame :=
  on_state (set_menu None false false) g.

(** The draws of [resolve_scavenge]: [random.random()], [take_n], and for
    the i-th item the index of [random.choice] and the yield of a fuel
    can. *)
Record ScavDraws : Type := mkScavDraws {
  r_success : Q;
  r_take : Z;
  r_choice : nat -> nat;
  r_yield : nat -> Z
}.

(** The entries of [choices]. *)
Inductive Pick : Type := PICK_FUEL | PICK_SHELL | PICK_PART.

Definition choices (pool : V1.LevelPool.t) : list Pick :=
  (if 0 <? V1.LevelPool.fuelcans pool then [PICK_FUEL] else [])
  ++ (if 0 <? V1.LevelPool.shells pool then [PICK_SHELL] else [])
  ++ (if 0 <? V1.LevelPool.parts pool then [PICK_PART] else []).

Record Gained : Type := mkGained {
  gained_fuel : Z;
  gained_shells : Z;
  gained_parts : Z
}.

(** The loop [for _ in range(take_n)], iterations [i, i + n). *)
Fixpoint take (sd : ScavDraws) (i n : nat) (pool : V1.LevelPool.t)
    (gn : Gained) : V1.LevelPool.t * Gained :=
  match n with
  | O => (pool, gn)
  | S n' =>
      match choices pool with
      | [] => (pool, gn)
      | c :: cs =>
          match choice (c :: cs) (r_choice sd i) c with
          | PICK_FUEL =>
              take sd (S i) n'
                (V1.LevelPool.mk (V1.LevelPool.fuelcans pool - 1)
                   (V1.LevelPool.shells pool) (V1.LevelPool.parts pool)
                   (V1.LevelPool.zombies pool))
                (mkGained (gained_fuel gn + r_yield sd i) (gained_shells gn)
                   (gained_parts gn))
          | PICK_SHELL =>
              take sd (S i) n'
                (V1.LevelPool.mk (V1.LevelPool.fuelcans pool)
                   (V1.LevelPool.shells pool - 1) (V1.LevelPool.parts pool)
                   (V1.LevelPool.zombies pool))
                (mkGained (gained_fuel gn) (gained_shells gn + 1)
                   (gained_parts gn))
          | PICK_PART =>
              take sd (S i) n'
                (V1.LevelPool.mk (V1.LevelPool.fuelcans pool)
                   (V1.LevelPool.shells pool) (V1.LevelPool.parts pool - 1)
                   (V1.LevelPool.zombies pool))
                (mkGained (gained_fuel gn) (gained_shells gn)
                   (gained_parts gn + 1))
          end
      end
  end.

(** The chance of [resolve_scavenge] (l. 478-487); [gave_gun] tells whether
    a gun was handed over. *)
Definition scavenge_chance (mode : Mode) (zombies : Z) (gave_gun : bool) : Q :=
  let chance := (base_return mode - inject_Z zombies * ZOMBIE_PENALTY_PER)%Q in
  let chance := (if gave_gun then chance + GUN_BONUS else chance)%Q in
  clamp chance (5 # 100) (95 # 100).

(** [max(1, math.ceil(total * loot_frac))]. *)
Definition max_take (mode : Mode) (pool : V1.LevelPool.t) : Z :=
  Z.max 1 (Qceiling (inject_Z (total_items pool) * loot_frac mode)).

Definition resolve_scavenge (sd : ScavDraws) (g : TankGame) : TankGame :=
  let st := state g in
  if negb (scavenging_confirm st) then g
  else
    match scavenging_mode st with
    | None => g
    | Some mode =>
        match level_pool st with
        | None => close_scavenge_menu g
        | Some pool =>
            if negb (in_level st) then close_scavenge_menu g
            else if crew st <=? 0 then close_scavenge_menu g
            else
              let zombies := V1.LevelPool.zombies pool in
              let gave_gun := scavenging_give_gun st && (0 <? guns st) in
              let st :=
                if gave_gun then
                  set_ledger (fuel st) (shells st) (guns st - 1) (crew st)
                    (parts st) st
                else st in
              let chance := scavenge_chance mode zombies gave_gun in
              let success := Qltb (r_success sd) chance in
              let st :=
                if success then
                  let (pool, gn) :=
                    take sd 0 (Z.to_nat (r_take sd)) pool (mkGained 0 0 0) in
                  let st := set_pool (Some pool) st in
                  let st :=
                    set_ledger (fuel st + gained_fuel gn)
                      (shells st + gained_shells gn) (guns st) (crew st)
                      (parts st + gained_parts gn) st in
                  let st :=
                    if gave_gun then
                      set_ledger (fuel st) (shells st) (guns st + 1) (crew st)
                        (parts st) st
                    else st in
                  set_popup
                    (Some (Scavenge_success mode zombies gave_gun
                             (gained_fuel gn) (gained_shells gn)
                             (gained_parts gn))) st
                else
                  let st :=
                    set_ledger (fuel st) (shells st) (guns st) (crew st - 1)
                      (parts st) st in
                  let st :=
                    set_popup (Some (Scavenge_failed mode zombies gave_gun))
                      st in
                  if crew st <=? 0 then set_popup (Some All_crew_gone) st
                  else st in
              close_scavenge_menu (mk st (outside_sprites g))
        end
    end.

(** *** Actions (l. 660-728) *)

Inductive Action : Type :=
| POPUP_OK
| SCAV_MODE (m : Mode) | SCAV_TOGGLE_GUN | SCAV_GO | SCAV_CANCEL
| GO_DRIVER | GO_ENGINE | GO_LEFT | GO_RIGHT
| LOOK_OUT_DRIVER | LOOK_OUT_LEFT | LOOK_OUT_RIGHT
| BACK_INSIDE_DRIVER | BACK_INSIDE_LEFT | BACK_INSIDE_RIGHT
| START | STOP | FIX_ENGINE | SCAVENGE.

(** The chain of [if]/[elif] after the two modal blocks. *)
Definition plain_action (action : Action) (ld : LevelDraws) (g : TankGame)
    : TankGame :=
  match action with
  | GO_DRIVER => begin_transition DRIVER g
  | GO_ENGINE => begin_transition ENGINE g
  | GO_LEFT => begin_transition LEFT_GUNNER g
  | GO_RIGHT => begin_transition RIGHT_GUNNER g
  | LOOK_OUT_DRIVER =>
      if moving (state g) then outside_monotony_message g
      else begin_transition OUT_DRIVER g
  | LOOK_OUT_LEFT =>
      if moving (state g) then outside_monotony_message g
      else begin_transition OUT_LEFT g
  | LOOK_OUT_RIGHT =>
      if moving (state g) then outside_monotony_message g
      else begin_transition OUT_RIGHT g
  | BACK_INSIDE_DRIVER => begin_transition DRIVER g
  | BACK_INSIDE_LEFT => begin_transition LEFT_GUNNER g
  | BACK_INSIDE_RIGHT => begin_transition RIGHT_GUNNER g
  | START => attempt_start g
  | STOP => attempt_stop ld g
  | FIX_ENGINE => attempt_fix_engine g
  | SCAVENGE => open_scavenge_menu g
  | _ => g
  end.

Definition handle_action (action : Action) (ld : LevelDraws) (sd : ScavDraws)
    (g : TankGame) : TankGame :=
  let st := state g in
  if transitioning st then g
  else
    match popup_text st with
    | Some _ =>
        match action with
        | POPUP_OK => close_popup g
        | _ => g
        end
    | None =>
        if scavenging_confirm st then
          match action with
          | SCAV_MODE m =>
              on_state (fun st =>
                          set_menu (Some m) (scavenging_give_gun st)
                            (scavenging_confirm st) st) g
          | SCAV_TOGGLE_GUN =>
              on_state (fun st =>
                          set_menu (scavenging_mode st)
                            (negb (scavenging_give_gun st))
                            (scavenging_confirm st) st) g
          | SCAV_GO => resolve_scavenge sd g
          | SCAV_CANCEL => close_scavenge_menu g
          | _ => plain_action action ld g
          end
        else plain_action action ld g
    end.

(** [random.randint] within the tuning ranges and [random.shuffle] giving
    a rearrangement of [markers]. *)
Definition valid_level_draws (ld : LevelDraws) : Prop :=
  ZOMBIES_MIN <= d_zombies ld <= ZOMBIES_MAX
  /\ FUELCANS_MIN <= d_fuelcans ld <= FUELCANS_MAX
  /\ SHELLS_MIN <= d_shells ld <= SHELLS_MAX
  /\ PARTS_MIN <= d_parts ld <= PARTS_MAX
  /\ forall v,
       Permutation (shuffled (d_sprites ld v))
         (markers (V1.LevelPool.mk (d_fuelcans ld) (d_shells ld) (d_parts ld)
                     (d_zombies ld))).

(** The zombie sprites of a list. *)
Definition count_zombies (l : list V1.SpriteObj) : Z :=
  Z.of_nat (length (filter V1.is_zombie l)).

Definition SpriteKind_eqb (a b : V1.SpriteKind) : bool :=
  match a, b with
  | V1.ZOMBIE, V1.ZOMBIE | V1.FUEL, V1.FUEL | V1.PART, V1.PART
  | V1.SHELL, V1.SHELL => true
  | _, _ => false
  end.

(** The sprites of a kind in a list. *)
Definition count_kind (k : V1.SpriteKind) (l : list V1.SpriteObj) : Z :=
  Z.of_nat (length (filter (fun sp => SpriteKind_eqb k (V1.kind sp)) l)).

(** Every outside view shows as many zombies as the pool counts. *)
Definition in_step (pool : option V1.LevelPool.t) (s : V1.Sprites) : Prop :=
  exists p, pool = Some p
            /\ count_zombies (V1.at_V_OUT_DRIVER s) = V1.LevelPool.zombies p
            /\ count_zombies (V1.at_V_OUT_LEFT s) = V1.LevelPool.zombies p
            /\ count_zombies (V1.at_V_OUT_RIGHT s) = V1.LevelPool.zombies p.

(** The sprites of the view the cannon fires through, for the two views
    that have one. *)
Definition gunner_view (view : View) (s : V1.Sprites)
    : option (list V1.SpriteObj) :=
  match view with
  | OUT_LEFT => Some (V1.at_V_OUT_LEFT s)
  | OUT_RIGHT => Some (V1.at_V_OUT_RIGHT s)
  | _ => None
  end.

(** The item markers of a list. *)
Definition markers_of (l : list V1.SpriteObj) : list V1.SpriteObj :=
  filter (fun sp => negb (V1.is_zombie sp)) l.

End V1Game.

(** ** Further sessions used in the examples *)

(** The sprites seen through the left slit in [left_slit_level]. *)
Definition left_slit_sprites : list Sprite.t :=
  match sprites_at OUT_LEFT (sprites_by_view left_slit_level) with
  | Some l => l
  | None => []
  end.

(** Second prototype: a breakdown whose level holds one part, one fuel can
    of 50 units and one zombie, all of them in the left gunner's view. *)
Definition v2_draws : V2.LevelDraws :=
  V2.mkLevelDraws 0 1 0 1
    (fun _ => V2.mkSpawnDraw 1 500 300 0)
    (fun _ => V2.mkSpawnDraw 1 700 300 50)
    (fun _ => V2.mkSpawnDraw 1 900 300 2)
    (fun _ => V2.mkSpawnDraw 1 300 300 0).

Definition v2_level : V2.Game :=
  fst (V2.begin_level V2.breakdown v2_draws V2.init).

(** The same level seen through the left gunner's slit, thirty frames after
    the view was asked for. *)
Definition v2_left_level : V2.Game :=
  V2.frames 30 (V2.start_fade_to V2.VIEW_OUT_LEFT v2_level).

(** ... and after the part has been picked up. *)
Definition v2_with_part : V2.Game :=
  fst (V2.handle_item_click (500, 300) v2_left_level).

(** A level entered with an empty tank, and one entered without a gun. *)
Definition v2_dry : V2.Game := V2.set_ledger 0 6 4 4 0 v2_level.

Definition v2_unarmed : V2.Game := V2.set_ledger 200 6 0 4 0 v2_level.


Definition v2_draws_die : V2.ScavDraws :=
  V2.mkScavDraws [(V2.VIEW_OUT_LEFT, O)] (99 # 100).

(** First prototype: a manual stop; the pool holds one fuel can, one part
    and one zombie. *)
Definition v1_sprite_draws : V1Game.SpriteDraws :=
  V1Game.mkSpriteDraws (fun _ => (100, 200)) [V1.FUEL; V1.PART]
    (fun _ => (300, 200)).

Definition v1_draws : V1Game.LevelDraws :=
  V1Game.mkLevelDraws 1 1 0 1 (fun _ => v1_sprite_draws).

Definition v1_level : V1Game.TankGame :=
  V1Game.start_new_level V1Game.Manual_STOP v1_draws V1Game.init.

(** The fields of that level the cannon works on. *)
Definition v1_cannon_level : V1.TankGame :=
  V1.mk (V1Game.shells (V1Game.state v1_level))
    (V1Game.in_level (V1Game.state v1_level))
    (V1Game.level_pool (V1Game.state v1_level)) None
    (V1Game.outside_sprites v1_level).

(** The level with the pop-up closed and the scavenging menu open. *)
Definition v1_menu : V1Game.TankGame :=
  V1Game.open_scavenge_menu (V1Game.close_popup v1_level).

(** The tank of the first prototype with one part aboard. *)
Definition v1_spare_part : V1Game.TankGame :=
  V1Game.on_state (V1Game.set_ledger 200 6 4 4 1) V1Game.init.


Definition v1_draws_die : V1Game.ScavDraws :=
  V1Game.mkScavDraws (99 # 100) 1 (fun _ => O) (fun _ => 50).

(** ** A crowded level of the Tkinter game *)

(** Six zombies, the most [_start_level] draws. *)
Definition draws_six_zombies : LevelDraws :=
  mkLevelDraws 1 1 0 6 1 place_left.

Definition crowded_level : TankGame :=
  run [Ev_stop draws_six_zombies] init.

(** ** A second repair in the second prototype *)

(** A breakdown whose level holds two parts, both in the left gunner's
    view. *)
Definition v2_draws_two_parts : V2.LevelDraws :=
  V2.mkLevelDraws 1 1 0 1
    (fun i => match i with
              | O => V2.mkSpawnDraw 1 500 300 0
              | _ => V2.mkSpawnDraw 1 500 200 0
              end)
    (fun _ => V2.mkSpawnDraw 1 700 300 50)
    (fun _ => V2.mkSpawnDraw 1 900 300 2)
    (fun _ => V2.mkSpawnDraw 1 300 300 0).

(** The player looks through the left slit, picks up both parts and goes to
    the engine view... *)
Definition v2_two_parts : V2.Game :=
  let g := fst (V2.begin_level V2.breakdown v2_draws_two_parts V2.init) in
  let g := V2.frames 30 (V2.start_fade_to V2.VIEW_OUT_LEFT g) in
  let g := fst (V2.handle_outside_click (500, 300) g) in
  let g := fst (V2.handle_outside_click (500, 200) g) in
  V2.frames 30 (V2.start_fade_to V2.VIEW_ENGINE g).

(** ... and presses "Fix Engine (1 Part)". *)
Definition v2_mended : V2.Game := fst (V2.attempt_fix_engine v2_two_parts).

(** ** Looting a level of the Tkinter game *)




(** A scavenger who comes back, [random.random()] giving
    0.6666666666666666 for the loot fraction. *)
Definition draws_two_thirds : ScavDraws :=
  mkScavDraws 0 (B64.lit 6666666666666666 10000000000000000) 0 (fun _ => 10).


(** The tank of the first prototype after 200 frames of driving, each
    burning one unit of fuel: the tank is empty and a level has begun. *)
Definition v1_dry_level : V1Game.TankGame :=
  Nat.iter 200 (V1Game.update_driving 1 false v1_draws) V1Game.init.

(** ** The chance of the second variant in the interpreter's arithmetic *)

Definition v2_base_return_float (risk : V2.Risk) : spec_float :=
  match risk with
  | V2.quick => B64.lit 75 100
  | V2.moderate => B64.lit 50 100
  | V2.greedy => B64.lit 33 100
  end.

(** The chance of v2 [do_scavenge] (l. 483-500), in binary64. *)
Definition v2_scavenge_chance_float (risk : V2.Risk) (give_gun : bool)
    (g : V2.Game) : spec_float :=
  let zombie_penalty :=
    B64.mul (B64.lit 6 100) (B64.of_int (V2.total_zombies_alive g)) in
  let gun_bonus := if give_gun then B64.lit 18 100 else B64.of_int 0 in
  let gun_bonus :=
    if give_gun && (V2.guns g <=? 0) then B64.of_int 0 else gun_bonus in
  B64.clamp
    (B64.add (B64.sub (v2_base_return_float risk) zombie_penalty) gun_bonus)
    (B64.lit 5 100) (B64.lit 95 100).

(** The risk of the second variant that goes by the same name. *)
Definition v2_risk (approach : Approach) : V2.Risk :=
  match approach with
  | quick => V2.quick
  | moderate => V2.moderate
  | greedy => V2.greedy
  end.

(** ** Arithmetic of the Python primitives *)

Lemma Qltb_true (a b : Q) : Qltb a b = true <-> (a < b)%Q.
Proof.
  unfold Qltb. rewrite negb_true_iff. split.
  - intros H. apply Qnot_le_lt. intros Hle.
    apply Qle_bool_iff in Hle. congruence.
  - intros H. destruct (Qle_bool b a) eqn:E; [|reflexivity].
    apply Qle_bool_iff in E. exfalso. exact (Qlt_not_le _ _ H E).
Qed.

Lemma Qltb_false (a b : Q) : Qltb a b = false <-> (b <= a)%Q.
Proof.
  unfold Qltb. rewrite negb_false_iff. apply Qle_bool_iff.
Qed.

Lemma py_max_spec (a b : Q) : (py_max a b == Qmax a b)%Q.
Proof.
  unfold py_max. destruct (Qltb a b) eqn:E.
  - apply Qltb_true in E. symmetry. apply Q.max_r. apply Qlt_le_weak, E.
  - apply Qltb_false in E. symmetry. apply Q.max_l. exact E.
Qed.

Lemma py_min_spec (a b : Q) : (py_min a b == Qmin a b)%Q.
Proof.
  unfold py_min. destruct (Qltb b a) eqn:E.
  - apply Qltb_true in E. symmetry. apply Q.min_r. apply Qlt_le_weak, E.
  - apply Qltb_false in E. symmetry. apply Q.min_l. exact E.
Qed.

Lemma clamp_spec (x lo hi : Q) : (_clamp x lo hi == Qmax lo (Qmin hi x))%Q.
Proof.
  unfold _clamp. rewrite py_max_spec.
  apply Q.max_compat; [reflexivity | apply py_min_spec].
Qed.

Lemma clamp_bounds (x lo hi : Q) :
  (lo <= hi)%Q -> (lo <= _clamp x lo hi /\ _clamp x lo hi <= hi)%Q.
Proof.
  intros Hlh. unfold _clamp, py_max, py_min.
  destruct (Qltb x hi) eqn:E1.
  - apply Qltb_true in E1.
    destruct (Qltb lo x) eqn:E2.
    + apply Qltb_true in E2. split; apply Qlt_le_weak; assumption.
    + split; [apply Qle_refl | exact Hlh].
  - destruct (Qltb lo hi) eqn:E2.
    + split; [exact Hlh | apply Qle_refl].
    + split; [apply Qle_refl | exact Hlh].
Qed.

(** ** Binary64: rounding does not cross a number of the format *)

Lemma bpow_pos (e : Z) : (0 < 2 ^ e)%Q.
Proof. apply Qpower_0_lt. reflexivity. Qed.

Lemma bpow_add (a b : Z) : (2 ^ (a + b) == 2 ^ a * 2 ^ b)%Q.
Proof. apply Qpower_plus. discriminate. Qed.

Lemma bpow_Z (e : Z) : 0 <= e -> (2 ^ e == inject_Z (2 ^ e))%Q.
Proof. intros H. symmetry. apply (Zpower_Qpower 2 e H). Qed.

Lemma bpow_lt_inv (a b : Z) : (2 ^ a < 2 ^ b)%Q -> a < b.
Proof. intros H. apply (Qpower_lt_compat_l_inv 2); [exact H | reflexivity]. Qed.

Lemma bpow_le (a b : Z) : a <= b -> (2 ^ a <= 2 ^ b)%Q.
Proof. intros H. apply Qpower_le_compat_l; [exact H | discriminate]. Qed.

Lemma F2Q_scale (m e n : Z) :
  0 <= n -> (B64.F2Q (m * 2 ^ n) e == B64.F2Q m (e + n))%Q.
Proof.
  intros H. unfold B64.F2Q.
  rewrite inject_Z_mult, bpow_add, (bpow_Z n H). ring.
Qed.

Lemma F2Q_le (m1 m2 e : Z) :
  m1 <= m2 -> (B64.F2Q m1 e <= B64.F2Q m2 e)%Q.
Proof.
  intros H. unfold B64.F2Q.
  apply Qmult_le_compat_r; [rewrite <- Zle_Qle; exact H|].
  apply Qlt_le_weak, bpow_pos.
Qed.

Lemma F2Q_le_inv (m1 m2 e : Z) :
  (B64.F2Q m1 e <= B64.F2Q m2 e)%Q -> m1 <= m2.
Proof.
  unfold B64.F2Q. intros H.
  apply Qmult_le_r in H; [|apply bpow_pos].
  rewrite Zle_Qle. exact H.
Qed.

Lemma F2Q_nonneg (m e : Z) : 0 <= m -> (0 <= B64.F2Q m e)%Q.
Proof.
  intros H. unfold B64.F2Q. apply Qmult_le_0_compat.
  - change 0%Q with (inject_Z 0). rewrite <- Zle_Qle. exact H.
  - apply Qlt_le_weak, bpow_pos.
Qed.

Lemma F2Q_mult (m1 e1 m2 e2 : Z) :
  (B64.F2Q (m1 * m2) (e1 + e2) == B64.F2Q m1 e1 * B64.F2Q m2 e2)%Q.
Proof.
  unfold B64.F2Q. rewrite inject_Z_mult, bpow_add. ring.
Qed.

Lemma digits2_pos_bounds (m : positive) :
  2 ^ (Zpos (digits2_pos m) - 1) <= Zpos m < 2 ^ Zpos (digits2_pos m).
Proof.
  induction m as [p IH | p IH |]; cbn [digits2_pos].
  - rewrite Pos2Z.inj_succ.
    replace (Z.succ (Zpos (digits2_pos p)) - 1)
      with (Z.succ (Zpos (digits2_pos p) - 1)) by lia.
    rewrite !Z.pow_succ_r by lia. lia.
  - rewrite Pos2Z.inj_succ.
    replace (Z.succ (Zpos (digits2_pos p)) - 1)
      with (Z.succ (Zpos (digits2_pos p) - 1)) by lia.
    rewrite !Z.pow_succ_r by lia. lia.
  - cbn. lia.
Qed.

Lemma fexp_mono (a b : Z) :
  a <= b -> fexp B64.prec B64.emax a <= fexp B64.prec B64.emax b.
Proof. unfold fexp. lia. Qed.

Lemma shr_1_spec (mrs : shr_record) :
  0 <= shr_m mrs ->
  shr_m (shr_1 mrs) = shr_m mrs / 2
  /\ (B64.sticky mrs = false -> shr_m mrs mod 2 = 0 -> B64.sticky (shr_1 mrs) = false).
Proof.
  destruct mrs as [m r s]. cbn [shr_m]. intros Hm.
  destruct m as [|p|p]; [| |lia].
  - split; [reflexivity|]. unfold B64.sticky. cbn. intros H _. rewrite H. reflexivity.
  - destruct p as [p|p|]; unfold B64.sticky; cbn [shr_1 shr_m shr_r shr_s].
    + split.
      * rewrite Pos2Z.inj_xI. apply (Z.div_unique _ _ _ 1); lia.
      * intros _ H. rewrite Pos2Z.inj_xI in H.
        rewrite Z.add_comm, Z.mul_comm, Z.mod_add in H by lia. discriminate H.
    + split.
      * rewrite Pos2Z.inj_xO. apply (Z.div_unique _ _ _ 0); lia.
      * intros H _. rewrite H. reflexivity.
    + split; [reflexivity|]. intros _ H. discriminate H.
Qed.

Lemma iter_shr_spec (p : positive) :
  forall mrs : shr_record,
    0 <= shr_m mrs ->
    shr_m (iter_pos shr_1 p mrs) = shr_m mrs / 2 ^ Zpos p
    /\ (B64.sticky mrs = false -> shr_m mrs mod 2 ^ Zpos p = 0 ->
        B64.sticky (iter_pos shr_1 p mrs) = false).
Proof.
  induction p as [p IH | p IH |]; intros mrs Hm; cbn [iter_pos].
  - destruct (shr_1_spec mrs Hm) as [A1 A2].
    assert (H1 : 0 <= shr_m (shr_1 mrs))
      by (rewrite A1; apply Z.div_pos; lia).
    destruct (IH _ H1) as [B1 B2].
    assert (H2 : 0 <= shr_m (iter_pos shr_1 p (shr_1 mrs)))
      by (rewrite B1; apply Z.div_pos; lia).
    destruct (IH _ H2) as [C1 C2].
    assert (E : 2 ^ Zpos p~1 = 2 * 2 ^ Zpos p * 2 ^ Zpos p).
    { replace (Zpos p~1) with (1 + Zpos p + Zpos p) by lia.
      rewrite !Z.pow_add_r by lia. reflexivity. }
    assert (P : 0 < 2 ^ Zpos p) by (apply Z.pow_pos_nonneg; lia).
    split.
    + rewrite C1, B1, A1, E, !Z.div_div by lia. f_equal. ring.
    + intros S0 M0. rewrite E in M0.
      apply Z.mod_divide in M0; [|lia]. destruct M0 as [k Hk].
      apply C2; [apply B2; [apply A2; [exact S0|] |] |].
      * rewrite Hk. replace (k * (2 * 2 ^ Zpos p * 2 ^ Zpos p))
          with ((k * 2 ^ Zpos p * 2 ^ Zpos p) * 2) by ring.
        apply Z.mod_mul. lia.
      * rewrite A1, Hk.
        replace (k * (2 * 2 ^ Zpos p * 2 ^ Zpos p))
          with ((k * 2 ^ Zpos p * 2 ^ Zpos p) * 2) by ring.
        rewrite Z.div_mul by lia. apply Z.mod_mul. lia.
      * rewrite B1, A1, Hk.
        replace (k * (2 * 2 ^ Zpos p * 2 ^ Zpos p))
          with ((k * 2 ^ Zpos p * 2 ^ Zpos p) * 2) by ring.
        rewrite Z.div_mul by lia. rewrite Z.div_mul by lia.
        apply Z.mod_mul. lia.
  - destruct (IH _ Hm) as [B1 B2].
    assert (H2 : 0 <= shr_m (iter_pos shr_1 p mrs))
      by (rewrite B1; apply Z.div_pos; lia).
    destruct (IH _ H2) as [C1 C2].
    assert (E : 2 ^ Zpos p~0 = 2 ^ Zpos p * 2 ^ Zpos p).
    { replace (Zpos p~0) with (Zpos p + Zpos p) by lia.
      apply Z.pow_add_r; lia. }
    assert (P : 0 < 2 ^ Zpos p) by (apply Z.pow_pos_nonneg; lia).
    split.
    + rewrite C1, B1, E, !Z.div_div by lia. reflexivity.
    + intros S0 M0. rewrite E in M0.
      apply Z.mod_divide in M0; [|lia]. destruct M0 as [k Hk].
      apply C2; [apply B2; [exact S0|] |].
      * rewrite Hk, Z.mul_assoc. apply Z.mod_mul. lia.
      * rewrite B1, Hk, Z.mul_assoc, Z.div_mul by lia. apply Z.mod_mul. lia.
  - rewrite Z.pow_1_r. apply shr_1_spec. exact Hm.
Qed.

Lemma sticky_of_loc_Exact (m : Z) :
  B64.sticky (shr_record_of_loc m loc_Exact) = false.
Proof. reflexivity. Qed.

Lemma shr_m_of_loc (m : Z) (l : location) :
  shr_m (shr_record_of_loc m l) = m.
Proof. destruct l as [|[| |]]; reflexivity. Qed.

Lemma round_nearest_even_bounds (mrs : shr_record) :
  shr_m mrs <= round_nearest_even (shr_m mrs) (loc_of_shr_record mrs)
    <= shr_m mrs + 1
  /\ (B64.sticky mrs = false ->
      round_nearest_even (shr_m mrs) (loc_of_shr_record mrs) = shr_m mrs).
Proof.
  destruct mrs as [m [|] [|]]; unfold B64.sticky;
    cbn [shr_m shr_r shr_s loc_of_shr_record round_nearest_even orb].
  - split; [lia | discriminate].
  - split; [destruct (Z.even m); lia | discriminate].
  - split; [lia | discriminate].
  - split; [lia | reflexivity].
Qed.

(** The first step of [binary_round_aux] on an exact value that does not
    exceed a number representable at its own exponent: the rounded mantissa
    stays under the bound. *)
Lemma shr_round_le (mx : positive) (ex : Z) (mb : positive) (eb : Z) :
  fexp B64.prec B64.emax (Zpos (digits2_pos mb) + eb) <= eb ->
  (B64.F2Q (Zpos mx) ex <= B64.F2Q (Zpos mb) eb)%Q ->
  forall mrs e',
    shr_fexp B64.prec B64.emax (Zpos mx) ex loc_Exact = (mrs, e') ->
    0 <= round_nearest_even (shr_m mrs) (loc_of_shr_record mrs)
    /\ (B64.F2Q (round_nearest_even (shr_m mrs) (loc_of_shr_record mrs)) e'
        <= B64.F2Q (Zpos mb) eb)%Q.
Proof.
  intros Hrep Hle mrs e' E.
  unfold shr_fexp, shr in E. cbn [Zdigits2] in E.
  set (d := Zpos (digits2_pos mx)) in *.
  set (db := Zpos (digits2_pos mb)) in *.
  pose proof (digits2_pos_bounds mx) as Dx. fold d in Dx.
  pose proof (digits2_pos_bounds mb) as Db. fold db in Db.
  assert (Hd : d + ex <= db + eb).
  { assert (H : (2 ^ (d - 1 + ex) < 2 ^ (db + eb))%Q).
    { apply Qle_lt_trans with (B64.F2Q (Zpos mx) ex).
      - rewrite bpow_add. unfold B64.F2Q.
        apply Qmult_le_compat_r; [|apply Qlt_le_weak, bpow_pos].
        rewrite bpow_Z by lia. rewrite <- Zle_Qle. lia.
      - apply Qle_lt_trans with (1 := Hle).
        rewrite bpow_add. unfold B64.F2Q.
        apply Qmult_lt_r; [apply bpow_pos|].
        rewrite bpow_Z by lia. rewrite <- Zlt_Qlt. lia. }
    apply bpow_lt_inv in H. lia. }
  pose proof (fexp_mono _ _ Hd) as Hf.
  set (e1 := fexp B64.prec B64.emax (d + ex)) in *.
  destruct (e1 - ex) as [|n|n] eqn:En.
  - injection E as <- <-. cbn. split; [lia | exact Hle].
  - injection E as <- <-.
    destruct (iter_shr_spec n (shr_record_of_loc (Zpos mx) loc_Exact))
      as [I1 I2]; [cbn; lia|].
    cbn [shr_record_of_loc shr_m] in I1, I2.
    set (mrs := iter_pos shr_1 n _) in *.
    destruct (round_nearest_even_bounds mrs) as [[R1 R2] R3].
    set (mr := round_nearest_even (shr_m mrs) (loc_of_shr_record mrs)) in *.
    assert (P : 0 < 2 ^ Zpos n) by (apply Z.pow_pos_nonneg; lia).
    assert (Hm0 : 0 <= shr_m mrs) by (rewrite I1; apply Z.div_pos; lia).
    split; [lia|].
    set (K := Zpos mb * 2 ^ (eb - e1)).
    assert (HK : (B64.F2Q (Zpos mb) eb == B64.F2Q K e1)%Q).
    { unfold K. rewrite F2Q_scale by lia.
      replace (e1 + (eb - e1)) with eb by lia. reflexivity. }
    assert (HK2 : (B64.F2Q (Zpos mb) eb == B64.F2Q (K * 2 ^ Zpos n) ex)%Q).
    { rewrite HK, F2Q_scale by lia.
      replace (ex + Zpos n) with e1 by lia. reflexivity. }
    assert (Hx : Zpos mx <= K * 2 ^ Zpos n).
    { apply (F2Q_le_inv _ _ ex). rewrite <- HK2. exact Hle. }
    replace (ex + Zpos n) with e1 by lia.
    rewrite HK. apply F2Q_le.
    assert (Hq : shr_m mrs <= K).
    { rewrite I1. apply Z.div_le_upper_bound; lia. }
    destruct (B64.sticky mrs) eqn:St.
    + assert (Hne : Zpos mx mod 2 ^ Zpos n <> 0).
      { intros H0. discriminate (I2 eq_refl H0). }
      assert (Hlt : shr_m mrs < K).
      { rewrite I1. apply Z.div_lt_upper_bound; [lia|].
        assert (Zpos mx <> 2 ^ Zpos n * K).
        { intros H0. apply Hne. rewrite H0, Z.mul_comm. apply Z.mod_mul. lia. }
        lia. }
      lia.
    + rewrite (R3 eq_refl). exact Hq.
  - injection E as <- <-. cbn. split; [lia | exact Hle].
Qed.

(** Shifting right never increases the value. *)
Lemma shr_fexp_le (m e : Z) :
  0 <= m ->
  forall mrs e',
    shr_fexp B64.prec B64.emax m e loc_Exact = (mrs, e') ->
    0 <= shr_m mrs /\ (B64.F2Q (shr_m mrs) e' <= B64.F2Q m e)%Q.
Proof.
  intros Hm mrs e' E. unfold shr_fexp, shr in E.
  destruct (fexp B64.prec B64.emax (Zdigits2 m + e) - e) as [|n|n] eqn:En.
  - injection E as <- <-. cbn. split; [exact Hm | apply Qle_refl].
  - injection E as <- <-.
    destruct (iter_shr_spec n (shr_record_of_loc m loc_Exact)) as [I1 _];
      [cbn; lia|].
    cbn [shr_record_of_loc shr_m] in I1.
    assert (P : 0 < 2 ^ Zpos n) by (apply Z.pow_pos_nonneg; lia).
    split; [rewrite I1; apply Z.div_pos; lia|].
    rewrite Z.add_comm, Z.add_comm, <- F2Q_scale by lia.
    apply F2Q_le. rewrite I1, Z.mul_comm. apply Z.mul_div_le. lia.
  - injection E as <- <-. cbn. split; [exact Hm | apply Qle_refl].
Qed.

(** Rounding to nearest does not cross a representable number. *)
Lemma round_aux_le (mx : positive) (ex : Z) (mb : positive) (eb : Z) :
  fexp B64.prec B64.emax (Zpos (digits2_pos mb) + eb) <= eb ->
  Zpos (digits2_pos mb) + eb <= B64.emax - B64.prec ->
  (B64.F2Q (Zpos mx) ex <= B64.F2Q (Zpos mb) eb)%Q ->
  let r := binary_round_aux B64.prec B64.emax false (Zpos mx) ex loc_Exact in
  B64.nonneg r = true /\ (B64.to_Q r <= B64.F2Q (Zpos mb) eb)%Q.
Proof.
  intros Hrep Hbig Hle. cbv zeta. unfold binary_round_aux.
  destruct (shr_fexp B64.prec B64.emax (Zpos mx) ex loc_Exact)
    as [mrs e'] eqn:E1.
  destruct (shr_round_le mx ex mb eb Hrep Hle mrs e' E1) as [R0 R1].
  set (mr := round_nearest_even (shr_m mrs) (loc_of_shr_record mrs)) in *.
  destruct (shr_fexp B64.prec B64.emax mr e' loc_Exact) as [mrs2 e2] eqn:E2.
  destruct (shr_fexp_le mr e' R0 mrs2 e2 E2) as [S0 S1].
  assert (Hb : (0 <= B64.F2Q (Zpos mb) eb)%Q) by (apply F2Q_nonneg; lia).
  destruct (shr_m mrs2) as [|m|m] eqn:Em; [split; [reflexivity | exact Hb] | | lia].
  destruct (e2 <=? B64.emax - B64.prec) eqn:Ee.
  - split; [reflexivity|]. cbn [B64.to_Q].
    apply Qle_trans with (1 := S1). exact R1.
  - exfalso. apply Z.leb_gt in Ee.
    pose proof (digits2_pos_bounds mb) as Db.
    assert (H : (2 ^ e2 < 2 ^ (Zpos (digits2_pos mb) + eb))%Q).
    { apply Qle_lt_trans with (B64.F2Q (Zpos m) e2).
      - unfold B64.F2Q. rewrite <- (Qmult_1_l (2 ^ e2)) at 1.
        apply Qmult_le_compat_r; [|apply Qlt_le_weak, bpow_pos].
        change 1%Q with (inject_Z 1). rewrite <- Zle_Qle. lia.
      - apply Qle_lt_trans with (1 := S1).
        apply Qle_lt_trans with (1 := R1).
        rewrite bpow_add. unfold B64.F2Q.
        apply Qmult_lt_r; [apply bpow_pos|].
        rewrite bpow_Z by lia. rewrite <- Zlt_Qlt. lia. }
    apply bpow_lt_inv in H. lia.
Qed.

Lemma iter_xO (m d : positive) : Zpos (Pos.iter xO m d) = Zpos m * 2 ^ Zpos d.
Proof.
  induction d as [|d IH] using Pos.peano_ind.
  - cbn [Pos.iter]. rewrite Z.pow_1_r. lia.
  - rewrite Pos.iter_succ, Pos2Z.inj_succ, Z.pow_succ_r by lia.
    change (Zpos (Pos.iter xO m d)~0) with (2 * Zpos (Pos.iter xO m d)).
    rewrite IH. ring.
Qed.

Lemma shl_align_value (mx : positive) (ex ex' : Z) :
  (B64.F2Q (Zpos (fst (shl_align mx ex ex'))) (snd (shl_align mx ex ex'))
   == B64.F2Q (Zpos mx) ex)%Q.
Proof.
  unfold shl_align. destruct (ex' - ex) as [|d|d] eqn:E; cbn [fst snd];
    try reflexivity.
  rewrite iter_xO, F2Q_scale by lia.
  replace (ex' + Zpos d) with ex by lia. reflexivity.
Qed.

Lemma F2Q_int (m : Z) : (B64.F2Q m 0 == inject_Z m)%Q.
Proof. unfold B64.F2Q. change (2 ^ 0)%Q with 1%Q. ring. Qed.

(** An integer below 2^53 is a number of the format. *)
Lemma int_representable (b : positive) :
  Zpos b < 2 ^ 53 ->
  fexp B64.prec B64.emax (Zpos (digits2_pos b) + 0) <= 0
  /\ Zpos (digits2_pos b) + 0 <= B64.emax - B64.prec.
Proof.
  intros H. pose proof (digits2_pos_bounds b) as D.
  assert (Hd : Zpos (digits2_pos b) - 1 < 53).
  { apply (Z.pow_lt_mono_r_iff 2); lia. }
  unfold fexp, emin, B64.prec, B64.emax. lia.
Qed.

Lemma round_aux_not_negative (m e : Z) (l : location) :
  B64.not_negative (binary_round_aux B64.prec B64.emax false m e l) = true.
Proof.
  unfold binary_round_aux.
  destruct (shr_fexp B64.prec B64.emax m e l) as [mrs e'].
  destruct (shr_fexp _ _ _ _ _) as [mrs2 e2].
  destruct (shr_m mrs2); [reflexivity | | reflexivity].
  destruct (e2 <=? B64.emax - B64.prec); reflexivity.
Qed.

Lemma nonneg_not_negative (x : spec_float) :
  B64.nonneg x = true -> B64.not_negative x = true.
Proof. destruct x as [s|s| |[|] m e]; try discriminate; reflexivity. Qed.

Lemma to_Q_nonneg (x : spec_float) :
  B64.not_negative x = true -> (0 <= B64.to_Q x)%Q.
Proof.
  destruct x as [s|s| |[|] m e]; cbn [B64.not_negative B64.to_Q];
    try discriminate; intros _; try apply Qle_refl.
  apply F2Q_nonneg. lia.
Qed.

Lemma of_int_not_negative (a : Z) :
  0 <= a -> B64.not_negative (B64.of_int a) = true.
Proof.
  intros H. destruct a as [|a|a]; [reflexivity | | lia].
  unfold B64.of_int, binary_normalize, binary_round.
  destruct (shl_align a 0 _) as [mz ez]. apply round_aux_not_negative.
Qed.

Lemma of_int_le (a : positive) :
  Zpos a < 2 ^ 53 ->
  B64.nonneg (B64.of_int (Zpos a)) = true
  /\ (B64.to_Q (B64.of_int (Zpos a)) <= inject_Z (Zpos a))%Q.
Proof.
  intros H. destruct (int_representable a H) as [R1 R2].
  unfold B64.of_int, binary_normalize, binary_round.
  pose proof (shl_align_value a 0
                (fexp B64.prec B64.emax (Zpos (digits2_pos a) + 0))) as V.
  destruct (shl_align a 0 _) as [mz ez]. cbn [fst snd] in V.
  rewrite <- (F2Q_int (Zpos a)).
  apply round_aux_le; [exact R1 | exact R2 |].
  rewrite V. apply Qle_refl.
Qed.

Lemma mul_not_negative (x y : spec_float) :
  B64.not_negative x = true -> B64.not_negative y = true ->
  B64.not_negative (B64.mul x y) = true.
Proof.
  destruct x as [sx|[|]| |[|] mx ex]; try discriminate;
    destruct y as [sy|[|]| |[|] my ey]; try discriminate; intros _ _;
    try reflexivity.
  unfold B64.mul, SFmul. cbn [xorb]. apply round_aux_not_negative.
Qed.

(** The product of two numbers that are not negative, rounded, does not
    exceed a number of the format that the exact product does not exceed. *)
Lemma mul_le (x y : spec_float) (mb : positive) (eb : Z) :
  B64.nonneg x = true -> B64.nonneg y = true ->
  fexp B64.prec B64.emax (Zpos (digits2_pos mb) + eb) <= eb ->
  Zpos (digits2_pos mb) + eb <= B64.emax - B64.prec ->
  (B64.to_Q x * B64.to_Q y <= B64.F2Q (Zpos mb) eb)%Q ->
  B64.nonneg (B64.mul x y) = true
  /\ (B64.to_Q (B64.mul x y) <= B64.F2Q (Zpos mb) eb)%Q.
Proof.
  intros Hx Hy R1 R2 H.
  assert (Hb : (0 <= B64.F2Q (Zpos mb) eb)%Q) by (apply F2Q_nonneg; lia).
  destruct x as [sx|sx| |[|] mx ex]; try discriminate;
    destruct y as [sy|sy| |[|] my ey]; try discriminate;
    try (split; [reflexivity | exact Hb]).
  unfold B64.mul, SFmul. cbn [xorb].
  change (Zpos (mx * my)) with (Zpos mx * Zpos my).
  apply round_aux_le; [exact R1 | exact R2 |].
  change (Zpos (mx * my)) with (Zpos mx * Zpos my).
  rewrite F2Q_mult. exact H.
Qed.

Lemma py_int_nonneg (q : Q) : (0 <= q)%Q -> 0 <= py_int q.
Proof.
  unfold Qle, py_int. cbn. intros H. apply Z.quot_pos; lia.
Qed.

Lemma py_int_le (q : Q) (b : Z) :
  (0 <= q)%Q -> (q <= inject_Z b)%Q -> py_int q <= b.
Proof.
  unfold Qle, py_int. cbn. intros H0 H.
  rewrite Z.quot_div_nonneg by lia.
  destruct (Z.le_gt_cases 0 b) as [Hb | Hb].
  - apply Z.div_le_upper_bound; lia.
  - exfalso. nia.
Qed.

Lemma to_int_nonneg (x : spec_float) :
  B64.not_negative x = true -> 0 <= B64.to_int x.
Proof. intros H. apply py_int_nonneg, to_Q_nonneg, H. Qed.

(** [int(a * frac)] for a count [a] and a fraction that is not negative. *)
Lemma share_le (a : Z) (frac : spec_float) (b : Z) :
  0 <= a < 2 ^ 53 -> B64.nonneg frac = true ->
  0 < b < 2 ^ 53 ->
  (inject_Z a * B64.to_Q frac <= inject_Z b)%Q ->
  0 <= B64.to_int (B64.mul (B64.of_int a) frac) <= b.
Proof.
  intros Ha Hf Hb H.
  destruct a as [|a|a]; [| |lia].
  - destruct frac as [s|s| |[|] m e]; try discriminate; cbn; lia.
  - destruct (of_int_le a) as [A1 A2]; [lia|].
    destruct b as [|b|b]; try lia.
    destruct (int_representable b) as [R1 R2]; [lia|].
    destruct (mul_le (B64.of_int (Zpos a)) frac b 0 A1 Hf R1 R2) as [M1 M2].
    { rewrite F2Q_int. apply Qle_trans with (2 := H).
      apply Qmult_le_compat_r; [exact A2|].
      apply to_Q_nonneg, nonneg_not_negative, Hf. }
    rewrite F2Q_int in M2. split.
    + apply to_int_nonneg, nonneg_not_negative, M1.
    + apply py_int_le; [|exact M2].
      apply to_Q_nonneg, nonneg_not_negative, M1.
Qed.

(** ** The survival chance *)

(** C2 (counterexample).  The second prototype does not use the penalty
    0.05 and the bonus 0.15 of the specification: in its level with one
    zombie alive a Quick run without a gun has the chance
    0.75 - 0.06 = 0.69, not 0.75 - 0.05 = 0.70, in exact arithmetic and in
    binary64 alike. *)
Lemma v2_chance_has_other_constants :
  V2.total_zombies_alive v2_level = 1
  /\ (V2.scavenge_chance V2.quick false v2_level == 69 # 100)%Q
  /\ ~ (V2.scavenge_chance V2.quick false v2_level
        == chance_formula (spec_base quick) 0.05 0.15
             (V2.total_zombies_alive v2_level)
             (false && (0 <? V2.guns v2_level)))%Q
  /\ v2_scavenge_chance_float V2.quick false v2_level = B64.lit 69 100
  /\ v2_scavenge_chance_float V2.quick false v2_level
     <> chance_formula_float (B64.lit 75 100) (B64.lit 5 100) (B64.lit 15 100)
          (V2.total_zombies_alive v2_level)
          (false && (0 <? V2.guns v2_level)).
Proof.
  split; [reflexivity|]. split; [reflexivity|].
  split; [intros H; vm_compute in H; discriminate H|].
  split; [vm_compute; reflexivity|].
  intros H. vm_compute in H. discriminate H.
Qed.

Lemma ltb_leb (a b : spec_float) : B64.ltb a b = true -> B64.leb a b = true.
Proof.
  unfold B64.ltb, B64.leb, SFltb, SFleb.
  destruct (SFcompare a b) as [[| |]|]; try discriminate; reflexivity.
Qed.

(** A clamped double lies between the bounds, whatever was clamped (an
    infinity and a NaN included). *)
Lemma clamp_float_bounds (x lo hi : spec_float) :
  B64.ltb lo hi = true -> B64.leb lo lo = true -> B64.leb hi hi = true ->
  B64.leb lo (B64.clamp x lo hi) = true
  /\ B64.leb (B64.clamp x lo hi) hi = true.
Proof.
  intros Hlh Hl Hh. unfold B64.clamp, B64.py_max, B64.py_min.
  destruct (B64.ltb x hi) eqn:E1.
  - destruct (B64.ltb lo x) eqn:E2.
    + split; apply ltb_leb; assumption.
    + split; [exact Hl | apply ltb_leb, Hlh].
  - rewrite Hlh. split; [apply ltb_leb, Hlh | exact Hh].
Qed.

Lemma scavenge_chance_exact (approach : Approach) (give_gun : bool)
    (g : TankGame) :
  (scavenge_chance approach give_gun g
   == chance_formula (spec_base approach) 0.05 0.15 (Level.zombies (level g))
        (give_gun && (0 <? guns g)))%Q.
Proof.
  unfold scavenge_chance, chance_formula. rewrite clamp_spec.
  apply Q.max_compat; [reflexivity|].
  apply Q.min_compat; [reflexivity|].
  assert (Hb : (base_of approach == spec_base approach)%Q)
    by (destruct approach; reflexivity).
  unfold ZOMBIE_PENALTY_PER_ZOMBIE, GUN_BONUS.
  destruct (give_gun && (0 <? guns g)); rewrite Hb; [reflexivity|].
  rewrite Qplus_0_r. reflexivity.
Qed.

Lemma v2_scavenge_chance_exact (approach : Approach) (give_gun : bool)
    (g : V2.Game) :
  (V2.scavenge_chance (v2_risk approach) give_gun g
   == chance_formula (spec_base approach) 0.06 0.18 (V2.total_zombies_alive g)
        (give_gun && (0 <? V2.guns g)))%Q.
Proof.
  unfold V2.scavenge_chance, chance_formula.
  match goal with
  | |- (V2.clamp ?x ?lo ?hi == _)%Q => change (V2.clamp x lo hi) with (_clamp x lo hi)
  end.
  rewrite clamp_spec.
  apply Q.max_compat; [reflexivity|].
  apply Q.min_compat; [reflexivity|].
  assert (Hb : (V2.base_return (v2_risk approach) == spec_base approach)%Q)
    by (destruct approach; reflexivity).
  rewrite Hb.
  assert (Hg : (0 <? V2.guns g) = negb (V2.guns g <=? 0))
    by (destruct (V2.guns g <=? 0) eqn:E;
        [apply Z.leb_le in E; apply Z.ltb_ge; exact E
        | apply Z.leb_gt in E; apply Z.ltb_lt; exact E]).
  rewrite Hg.
  destruct give_gun, (V2.guns g <=? 0); cbn [andb negb]; ring.
Qed.

(** Adding the float 0.0 before clamping changes nothing (it turns -0.0
    into 0.0, and both are clamped to the lower bound). *)
Lemma clamp_add_zero (x : spec_float) :
  B64.clamp (B64.add x (B64.of_int 0)) (B64.lit 5 100) (B64.lit 95 100)
  = B64.clamp x (B64.lit 5 100) (B64.lit 95 100).
Proof. destruct x as [[|]|[|]| |s m e]; reflexivity. Qed.

Lemma mul_comm (x y : spec_float) : B64.mul x y = B64.mul y x.
Proof.
  destruct x as [sx|sx| |sx mx ex], y as [sy|sy| |sy my ey];
    cbn [B64.mul SFmul]; rewrite ?(xorb_comm sx sy); try reflexivity.
  rewrite (Pos.mul_comm mx my), (Z.add_comm ex ey). reflexivity.
Qed.

(** The chance the interpreter computes is the formula evaluated in
    binary64. *)
Lemma scavenge_chance_float_formula (approach : Approach) (give_gun : bool)
    (g : TankGame) :
  scavenge_chance_float approach give_gun g
  = chance_formula_float (base_of_float approach) (B64.lit 5 100)
      (B64.lit 15 100) (Level.zombies (level g))
      (give_gun && (0 <? guns g)).
Proof.
  unfold scavenge_chance_float, chance_formula_float.
  destruct (give_gun && (0 <? guns g)); [reflexivity|].
  symmetry. apply clamp_add_zero.
Qed.

Lemma v2_scavenge_chance_float_formula (approach : Approach)
    (give_gun : bool) (g : V2.Game) :
  v2_scavenge_chance_float (v2_risk approach) give_gun g
  = chance_formula_float (base_of_float approach) (B64.lit 6 100)
      (B64.lit 18 100) (V2.total_zombies_alive g)
      (give_gun && (0 <? V2.guns g)).
Proof.
  unfold v2_scavenge_chance_float, chance_formula_float.
  rewrite (mul_comm (B64.lit 6 100)).
  assert (Hg : (0 <? V2.guns g) = negb (V2.guns g <=? 0))
    by (destruct (V2.guns g <=? 0) eqn:E;
        [apply Z.leb_le in E; apply Z.ltb_ge; exact E
        | apply Z.leb_gt in E; apply Z.ltb_lt; exact E]).
  rewrite Hg.
  destruct approach, give_gun, (V2.guns g <=? 0); reflexivity.
Qed.

(** Every zombie count from 0 to 20. *)
Lemma twenty_cases (z : Z) :
  0 <= z <= 20 ->
  In z [0; 1; 2; 3; 4; 5; 6; 7; 8; 9; 10;
        11; 12; 13; 14; 15; 16; 17; 18; 19; 20].
Proof.
  intros H. cbn [In].
  assert (C : z = 0 \/ z = 1 \/ z = 2 \/ z = 3 \/ z = 4 \/ z = 5 \/ z = 6
              \/ z = 7 \/ z = 8 \/ z = 9 \/ z = 10 \/ z = 11 \/ z = 12
              \/ z = 13 \/ z = 14 \/ z = 15 \/ z = 16 \/ z = 17 \/ z = 18
              \/ z = 19 \/ z = 20) by lia.
  intuition auto.
Qed.

Lemma scavenge_chance_float_close (approach : Approach) (give_gun : bool)
    (g : TankGame) :
  0 <= Level.zombies (level g) <= 20 ->
  (Qabs (B64.to_Q (scavenge_chance_float approach give_gun g)
         - scavenge_chance approach give_gun g) <= epsilon)%Q.
Proof.
  intros H. apply twenty_cases in H.
  unfold scavenge_chance_float, scavenge_chance.
  generalize dependent (Level.zombies (level g)).
  generalize (give_gun && (0 <? guns g)). intros b z H.
  cbn [In] in H.
  destruct approach, b;
    repeat (destruct H as [<- | H]; [vm_compute; discriminate|]);
    contradiction H.
Qed.

Lemma v2_scavenge_chance_float_close (risk : V2.Risk) (give_gun : bool)
    (g : V2.Game) :
  0 <= V2.total_zombies_alive g <= 20 ->
  (Qabs (B64.to_Q (v2_scavenge_chance_float risk give_gun g)
         - V2.scavenge_chance risk give_gun g) <= epsilon)%Q.
Proof.
  intros H. apply twenty_cases in H.
  unfold v2_scavenge_chance_float, V2.scavenge_chance.
  generalize dependent (V2.total_zombies_alive g).
  generalize (V2.guns g <=? 0). intros b z H.
  cbn [In] in H.
  destruct risk, give_gun, b;
    repeat (destruct H as [<- | H]; [vm_compute; discriminate|]);
    contradiction H.
Qed.

(** The survival test [random.random() < chance] comes out the same with
    the exact chance and with the double, unless the draw lies within 2^-52
    of the chance. *)
Lemma survival_test_agrees (approach : Approach) (give_gun : bool)
    (g : TankGame) (r : Q) :
  0 <= Level.zombies (level g) <= 20 ->
  (epsilon < Qabs (r - scavenge_chance approach give_gun g))%Q ->
  Qltb r (B64.to_Q (scavenge_chance_float approach give_gun g))
  = Qltb r (scavenge_chance approach give_gun g).
Proof.
  intros Hz Hr.
  pose proof (scavenge_chance_float_close approach give_gun g Hz) as Hc.
  apply Qabs_Qle_condition in Hc. destruct Hc as [C1 C2].
  set (c := scavenge_chance approach give_gun g) in *.
  set (cf := B64.to_Q (scavenge_chance_float approach give_gun g)) in *.
  destruct (Qlt_le_dec r c) as [L | L].
  - assert (Hn : (r - c <= 0)%Q) by lra.
    rewrite (Qabs_neg _ Hn) in Hr.
    assert (L2 : (r < cf)%Q) by lra.
    apply Qltb_true in L. apply Qltb_true in L2. rewrite L, L2. reflexivity.
  - assert (Hn : (0 <= r - c)%Q) by lra.
    rewrite (Qabs_pos _ Hn) in Hr.
    assert (L2 : (cf <= r)%Q) by lra.
    apply Qltb_false in L. apply Qltb_false in L2. rewrite L, L2. reflexivity.
Qed.

(** C2. The chance of a scavenging run is
    clamp(base - z * p + (b if a gun is committed and guns > 0 else 0),
    0.05, 0.95) with base 0.75 / 0.50 / 0.33 for Quick / Moderate / Greedy,
    where (p, b) is (0.05, 0.15) in the Tkinter game and (0.06, 0.18) in
    the second prototype, and z is the zombie count the run reads: the
    zombies alive in the second prototype, the zombie counter of the level
    in the Tkinter game, which is the number of zombies remaining whenever
    the counter agrees with the sprites.  The chance lies within
    [[0.05, 0.95]] for every zombie count, mode and gun choice.  All this
    holds of the exact value of the formula and of the double the
    interpreter computes, which is the formula evaluated in binary64; the
    two are within 2^-52 of each other for up to twenty zombies. *)
Theorem scavenge_chance_formula :
  forall (approach : Approach) (give_gun : bool),
    (forall g : TankGame,
       (scavenge_chance approach give_gun g
        == chance_formula (spec_base approach) 0.05 0.15
             (Level.zombies (level g)) (give_gun && (0 <? guns g)))%Q
       /\ (zombies_alive g = Level.zombies (level g) ->
           (scavenge_chance approach give_gun g
            == chance_formula (spec_base approach) 0.05 0.15
                 (zombies_alive g) (give_gun && (0 <? guns g)))%Q)
       /\ scavenge_chance_float approach give_gun g
          = chance_formula_float (base_of_float approach) (B64.lit 5 100)
              (B64.lit 15 100) (Level.zombies (level g))
              (give_gun && (0 <? guns g))
       /\ (0.05 <= scavenge_chance approach give_gun g)%Q
       /\ (scavenge_chance approach give_gun g <= 0.95)%Q
       /\ B64.leb (B64.lit 5 100) (scavenge_chance_float approach give_gun g)
          = true
       /\ B64.leb (scavenge_chance_float approach give_gun g) (B64.lit 95 100)
          = true
       /\ (0 <= Level.zombies (level g) <= 20 ->
           (Qabs (B64.to_Q (scavenge_chance_float approach give_gun g)
                  - scavenge_chance approach give_gun g) <= epsilon)%Q))
    /\ (forall g : V2.Game,
          (V2.scavenge_chance (v2_risk approach) give_gun g
           == chance_formula (spec_base approach) 0.06 0.18
                (V2.total_zombies_alive g) (give_gun && (0 <? V2.guns g)))%Q
          /\ v2_scavenge_chance_float (v2_risk approach) give_gun g
             = chance_formula_float (base_of_float approach) (B64.lit 6 100)
                 (B64.lit 18 100) (V2.total_zombies_alive g)
                 (give_gun && (0 <? V2.guns g))
          /\ (0.05 <= V2.scavenge_chance (v2_risk approach) give_gun g)%Q
          /\ (V2.scavenge_chance (v2_risk approach) give_gun g <= 0.95)%Q
          /\ B64.leb (B64.lit 5 100)
               (v2_scavenge_chance_float (v2_risk approach) give_gun g) = true
          /\ B64.leb (v2_scavenge_chance_float (v2_risk approach) give_gun g)
               (B64.lit 95 100) = true
          /\ (0 <= V2.total_zombies_alive g <= 20 ->
              (Qabs (B64.to_Q
                       (v2_scavenge_chance_float (v2_risk approach) give_gun g)
                     - V2.scavenge_chance (v2_risk approach) give_gun g)
               <= epsilon)%Q)).
Proof.
  intros approach give_gun.
  assert (Hb : (0.05 <= 0.95)%Q) by discriminate.
  assert (L1 : B64.ltb (B64.lit 5 100) (B64.lit 95 100) = true)
    by (vm_compute; reflexivity).
  assert (L2 : B64.leb (B64.lit 5 100) (B64.lit 5 100) = true)
    by (vm_compute; reflexivity).
  assert (L3 : B64.leb (B64.lit 95 100) (B64.lit 95 100) = true)
    by (vm_compute; reflexivity).
  split; intros g.
  - split; [apply scavenge_chance_exact|].
    split; [intros ->; apply scavenge_chance_exact|].
    split; [apply scavenge_chance_float_formula|].
    destruct (clamp_bounds
                (if give_gun && (0 <? guns g)
                 then base_of approach
                      - inject_Z (Level.zombies (level g))
                        * ZOMBIE_PENALTY_PER_ZOMBIE + GUN_BONUS
                 else base_of approach
                      - inject_Z (Level.zombies (level g))
                        * ZOMBIE_PENALTY_PER_ZOMBIE)%Q
                CHANCE_MIN CHANCE_MAX Hb) as [H1 H2].
    split; [exact H1|]. split; [exact H2|].
    destruct (clamp_float_bounds
                (if give_gun && (0 <? guns g)
                 then B64.add
                        (B64.sub (base_of_float approach)
                           (B64.mul (B64.of_int (Level.zombies (level g)))
                              ZOMBIE_PENALTY_PER_ZOMBIE_float))
                        GUN_BONUS_float
                 else B64.sub (base_of_float approach)
                        (B64.mul (B64.of_int (Level.zombies (level g)))
                           ZOMBIE_PENALTY_PER_ZOMBIE_float))
                CHANCE_MIN_float CHANCE_MAX_float L1 L2 L3)
      as [F1 F2].
    split; [exact F1|]. split; [exact F2|].
    apply scavenge_chance_float_close.
  - split; [apply v2_scavenge_chance_exact|].
    split; [apply v2_scavenge_chance_float_formula|].
    destruct (clamp_bounds
                (V2.base_return (v2_risk approach)
                 - (6 # 100) * inject_Z (V2.total_zombies_alive g)
                 + (if give_gun && (V2.guns g <=? 0) then 0
                    else if give_gun then 18 # 100 else 0))%Q
                (5 # 100) (95 # 100) Hb) as [H1 H2].
    split; [exact H1|]. split; [exact H2|].
    destruct (clamp_float_bounds
                (B64.add
                   (B64.sub (v2_base_return_float (v2_risk approach))
                      (B64.mul (B64.lit 6 100)
                         (B64.of_int (V2.total_zombies_alive g))))
                   (if give_gun && (V2.guns g <=? 0) then B64.of_int 0
                    else if give_gun then B64.lit 18 100 else B64.of_int 0))
                (B64.lit 5 100) (B64.lit 95 100) L1 L2 L3)
      as [F1 F2].
    split; [exact F1|]. split; [exact F2|].
    apply v2_scavenge_chance_float_close.
Qed.

(** ** Counting sprites *)

Lemma Kind_eqb_eq (a b : Kind) : Kind_eqb a b = true <-> a = b.
Proof. destruct a, b; simpl; split; congruence. Qed.

Lemma Kind_eqb_refl (a : Kind) : Kind_eqb a a = true.
Proof. destruct a; reflexivity. Qed.

Lemma Kind_eqb_neq (a b : Kind) : a <> b -> Kind_eqb a b = false.
Proof.
  intros H. destruct (Kind_eqb a b) eqn:E; [|reflexivity].
  apply Kind_eqb_eq in E. contradiction.
Qed.

Lemma count_kind_cons (k : Kind) (sp : Sprite.t) (l : list Sprite.t) :
  count_kind k (sp :: l) =
  ((if Kind_eqb (Sprite.kind sp) k then 1 else 0) + count_kind k l)%nat.
Proof.
  unfold count_kind. simpl. destruct (Kind_eqb (Sprite.kind sp) k); reflexivity.
Qed.

Lemma count_kind_app (k : Kind) (l1 l2 : list Sprite.t) :
  count_kind k (l1 ++ l2) = (count_kind k l1 + count_kind k l2)%nat.
Proof.
  unfold count_kind. rewrite filter_app, length_app. reflexivity.
Qed.

Lemma remove_from_same (kind : Kind) (l : list Sprite.t) :
  forall n : nat,
    count_kind kind (fst (remove_from kind l n))
      = (count_kind kind l - Nat.min n (count_kind kind l))%nat
    /\ snd (remove_from kind l n) = (n - Nat.min n (count_kind kind l))%nat.
Proof.
  induction l as [|sp tl IH]; intros n.
  - cbn [remove_from fst snd]. change (count_kind kind []) with 0%nat.
    split; lia.
  - destruct n as [|r].
    + cbn [remove_from fst snd]. split; lia.
    + cbn [remove_from]. rewrite count_kind_cons.
      destruct (Kind_eqb (Sprite.kind sp) kind) eqn:E.
      * destruct (IH r) as [H1 H2]. rewrite H1, H2. split; lia.
      * destruct (IH (S r)) as [H1 H2].
        destruct (remove_from kind tl (S r)) as [tl' r'] eqn:R.
        cbn [fst snd] in *. rewrite count_kind_cons, E, H1, H2. split; lia.
Qed.

Lemma remove_from_other (kind k : Kind) (l : list Sprite.t) :
  k <> kind ->
  forall n : nat, count_kind k (fst (remove_from kind l n)) = count_kind k l.
Proof.
  intros Hk. induction l as [|sp tl IH]; intros n.
  - reflexivity.
  - destruct n as [|r]; [reflexivity|].
    cbn [remove_from].
    destruct (Kind_eqb (Sprite.kind sp) kind) eqn:E.
    + rewrite count_kind_cons, IH.
      apply Kind_eqb_eq in E. rewrite E.
      rewrite (Kind_eqb_neq kind k) by congruence. reflexivity.
    + specialize (IH (S r)).
      destruct (remove_from kind tl (S r)) as [tl' r'].
      cbn [fst] in *. rewrite !count_kind_cons, IH. reflexivity.
Qed.

(** Removing [n] sprites of a kind of which at least [n] are left removes
    exactly [n] of them. *)
Lemma remove_items_same (kind : Kind) (n : Z) (m : SpriteMap) :
  0 <= n <= _count_remaining_items m kind ->
  _count_remaining_items (_remove_items_from_map kind n m) kind
    = _count_remaining_items m kind - n.
Proof.
  unfold _count_remaining_items, _remove_items_from_map. intros Hn.
  pose proof (remove_from_same kind (at_OUT_DRIVER m) (Z.to_nat n)) as [A1 A2].
  destruct (remove_from kind (at_OUT_DRIVER m) (Z.to_nat n)) as [l1 r1].
  pose proof (remove_from_same kind (at_OUT_LEFT m) r1) as [B1 B2].
  destruct (remove_from kind (at_OUT_LEFT m) r1) as [l2 r2].
  pose proof (remove_from_same kind (at_OUT_RIGHT m) r2) as [C1 C2].
  destruct (remove_from kind (at_OUT_RIGHT m) r2) as [l3 r3].
  cbn [fst snd at_OUT_DRIVER at_OUT_LEFT at_OUT_RIGHT] in *.
  lia.
Qed.

Lemma remove_items_other (kind k : Kind) (n : Z) (m : SpriteMap) :
  k <> kind ->
  _count_remaining_items (_remove_items_from_map kind n m) k
    = _count_remaining_items m k.
Proof.
  unfold _count_remaining_items, _remove_items_from_map. intros Hk.
  pose proof (remove_from_other kind k (at_OUT_DRIVER m) Hk (Z.to_nat n)) as A.
  destruct (remove_from kind (at_OUT_DRIVER m) (Z.to_nat n)) as [l1 r1].
  pose proof (remove_from_other kind k (at_OUT_LEFT m) Hk r1) as B.
  destruct (remove_from kind (at_OUT_LEFT m) r1) as [l2 r2].
  pose proof (remove_from_other kind k (at_OUT_RIGHT m) Hk r2) as C.
  destruct (remove_from kind (at_OUT_RIGHT m) r2) as [l3 r3].
  cbn [fst at_OUT_DRIVER at_OUT_LEFT at_OUT_RIGHT] in *.
  lia.
Qed.

Lemma count_remaining_nonneg (m : SpriteMap) (k : Kind) :
  0 <= _count_remaining_items m k.
Proof. unfold _count_remaining_items. lia. Qed.

(** ** The loot of a survivor *)

Lemma choice_In {A : Type} (l : list A) (i : nat) (d : A) :
  l <> [] -> In (choice l i d) l.
Proof.
  intros Hl. unfold choice. apply nth_In.
  apply Nat.mod_upper_bound. destruct l; [congruence | simpl; lia].
Qed.

Lemma share_nonneg (a : Z) (frac : spec_float) :
  0 <= a -> B64.not_negative frac = true -> 0 <= share a frac.
Proof.
  intros Ha Hf. unfold share.
  apply to_int_nonneg, mul_not_negative; [apply of_int_not_negative, Ha|].
  exact Hf.
Qed.

(** A share of a count below 2^53, for a fraction of at most 1, lies
    between nothing and the count. *)
Lemma share_bounds (a : Z) (frac : spec_float) :
  0 <= a < 2 ^ 53 -> B64.nonneg frac = true -> (B64.to_Q frac <= 1)%Q ->
  0 <= share a frac <= a.
Proof.
  intros Ha Hf H1. unfold share.
  destruct (Z.eq_dec a 0) as [-> | Hne].
  - destruct frac as [s|s| |[|] m e]; try discriminate; cbn; lia.
  - apply share_le; [exact Ha | exact Hf | lia |].
    rewrite <- (Qmult_1_r (inject_Z a)) at 2.
    apply Qmult_le_l with (z := inject_Z a) in H1; [exact H1|].
    change 0%Q with (inject_Z 0). rewrite <- Zlt_Qlt. lia.
Qed.

Lemma take_loot_bounds (avail : Kind -> Z) (frac : spec_float) (pick : nat) :
  (forall k, 0 <= share (avail k) frac <= avail k) ->
  let loot := take_loot avail frac pick in
  0 <= got_parts loot <= avail part_ /\
  0 <= got_shells loot <= avail shell_ /\
  0 <= got_fuel_cans loot <= avail fuel_ /\
  0 <= got_ammo_boxes loot <= avail ammo_.
Proof.
  intros Hav.
  pose proof (Hav part_) as Hp.
  pose proof (Hav shell_) as Hs.
  pose proof (Hav fuel_) as Hu.
  pose proof (Hav ammo_) as Ha.
  unfold take_loot.
  set (gp := share (avail part_) frac) in *.
  set (gs := share (avail shell_) frac) in *.
  set (gf := share (avail fuel_) frac) in *.
  set (ga := share (avail ammo_) frac) in *.
  destruct ((gp + gs + gf + ga =? 0)
            && (0 <? avail part_ + avail shell_ + avail fuel_ + avail ammo_))
    eqn:Hfb; cbv zeta; [|simpl; lia].
  apply andb_true_iff in Hfb. destruct Hfb as [Hz Hpos].
  apply Z.eqb_eq in Hz. apply Z.ltb_lt in Hpos.
  set (choices :=
         (if 0 <? avail part_ then [part_] else [])
         ++ (if 0 <? avail shell_ then [shell_] else [])
         ++ (if 0 <? avail fuel_ then [fuel_] else [])
         ++ (if 0 <? avail ammo_ then [ammo_] else [])).
  assert (Hne : choices <> []).
  { subst choices.
    destruct (0 <? avail part_) eqn:E1; [discriminate|].
    destruct (0 <? avail shell_) eqn:E2; [discriminate|].
    destruct (0 <? avail fuel_) eqn:E3; [discriminate|].
    destruct (0 <? avail ammo_) eqn:E4; [discriminate|].
    apply Z.ltb_ge in E1, E2, E3, E4. lia. }
  pose proof (choice_In choices pick ammo_ Hne) as Hin.
  assert (Hsel : 0 < avail (choice choices pick ammo_)
                 /\ choice choices pick ammo_ <> zombie_).
  { revert Hin. generalize (choice choices pick ammo_). intros k Hin.
    subst choices. rewrite !in_app_iff in Hin.
    destruct Hin as [H | [H | [H | H]]];
      match type of H with
      | In _ (if ?b then _ else _) =>
          destruct b eqn:E; simpl in H;
          [destruct H as [<- | []]; apply Z.ltb_lt in E;
           split; [exact E | discriminate]
          | contradiction]
      end. }
  clearbody gp gs gf ga. clear Hin Hne. clearbody choices.
  destruct Hsel as [Hsel Hnz].
  destruct (choice choices pick ammo_); cbn [got_parts got_shells
    got_fuel_cans got_ammo_boxes]; try lia.
  congruence.
Qed.

Lemma take_loot_nonneg (avail : Kind -> Z) (frac : spec_float) (pick : nat) :
  (forall k, 0 <= share (avail k) frac) ->
  let loot := take_loot avail frac pick in
  0 <= got_parts loot /\ 0 <= got_shells loot /\
  0 <= got_fuel_cans loot /\ 0 <= got_ammo_boxes loot.
Proof.
  intros Hav.
  pose proof (Hav part_) as Hp.
  pose proof (Hav shell_) as Hs.
  pose proof (Hav fuel_) as Hu.
  pose proof (Hav ammo_) as Ha.
  unfold take_loot. cbv zeta.
  destruct (_ && _); [|cbn; lia].
  destruct (choice _ pick ammo_); cbn; lia.
Qed.

(** The loot fraction [random.random() * max_frac] is a number between 0
    and [max_frac], itself at most 1. *)
Lemma loot_fraction_bounds (approach : Approach) (r : spec_float) :
  B64.in_unit r ->
  B64.nonneg (B64.mul r (max_frac_of approach)) = true
  /\ (B64.to_Q (B64.mul r (max_frac_of approach))
      <= B64.to_Q (max_frac_of approach))%Q
  /\ (B64.to_Q (max_frac_of approach) <= 1)%Q.
Proof.
  intros (_ & Hr & H1).
  assert (E : exists m e,
             max_frac_of approach = S754_finite false m e
             /\ fexp B64.prec B64.emax (Zpos (digits2_pos m) + e) <= e
             /\ Zpos (digits2_pos m) + e <= B64.emax - B64.prec
             /\ (B64.F2Q (Zpos m) e <= 1)%Q).
  { destruct approach; eexists; eexists;
      (split; [vm_compute; reflexivity|]);
      (split; [vm_compute; discriminate|]);
      (split; [vm_compute; discriminate|]); vm_compute; discriminate. }
  destruct E as (m & e & -> & R1 & R2 & R3).
  cbn [B64.to_Q].
  destruct (mul_le r (S754_finite false m e) m e Hr eq_refl R1 R2) as [M1 M2].
  { cbn [B64.to_Q].
    rewrite <- (Qmult_1_l (B64.F2Q (Zpos m) e)) at 2.
    apply Qmult_le_compat_r; [apply Qlt_le_weak, H1|].
    apply F2Q_nonneg. lia. }
  split; [exact M1|]. split; [exact M2 | exact R3].
Qed.

(** The shares of a survivor, for sprite counts below 2^53. *)
Lemma loot_shares_bounds (approach : Approach) (r : spec_float)
    (avail : Kind -> Z) :
  B64.in_unit r -> (forall k, 0 <= avail k < 2 ^ 53) ->
  forall k,
    0 <= share (avail k) (B64.mul r (max_frac_of approach)) <= avail k.
Proof.
  intros Hr Hav k.
  destruct (loot_fraction_bounds approach r Hr) as (F1 & F2 & F3).
  apply share_bounds; [apply Hav | exact F1|].
  apply Qle_trans with (1 := F2). exact F3.
Qed.

Lemma loot_shares_nonneg (approach : Approach) (r : spec_float)
    (avail : Kind -> Z) :
  B64.in_unit r -> (forall k, 0 <= avail k) ->
  forall k, 0 <= share (avail k) (B64.mul r (max_frac_of approach)).
Proof.
  intros Hr Hav k.
  destruct (loot_fraction_bounds approach r Hr) as (F1 & _).
  apply share_nonneg; [apply Hav | apply nonneg_not_negative, F1].
Qed.

(** ** Resolving a scavenging run *)



(** The scavenger who does not return. *)
Lemma resolve_scavenge_lost (approach : Approach) (give_gun : bool)
    (rd : ScavDraws) (g : TankGame) :
  Qltb (r_survive rd) (scavenge_chance approach give_gun g) = false ->
  _resolve_scavenge approach give_gun rd g =
    let g1 :=
      if give_gun && (0 <? guns g) then set_guns (guns g - 1) g else g in
    let g2 := set_crew (crew g - 1) g1 in
    if crew g - 1 <=? 0
    then (set_destroyed true g2, [Scavenging; Lost; Game_Over])
    else (g2, [Scavenging; Lost]).
Proof.
  intros H. unfold _resolve_scavenge. rewrite H. cbn [negb].
  destruct (give_gun && (0 <? guns g)); fields; reflexivity.
Qed.

(** C10. When the scavenger does not return, the sprites of the level, the
    level counters and the fuel, shells, parts and ammo of the tank are
    unchanged; crew decreases by exactly 1 and guns decreases by exactly 1
    when a gun was committed (and by nothing otherwise). *)
Theorem scavenge_failure_frame :
  forall (approach : Approach) (give_gun : bool) (rd : ScavDraws)
         (g : TankGame),
    (scavenge_chance approach give_gun g <= r_survive rd)%Q ->
    let g' := fst (_resolve_scavenge approach give_gun rd g) in
    sprites_by_view g' = sprites_by_view g /\
    level g' = level g /\
    fuel g' = fuel g /\
    shells g' = shells g /\
    parts g' = parts g /\
    ammo g' = ammo g /\
    crew g' = crew g - 1 /\
    guns g' = (if give_gun && (0 <? guns g) then guns g - 1 else guns g) /\
    driving g' = driving g /\
    engine_broken g' = engine_broken g /\
    out_of_fuel g' = out_of_fuel g /\
    current_view_key g' = current_view_key g.
Proof.
  intros approach give_gun rd g H. apply Qltb_false in H.
  rewrite (resolve_scavenge_lost _ _ _ _ H). cbv zeta.
  destruct (crew g - 1 <=? 0), (give_gun && (0 <? guns g)); fields;
    repeat split; reflexivity.
Qed.


Lemma remove_loot_counts (loot : Loot) (m : SpriteMap) :
  0 <= got_parts loot <= _count_remaining_items m part_ ->
  0 <= got_shells loot <= _count_remaining_items m shell_ ->
  0 <= got_fuel_cans loot <= _count_remaining_items m fuel_ ->
  0 <= got_ammo_boxes loot <= _count_remaining_items m ammo_ ->
  let m' := remove_loot loot m in
  _count_remaining_items m' part_
    = _count_remaining_items m part_ - got_parts loot /\
  _count_remaining_items m' shell_
    = _count_remaining_items m shell_ - got_shells loot /\
  _count_remaining_items m' fuel_
    = _count_remaining_items m fuel_ - got_fuel_cans loot /\
  _count_remaining_items m' ammo_
    = _count_remaining_items m ammo_ - got_ammo_boxes loot /\
  _count_remaining_items m' zombie_ = _count_remaining_items m zombie_.
Proof.
  intros Hp Hs Hf Ha. unfold remove_loot. cbv zeta.
  repeat split.
  - rewrite !remove_items_other by discriminate.
    apply remove_items_same. exact Hp.
  - rewrite !remove_items_other by discriminate.
    rewrite remove_items_same; rewrite ?remove_items_other by discriminate;
      [reflexivity | exact Hs].
  - rewrite remove_items_other by discriminate.
    rewrite remove_items_same; rewrite ?remove_items_other by discriminate;
      [reflexivity | exact Hf].
  - rewrite remove_items_same; rewrite ?remove_items_other by discriminate;
      [reflexivity | exact Ha].
  - rewrite !remove_items_other by discriminate. reflexivity.
Qed.

(** The scavenger who returns. *)
Lemma resolve_scavenge_returned (approach : Approach) (give_gun : bool)
    (rd : ScavDraws) (g : TankGame) :
  Qltb (r_survive rd) (scavenge_chance approach give_gun g) = true ->
  let loot :=
    take_loot (_count_remaining_items (sprites_by_view g))
      (B64.mul (r_frac rd) (max_frac_of approach)) (r_pick rd) in
  let fuel_gained := fuel_yield (r_fuel rd) (Z.to_nat (got_fuel_cans loot)) in
  let ammo_gained := got_ammo_boxes loot * AMMO_PER_BOX in
  let g' := fst (_resolve_scavenge approach give_gun rd g) in
  fuel g' = fuel g + fuel_gained /\
  parts g' = parts g + got_parts loot /\
  shells g' = shells g + got_shells loot /\
  ammo g' = ammo g + ammo_gained /\
  guns g' = guns g /\
  crew g' = crew g /\
  sprites_by_view g' = remove_loot loot (sprites_by_view g) /\
  level g' = level g /\
  destroyed g' = destroyed g /\
  snd (_resolve_scavenge approach give_gun rd g) =
    [Scavenging;
     Returned (got_parts loot) (got_shells loot) fuel_gained ammo_gained
       (percent_float approach give_gun g)].
Proof.
  intros H. unfold _resolve_scavenge. rewrite H. cbn [negb]. cbv zeta.
  unfold remove_loot.
  destruct (give_gun && (0 <? guns g)); fields;
    repeat split; try reflexivity; lia.
Qed.

(** ** Populating a level *)

Lemma choice_outside (i : nat) :
  is_outside (choice outside_keys i OUT_DRIVER) = true.
Proof.
  unfold choice, outside_keys. cbn [length].
  destruct (Nat.modulo i 3) as [|[|[|[|n]]]]; reflexivity.
Qed.

Lemma count_append_at (k : Kind) (v : View) (sp : Sprite.t) (m : SpriteMap) :
  is_outside v = true ->
  _count_remaining_items (append_at v sp m) k
    = _count_remaining_items m k
      + (if Kind_eqb (Sprite.kind sp) k then 1 else 0).
Proof.
  intros Hv. unfold _count_remaining_items, append_at.
  destruct v; try discriminate Hv;
    cbn [sprites_at store_at at_OUT_DRIVER at_OUT_LEFT at_OUT_RIGHT];
    rewrite count_kind_app, (count_kind_cons k sp []);
    change (count_kind k []) with 0%nat;
    destruct (Kind_eqb (Sprite.kind sp) k); lia.
Qed.

Lemma place_from_count (draw : nat -> Placement) (kind k : Kind) :
  forall (n i : nat) (m : SpriteMap),
    _count_remaining_items (place_from draw kind i n m) k
      = _count_remaining_items m k
        + (if Kind_eqb kind k then Z.of_nat n else 0).
Proof.
  induction n as [|n IH]; intros i m.
  - cbn [place_from]. destruct (Kind_eqb kind k); cbn; lia.
  - cbn [place_from]. rewrite IH.
    rewrite count_append_at by apply choice_outside.
    cbn [Sprite.kind]. destruct (Kind_eqb kind k); lia.
Qed.

Lemma place_count (ld : LevelDraws) (kind k : Kind) (n : Z) (m : SpriteMap) :
  _count_remaining_items (place ld kind n m) k
    = _count_remaining_items m k + (if Kind_eqb kind k then Z.max 0 n else 0).
Proof.
  unfold place. rewrite place_from_count.
  destruct (Kind_eqb kind k); lia.
Qed.

(** A fresh level shows as many sprites of every kind as its counters say
    (a negative counter places nothing). *)
Lemma start_level_counts (reason : Reason) (ld : LevelDraws) (g : TankGame)
    (k : Kind) :
  _count_remaining_items (sprites_by_view (_start_level reason ld g)) k
    = Z.max 0 (level_count (level (_start_level reason ld g)) k).
Proof.
  unfold _start_level, _populate_outside_sprites. fields.
  rewrite !place_count.
  unfold _count_remaining_items, no_sprites, count_kind.
  cbn [at_OUT_DRIVER at_OUT_LEFT at_OUT_RIGHT filter length Nat.add].
  destruct k; cbn [Kind_eqb level_count Level.fuel_cans Level.parts
                   Level.shells Level.zombies Level.ammo_boxes]; lia.
Qed.

(** C9. Every level, whatever its reason and whatever the random draws,
    starts with a part counter of at least 1, and as many part sprites in
    the outside views; this holds for the three ways a level starts (the
    driver's stop, the breakdown timer, the fuel running out). *)
Theorem start_level_has_a_part :
  forall (ld : LevelDraws) (g : TankGame),
    (forall reason : Reason,
       let g' := _start_level reason ld g in
       1 <= Level.parts (level g')
       /\ _count_remaining_items (sprites_by_view g') part_
            = Level.parts (level g'))
    /\ (driving g = true ->
          1 <= Level.parts (level (_driver_stop ld g))
          /\ 1 <= Level.parts (level (_trigger_breakdown_level ld g))
          /\ 1 <= Level.parts (level (_trigger_out_of_fuel_level ld g))).
Proof.
  intros ld g.
  assert (H : forall reason, 1 <= Level.parts (level (_start_level reason ld g))).
  { intros reason. unfold _start_level, _populate_outside_sprites. fields. lia. }
  split.
  - intros reason. cbv zeta. split; [apply H|].
    rewrite start_level_counts. cbn [level_count].
    specialize (H reason). lia.
  - intros Hd.
    unfold _driver_stop, _trigger_breakdown_level, _trigger_out_of_fuel_level.
    rewrite Hd. cbn [negb]. repeat split; apply H.
Qed.

(** ** Engine repair *)

(** [_fix_engine] of the Tkinter game succeeds exactly when a level is
    active, the engine is broken and at least one part is aboard; it then
    takes exactly one part and mends the engine, leaving the tank stopped
    in its level.  In every other case it reports "No repair needed" or
    "Not enough parts" and changes nothing; with no part on a breakdown
    level the report is "Not enough parts". *)
Lemma fix_engine_contract (g : TankGame) :
  (Level.active (level g) = true -> engine_broken g = true ->
   1 <= parts g ->
     _fix_engine g
       = (set_engine_broken false (set_parts (parts g - 1) g),
          [Engine_fixed])
     /\ parts (fst (_fix_engine g)) = parts g - 1
     /\ engine_broken (fst (_fix_engine g)) = false
     /\ driving (fst (_fix_engine g)) = driving g
     /\ level (fst (_fix_engine g)) = level g)
  /\ (~ (Level.active (level g) = true /\ engine_broken g = true
         /\ 1 <= parts g) ->
        fst (_fix_engine g) = g
        /\ (snd (_fix_engine g) = [No_repair_needed_driving]
            \/ snd (_fix_engine g) = [No_repair_needed_not_broken]
            \/ snd (_fix_engine g) = [Not_enough_parts]))
  /\ (Level.active (level g) = true -> engine_broken g = true ->
      parts g = 0 ->
        _fix_engine g = (g, [Not_enough_parts])).
Proof.
  unfold _fix_engine. split; [|split].
  - intros Ha Hb Hp. rewrite Ha, Hb. cbn [negb].
    replace (parts g <=? 0) with false by (symmetry; apply Z.leb_gt; lia).
    fields. repeat split; reflexivity.
  - intros Hn.
    destruct (Level.active (level g));
      [|split; [reflexivity | left; reflexivity]].
    destruct (engine_broken g);
      [|split; [reflexivity | right; left; reflexivity]].
    destruct (parts g <=? 0) eqn:E;
      [split; [reflexivity | right; right; reflexivity]|].
    apply Z.leb_gt in E. exfalso. apply Hn. repeat split; lia.
  - intros Ha Hb Hp. rewrite Ha, Hb, Hp. reflexivity.
Qed.

(** C6. The second prototype repairs an engine that is not broken.  Its
    [attempt_fix_engine] tests the parts only, and its button, in the
    engine view, is enabled during the whole level.  In a breakdown level
    with two parts picked up, the first press mends the engine for one
    part; the second press, on the engine just mended, reports a repair
    again and takes the other part, where the contract (and [_fix_engine]
    of the Tkinter game, [fix_engine_contract]) refuses with "not broken"
    and leaves the ledger alone. *)
Theorem v2_repair_of_sound_engine_takes_a_part :
  V2.level_active v2_two_parts = true
  /\ V2.view v2_two_parts = V2.VIEW_ENGINE
  /\ V2.engine_broken v2_two_parts = true
  /\ V2.parts v2_two_parts = 2
  /\ V2.attempt_fix_engine v2_two_parts = (v2_mended, [V2.Engine_repaired])
  /\ V2.level_active v2_mended = true
  /\ V2.view v2_mended = V2.VIEW_ENGINE
  /\ V2.engine_broken v2_mended = false
  /\ V2.parts v2_mended = 1
  /\ snd (V2.attempt_fix_engine v2_mended) = [V2.Engine_repaired]
  /\ V2.engine_broken (fst (V2.attempt_fix_engine v2_mended)) = false
  /\ V2.parts (fst (V2.attempt_fix_engine v2_mended)) = 0
  /\ fst (V2.attempt_fix_engine v2_mended) <> v2_mended.
Proof.
  repeat split; try (vm_compute; reflexivity).
  intros H. apply (f_equal V2.parts) in H. vm_compute in H. discriminate H.
Qed.

(** ** What each handler does to the ledger and the flags *)

Lemma start_level_fields (reason : Reason) (ld : LevelDraws) (g : TankGame) :
  let g' := _start_level reason ld g in
  fuel g' = fuel g /\ parts g' = parts g /\ shells g' = shells g /\
  guns g' = guns g /\ crew g' = crew g /\ ammo g' = ammo g /\
  driving g' = false /\
  engine_broken g' = Reason_eqb reason Engine_breakdown /\
  out_of_fuel g' = Reason_eqb reason Out_of_fuel /\
  Level.active (level g') = true /\
  Level.reason (level g') = reason /\
  destroyed g' = destroyed g.
Proof.
  unfold _start_level, _populate_outside_sprites. fields.
  repeat split; reflexivity.
Qed.

(** A click either changes nothing, or spends one shell, or spends one
    machine-gun burst; it never touches the level counters. *)
Lemma canvas_click_effect (ex ey num : Z) (g : TankGame) :
  let g' := fst (_on_canvas_click ex ey num g) in
  fuel g' = fuel g /\ parts g' = parts g /\ guns g' = guns g /\
  crew g' = crew g /\ driving g' = driving g /\
  engine_broken g' = engine_broken g /\ out_of_fuel g' = out_of_fuel g /\
  level g' = level g /\ destroyed g' = destroyed g /\
  current_view_key g' = current_view_key g /\
  ((g' = g)
   \/ (0 < shells g /\ shells g' = shells g - 1 /\ ammo g' = ammo g)
   \/ (MG_AMMO_COST <= ammo g /\ ammo g' = ammo g - MG_AMMO_COST
       /\ shells g' = shells g)).
Proof.
  unfold _on_canvas_click, kill_zombie. break_match; fields;
    repeat split; try reflexivity; try assumption;
    try (left; reflexivity);
    try (right; left; repeat split; try reflexivity;
         match goal with H : (_ <=? _) = false |- _ => apply Z.leb_gt in H end;
         lia);
    try (right; right; repeat split; try reflexivity;
         match goal with H : (_ <? _) = false |- _ => apply Z.ltb_ge in H end;
         lia).
Qed.

Lemma fuel_yield_nonneg (draw : nat -> Z) (n : nat) :
  (forall i, 0 <= draw i) -> 0 <= fuel_yield draw n.
Proof.
  intros H. induction n as [|n IH]; cbn [fuel_yield]; [lia|].
  specialize (H n). lia.
Qed.

(** ** The invariant of a session *)

Lemma session_inv_init : session_inv init.
Proof.
  constructor; unfold ledger_ok, init, _start_timers_for_driving; fields;
    unfold STARTING_FUEL, STARTING_PARTS, STARTING_SHELLS, STARTING_GUNS,
      STARTING_CREW, STARTING_AMMO.
  - repeat split; lia.
  - right; lia.
  - left; lia.
  - reflexivity.
Qed.

Lemma session_inv_start_level (reason : Reason) (ld : LevelDraws)
    (g : TankGame) :
  ledger_ok g ->
  destroyed g = true \/ 0 < crew g ->
  0 < fuel g \/ reason = Out_of_fuel ->
  session_inv (_start_level reason ld g).
Proof.
  intros L C Hr.
  pose proof (start_level_fields reason ld g) as S. cbv zeta in S.
  destruct S as (Sf & Sp & Ss & Sg & Sc & Sa & Sd & _ & So & Sl & _ & Sx).
  unfold ledger_ok in *.
  constructor; unfold ledger_ok;
    rewrite ?Sf, ?Sp, ?Ss, ?Sg, ?Sc, ?Sa, ?Sd, ?So, ?Sl, ?Sx.
  - exact L.
  - exact C.
  - destruct Hr as [Hr | ->]; [left; exact Hr | right; split; reflexivity].
  - reflexivity.
Qed.

Lemma session_inv_driving_fuel (g : TankGame) :
  session_inv g -> driving g = true -> 0 < fuel g.
Proof.
  intros [_ _ F _] Hd. destruct F as [F | [F _]]; [exact F | congruence].
Qed.

Lemma session_inv_step (e : Event) (g : TankGame) :
  session_inv g -> valid_event e -> session_inv (fst (dispatch e g)).
Proof.
  intros I V. unfold dispatch.
  destruct (destroyed g) eqn:D; [exact I|].
  destruct e as [ld | ld | ld | | v | v | ex ey num | | approach give_gun rd | ];
    cbn [handle fst].
  - (* fuel tick *)
    unfold _fuel_tick. destruct (driving g) eqn:Hd; cbn [negb]; [|exact I].
    fields. pose proof (session_inv_driving_fuel g I Hd) as Hf.
    unfold FUEL_CONSUMPTION_PER_SEC.
    destruct (fuel g - 1 <=? 0) eqn:E.
    + unfold _trigger_out_of_fuel_level. fields. rewrite Hd. cbn [negb].
      destruct I as [L C F A]. unfold ledger_ok in *.
      apply session_inv_start_level; unfold ledger_ok; fields.
      * repeat split; lia.
      * exact C.
      * right. reflexivity.
    + apply Z.leb_gt in E.
      destruct I as [L C F A]. unfold ledger_ok in *.
      constructor; unfold ledger_ok; fields.
      * repeat split; lia.
      * exact C.
      * left. lia.
      * exact A.
  - (* breakdown timer *)
    unfold _trigger_breakdown_level.
    destruct (driving g) eqn:Hd; cbn [negb]; [|exact I].
    apply session_inv_start_level; [apply I | apply I |].
    left. apply session_inv_driving_fuel; assumption.
  - (* stop *)
    unfold _driver_stop.
    destruct (driving g) eqn:Hd; cbn [negb]; [|exact I].
    apply session_inv_start_level; [apply I | apply I |].
    left. apply session_inv_driving_fuel; assumption.
  - (* start *)
    unfold _driver_start.
    destruct (driving g) eqn:Hd; [exact I|].
    destruct (engine_broken g); [exact I|].
    destruct (out_of_fuel g && (fuel g <=? 0)) eqn:E; [exact I|].
    cbn [fst]. unfold _show_view, _start_timers_for_driving.
    destruct I as [L C F A]. unfold ledger_ok in *.
    constructor; unfold ledger_ok; fields.
    + exact L.
    + exact C.
    + left. destruct F as [F | [_ F]]; [exact F|].
      rewrite F in E. cbn [andb] in E. apply Z.leb_gt in E. exact E.
    + reflexivity.
  - (* transition *)
    unfold _transition_to, _show_view.
    destruct I as [L C F A]. constructor; unfold ledger_ok in *; fields;
      assumption.
  - (* attempt outside *)
    unfold _attempt_outside, _show_view.
    destruct I as [L C F A]. constructor; unfold ledger_ok in *; fields;
      assumption.
  - (* canvas click *)
    pose proof (canvas_click_effect ex ey num g) as K. cbv zeta in K.
    destruct K as (Kf & Kp & Kg & Kc & Kd & Ke & Ko & Kl & Kx & _ & K).
    destruct I as [L C F A]. unfold ledger_ok in *.
    constructor; unfold ledger_ok; rewrite ?Kf, ?Kp, ?Kg, ?Kc, ?Kd, ?Ko, ?Kl, ?Kx;
      try assumption.
    unfold MG_AMMO_COST in K.
    destruct K as [-> | [(K1 & K2 & K3) | (K1 & K2 & K3)]];
      [exact L | rewrite K2, K3; repeat split; lia
       | rewrite K2, K3; repeat split; lia].
  - (* fix engine *)
    unfold _fix_engine. break_match; cbn [fst]; try exact I.
    destruct I as [L C F A]. unfold ledger_ok in *.
    match goal with H : (_ <=? _) = false |- _ => apply Z.leb_gt in H end.
    constructor; unfold ledger_ok; fields; try assumption.
    repeat split; lia.
  - (* scavenge *)
    unfold scavenge, _open_scavenge_dialog.
    destruct (Level.active (level g)); cbn [negb fst]; [|exact I].
    destruct (crew g <=? 0) eqn:Hc; cbn [fst]; [exact I|].
    apply Z.leb_gt in Hc.
    destruct V as (_ & Vf & Vy).
    destruct (Qltb (r_survive rd) (scavenge_chance approach give_gun g)) eqn:S.
    + pose proof (resolve_scavenge_returned approach give_gun rd g S) as R.
      cbv zeta in R.
      destruct R as (Rf & Rp & Rs & Ra & Rg & Rc & Rm & Rl & Rx & _).
      pose proof (take_loot_nonneg (_count_remaining_items (sprites_by_view g))
                    (B64.mul (r_frac rd) (max_frac_of approach)) (r_pick rd)
                    (loot_shares_nonneg approach (r_frac rd) _ Vf
                       (count_remaining_nonneg (sprites_by_view g)))) as B.
      cbv zeta in B. destruct B as (Bp & Bs & Bf & Ba).
      assert (Hy : 0 <= fuel_yield (r_fuel rd)
                         (Z.to_nat (got_fuel_cans
                            (take_loot (_count_remaining_items (sprites_by_view g))
                               (B64.mul (r_frac rd) (max_frac_of approach))
                               (r_pick rd))))).
      { apply fuel_yield_nonneg. intros i. specialize (Vy i).
        unfold FUEL_CAN_MIN in Vy. lia. }
      destruct I as [L C F A]. unfold ledger_ok in *.
      unfold AMMO_PER_BOX in Ra.
      assert (Hsame :
                driving (fst (_resolve_scavenge approach give_gun rd g))
                  = driving g
                /\ out_of_fuel (fst (_resolve_scavenge approach give_gun rd g))
                   = out_of_fuel g).
      { unfold _resolve_scavenge. rewrite S. cbn [negb].
        destruct (give_gun && (0 <? guns g)); fields; split; reflexivity. }
      destruct Hsame as [Hsd Hso].
      constructor; unfold ledger_ok;
        rewrite ?Rf, ?Rp, ?Rs, ?Ra, ?Rg, ?Rc, ?Rl, ?Rx, ?Hsd, ?Hso.
      * repeat split; lia.
      * exact C.
      * destruct F as [F | F]; [left; lia | right; exact F].
      * exact A.
    + rewrite (resolve_scavenge_lost _ _ _ _ S). cbv zeta.
      destruct I as [L C F A]. unfold ledger_ok in *.
      destruct (crew g - 1 <=? 0) eqn:E;
        destruct (give_gun && (0 <? guns g)) eqn:G;
        try (apply andb_true_iff in G; destruct G as [_ G];
             apply Z.ltb_lt in G);
        constructor; unfold ledger_ok; fields; try assumption;
        try (repeat split; lia);
        try (left; reflexivity);
        try (apply Z.leb_gt in E; right; lia).
  - (* close *)
    unfold _on_close. destruct I as [L C F A].
    constructor; unfold ledger_ok in *; fields; try assumption.
    left. reflexivity.
Qed.

Lemma reachable_inv (g : TankGame) : reachable g -> session_inv g.
Proof.
  induction 1 as [|g e R IH V].
  - exact session_inv_init.
  - apply session_inv_step; assumption.
Qed.

Lemma run_reachable (es : list Event) :
  forall g : TankGame,
    reachable g -> Forall valid_event es -> reachable (run es g).
Proof.
  unfold run. induction es as [|e es IH]; intros g R V.
  - exact R.
  - cbn [fold_left]. inversion V as [|e' es' Ve Ves]; subst.
    apply IH; [apply reachable_step; assumption | exact Ves].
Qed.

Lemma run_destroyed (es : list Event) (g : TankGame) :
  destroyed g = true -> run es g = g.
Proof.
  intros D. unfold run. induction es as [|e es IH]; [reflexivity|].
  cbn [fold_left]. unfold dispatch at 2. rewrite D. exact IH.
Qed.

(** ** The ledger *)

Lemma resolve_scavenge_no_gun (approach : Approach) (give_gun : bool)
    (rd : ScavDraws) (g : TankGame) :
  guns g <= 0 ->
  guns (fst (_resolve_scavenge approach give_gun rd g)) = guns g.
Proof.
  intros H. unfold _resolve_scavenge.
  replace (0 <? guns g) with false by (symmetry; apply Z.ltb_ge; exact H).
  rewrite andb_false_r.
  destruct (negb (Qltb (r_survive rd) (scavenge_chance approach give_gun g))).
  - fields. destruct (crew g - 1 <=? 0); reflexivity.
  - reflexivity.
Qed.

(** C3. In every reachable state the six counters of the ledger are
    non-negative, and a debit that exceeds the balance is refused, the
    counter keeping its value: the fuel tick on an empty tank, the cannon
    without a shell, the machine gun with less than one burst of ammo, the
    repair without a part, the gun for a scavenger when no gun is left, the
    scavenger when no crew is left. *)
Theorem ledger_never_negative :
  forall g : TankGame,
    reachable g ->
    (0 <= fuel g /\ 0 <= shells g /\ 0 <= guns g /\
     0 <= crew g /\ 0 <= parts g /\ 0 <= ammo g)
    /\ (forall ld, fuel g < FUEL_CONSUMPTION_PER_SEC ->
          fuel (_fuel_tick ld g) = fuel g)
    /\ (forall ex ey, shells g < 1 -> current_view_key g <> OUT_DRIVER ->
          fst (_on_canvas_click ex ey 1 g) = g)
    /\ (forall ex ey num, ammo g < MG_AMMO_COST ->
          num = 3 \/ current_view_key g = OUT_DRIVER ->
          fst (_on_canvas_click ex ey num g) = g)
    /\ (parts g < 1 -> fst (_fix_engine g) = g)
    /\ (forall approach rd, guns g < 1 ->
          guns (fst (scavenge approach true rd g)) = guns g)
    /\ (forall approach give_gun rd, crew g < 1 ->
          fst (scavenge approach give_gun rd g) = g).
Proof.
  intros g R. pose proof (reachable_inv g R) as [L C F A].
  split; [exact L|]. unfold ledger_ok in L.
  split; [|split; [|split; [|split; [|split]]]].
  - intros ld Hf. unfold FUEL_CONSUMPTION_PER_SEC in *.
    unfold _fuel_tick. destruct (driving g) eqn:Hd; cbn [negb]; [|reflexivity].
    fields. unfold FUEL_CONSUMPTION_PER_SEC.
    replace (fuel g - 1 <=? 0) with true
      by (symmetry; apply Z.leb_le; lia).
    unfold _trigger_out_of_fuel_level. fields. rewrite Hd. cbn [negb].
    match goal with
    | |- fuel (_start_level ?r ?l ?x) = _ =>
        pose proof (start_level_fields r l x) as S; cbv zeta in S;
        destruct S as (Sf & _); rewrite Sf
    end.
    fields. lia.
  - intros ex ey Hs Hv. unfold _on_canvas_click.
    replace (shells g <=? 0) with true by (symmetry; apply Z.leb_le; lia).
    change (1 =? 1) with true. cbv iota.
    break_match; try reflexivity. congruence.
  - intros ex ey num Ha Hn. unfold _on_canvas_click.
    replace (ammo g <? MG_AMMO_COST) with true
      by (symmetry; apply Z.ltb_lt; exact Ha).
    destruct Hn as [-> | Hn].
    + change (3 =? 1) with false. change (3 =? 3) with true. cbv iota.
      break_match; reflexivity.
    + rewrite Hn. break_match; reflexivity.
  - intros Hp. unfold _fix_engine.
    replace (parts g <=? 0) with true by (symmetry; apply Z.leb_le; lia).
    break_match; reflexivity.
  - intros approach rd Hg. unfold scavenge.
    destruct (_open_scavenge_dialog g) as [[|] msgs]; [|reflexivity].
    apply resolve_scavenge_no_gun. lia.
  - intros approach give_gun rd Hc. unfold scavenge, _open_scavenge_dialog.
    replace (crew g <=? 0) with true by (symmetry; apply Z.leb_le; lia).
    destruct (negb (Level.active (level g))); reflexivity.
Qed.

(** ** Game over *)

(** An event leaves the crew alone, or costs one crew member; when that was
    the last one, the window is destroyed behind the "Game Over" box. *)
Lemma dispatch_crew (e : Event) (g : TankGame) :
  crew (fst (dispatch e g)) = crew g
  \/ (crew (fst (dispatch e g)) = crew g - 1
      /\ (crew g - 1 <= 0 ->
          destroyed (fst (dispatch e g)) = true
          /\ In Game_Over (snd (dispatch e g)))).
Proof.
  unfold dispatch. destruct (destroyed g); [left; reflexivity|].
  destruct e as [ld | ld | ld | | v | v | ex ey num | | approach give_gun rd | ];
    cbn [handle fst snd].
  - left. unfold _fuel_tick, _trigger_out_of_fuel_level.
    break_match; reflexivity.
  - left. unfold _trigger_breakdown_level. break_match; reflexivity.
  - left. unfold _driver_stop. break_match; reflexivity.
  - left. unfold _driver_start. break_match; reflexivity.
  - left. reflexivity.
  - left. reflexivity.
  - left. pose proof (canvas_click_effect ex ey num g) as K. cbv zeta in K.
    destruct K as (_ & _ & _ & K & _). exact K.
  - left. unfold _fix_engine. break_match; reflexivity.
  - unfold scavenge.
    destruct (_open_scavenge_dialog g) as [[|] msgs]; [|left; reflexivity].
    destruct (Qltb (r_survive rd) (scavenge_chance approach give_gun g)) eqn:S.
    + left.
      pose proof (resolve_scavenge_returned approach give_gun rd g S) as R.
      cbv zeta in R. destruct R as (_ & _ & _ & _ & _ & R & _). exact R.
    + right. rewrite (resolve_scavenge_lost _ _ _ _ S). cbv zeta.
      destruct (crew g - 1 <=? 0) eqn:E;
        destruct (give_gun && (0 <? guns g)); fields;
        (split; [reflexivity|]); intros H;
        try (apply Z.leb_gt in E; lia);
        (split; [reflexivity | simpl; tauto]).
  - left. reflexivity.
Qed.

(** C8. In a reachable state without crew the window has been destroyed:
    every further event is ignored, changes nothing and opens no message
    box.  The event that takes the last crew member opens the "Game Over"
    box and destroys the window. *)
Theorem game_over_is_terminal :
  forall g : TankGame,
    reachable g ->
    (crew g <= 0 ->
       destroyed g = true
       /\ (forall e, dispatch e g = (g, []))
       /\ (forall es, run es g = g))
    /\ (forall e, 0 < crew g -> crew (fst (dispatch e g)) <= 0 ->
          destroyed (fst (dispatch e g)) = true
          /\ In Game_Over (snd (dispatch e g))).
Proof.
  intros g R. pose proof (reachable_inv g R) as [L C F A]. split.
  - intros Hc. assert (D : destroyed g = true) by (destruct C; [assumption | lia]).
    split; [exact D|]. split.
    + intros e. unfold dispatch. rewrite D. reflexivity.
    + intros es. apply run_destroyed. exact D.
  - intros e Hpos Hz.
    destruct (dispatch_crew e g) as [E | [E H]]; [lia|].
    apply H. lia.
Qed.

(** ** Starting the engine *)

Lemma valid_draws_one_zombie : valid_level_draws draws_one_zombie.
Proof.
  unfold valid_level_draws, draws_one_zombie, VIEW_W, VIEW_H. simpl.
  repeat split; lia.
Qed.

Lemma reachable_ran_dry : reachable ran_dry.
Proof.
  apply run_reachable; [apply reachable_init|].
  apply Forall_forall. intros e He. apply repeat_spec in He. subst e.
  exact valid_draws_one_zombie.
Qed.

(** ** Shooting zombies *)

Lemma find_clicked_spec (ex ey : Z) (l : list Sprite.t) :
  forall i j : nat,
    find_clicked ex ey i l = Some j ->
    exists (k : nat) (sp : Sprite.t),
      j = (i + k)%nat /\ nth_error l k = Some sp
      /\ Sprite.kind sp = zombie_.
Proof.
  induction l as [|a tl IH]; intros i j H; cbn [find_clicked] in H.
  - discriminate H.
  - destruct (find_clicked ex ey (S i) tl) eqn:E.
    + injection H as <-. destruct (IH (S i) n E) as (k & sp & -> & Hn & Hk).
      exists (S k), sp. repeat split; [lia | exact Hn | exact Hk].
    + destruct (zombie_hit ex ey a) eqn:Z; [|discriminate H].
      injection H as <-. exists 0%nat, a. repeat split; [lia|].
      unfold zombie_hit in Z. apply andb_true_iff in Z. destruct Z as [Z _].
      apply andb_true_iff in Z. destruct Z as [Z _].
      apply Kind_eqb_eq. exact Z.
Qed.

Lemma del_nth_count (kd : Kind) (l : list Sprite.t) :
  forall (k : nat) (sp : Sprite.t),
    nth_error l k = Some sp ->
    Z.of_nat (count_kind kd (del_nth k l))
      = Z.of_nat (count_kind kd l)
        - (if Kind_eqb (Sprite.kind sp) kd then 1 else 0).
Proof.
  induction l as [|a tl IH]; intros k sp H.
  - destruct k; discriminate H.
  - destruct k as [|k]; cbn [nth_error del_nth] in *.
    + injection H as ->. rewrite count_kind_cons.
      destruct (Kind_eqb (Sprite.kind sp) kd); lia.
    + rewrite !count_kind_cons, Nat2Z.inj_add, (IH k sp H). lia.
Qed.

(** A click that changes the state deletes exactly one zombie sprite, and
    nothing else, from the outside views; the zombie counter of the level
    keeps the value it was given when the level started. *)
Lemma shot_removes_one_sprite (ex ey num : Z) (g : TankGame) :
  let g' := fst (_on_canvas_click ex ey num g) in
  g' <> g ->
  zombies_alive g' = zombies_alive g - 1
  /\ (forall k, k <> zombie_ ->
        _count_remaining_items (sprites_by_view g') k
          = _count_remaining_items (sprites_by_view g) k)
  /\ Level.zombies (level g') = Level.zombies (level g).
Proof.
  cbv zeta. intros Hne.
  assert (Hk : forall kd i sprites,
             sprites_at (current_view_key g) (sprites_by_view g) = Some sprites ->
             find_clicked ex ey 0 sprites = Some i ->
             _count_remaining_items
               (store_at (current_view_key g) (del_nth i sprites)
                  (sprites_by_view g)) kd
             = _count_remaining_items (sprites_by_view g) kd
               - (if Kind_eqb zombie_ kd then 1 else 0)).
  { intros kd i sprites Hs Hf.
    destruct (find_clicked_spec ex ey sprites 0 i Hf) as (k & sp & -> & Hn & Hz).
    pose proof (del_nth_count kd sprites k sp Hn) as Hc. rewrite Hz in Hc.
    unfold _count_remaining_items.
    destruct (current_view_key g); try discriminate Hs;
      cbn [sprites_at] in Hs; injection Hs as Hs; subst sprites;
      cbn [store_at at_OUT_DRIVER at_OUT_LEFT at_OUT_RIGHT Nat.add];
      rewrite !Nat2Z.inj_add, Hc; lia. }
  revert Hne. unfold zombies_alive, _on_canvas_click, kill_zombie.
  destruct (negb (Level.active (level g))); [intros []; reflexivity|].
  destruct (sprites_at (current_view_key g) (sprites_by_view g))
    as [sprites|] eqn:Hs; [|intros []; reflexivity].
  destruct (find_clicked ex ey 0 sprites) as [i|] eqn:Hf;
    [|intros []; reflexivity].
  pose proof (fun kd => Hk kd i sprites eq_refl Hf) as Hk'.
  assert (Hz := Hk' zombie_). cbn [Kind_eqb] in Hz.
  assert (Ho : forall k, k <> zombie_ ->
             _count_remaining_items
               (store_at (current_view_key g) (del_nth i sprites)
                  (sprites_by_view g)) k
             = _count_remaining_items (sprites_by_view g) k).
  { intros k Hkz. rewrite Hk'.
    rewrite (Kind_eqb_neq zombie_ k) by congruence. lia. }
  fields. remember (current_view_key g) as v eqn:Ev.
  break_match; fields; intros Hne;
    try (exfalso; apply Hne; reflexivity);
    (split; [exact Hz | split; [exact Ho | reflexivity]]).
Qed.

Lemma reachable_left_slit_level : reachable left_slit_level.
Proof.
  apply run_reachable; [apply reachable_init|].
  apply Forall_cons; [exact valid_draws_one_zombie|].
  apply Forall_cons; [reflexivity|].
  apply Forall_cons; [reflexivity | apply Forall_nil].
Qed.

Lemma reachable_after_shot : reachable after_shot.
Proof.
  apply reachable_step; [exact reachable_left_slit_level | exact I].
Qed.

(** The first prototype does what the last one omits: a shot that hits
    takes the zombie out of the pool the survival chance is computed
    from. *)
Lemma v1_shot_decrements_pool (view : View) (mouse_pos : Z * Z)
    (g : V1.TankGame) (p : V1.LevelPool.t) (i : nat) :
  V1.in_level g = true ->
  0 < V1.shells g ->
  (view = OUT_LEFT
   /\ V1.first_hit mouse_pos (V1.at_V_OUT_LEFT (V1.outside_sprites g))
      = Some i)
  \/ (view = OUT_RIGHT
      /\ V1.first_hit mouse_pos (V1.at_V_OUT_RIGHT (V1.outside_sprites g))
         = Some i) ->
  V1.level_pool g = Some p ->
  0 < V1.LevelPool.zombies p ->
  V1.shells (V1.shoot_zombie_at view mouse_pos g) = V1.shells g - 1
  /\ option_map V1.LevelPool.zombies
       (V1.level_pool (V1.shoot_zombie_at view mouse_pos g))
     = Some (V1.LevelPool.zombies p - 1).
Proof.
  intros Hl Hs Hv Hp Hz. apply Z.ltb_lt in Hz.
  assert (Hs' : (V1.shells g <=? 0) = false) by (apply Z.leb_gt; exact Hs).
  unfold V1.shoot_zombie_at. rewrite Hl. cbn [negb].
  destruct Hv as [[-> Hh] | [-> Hh]]; rewrite Hs', Hh;
    cbn [V1.shells V1.level_pool]; rewrite Hp; unfold V1.reduce_pool;
    rewrite Hz; split; reflexivity.
Qed.

(** C1, on the code.  A cannon shot at the only zombie of a level spends a
    shell and deletes the zombie's sprite, but [level.zombies], the counter
    the survival chance is computed from, still reads 1: a Quick run is
    given the chance 0.70 of a level with one zombie, not 0.75. *)
Theorem shot_leaves_zombie_counter :
  reachable left_slit_level
  /\ reachable after_shot
  /\ Level.active (level left_slit_level) = true
  /\ zombies_alive left_slit_level = 1
  /\ Level.zombies (level left_slit_level) = 1
  /\ shells after_shot = shells left_slit_level - 1
  /\ zombies_alive after_shot = 0
  /\ Level.zombies (level after_shot) = 1
  /\ (scavenge_chance quick false after_shot == 0.70)%Q.
Proof.
  split; [exact reachable_left_slit_level|].
  split; [exact reachable_after_shot|].
  repeat split; reflexivity.
Qed.

(** ** The theorems at work on a session *)

Lemma valid_draws_die : valid_scav_draws draws_die.
Proof.
  unfold valid_scav_draws, draws_die, FUEL_CAN_MIN, FUEL_CAN_MAX.
  cbn [r_survive r_frac r_fuel].
  split; [split; [discriminate | reflexivity]|].
  split; [repeat split; vm_compute; reflexivity|].
  intros _. lia.
Qed.


Lemma reachable_last_man : reachable last_man.
Proof.
  apply run_reachable; [apply reachable_init|].
  apply Forall_cons; [exact valid_draws_one_zombie|].
  apply Forall_forall. intros e He. apply repeat_spec in He. subst e.
  exact valid_draws_die.
Qed.

Lemma reachable_all_lost : reachable all_lost.
Proof.
  apply reachable_step; [exact reachable_last_man | exact valid_draws_die].
Qed.

Lemma ledger_never_negative_witness :
  reachable after_shot
  /\ 0 <= shells after_shot
  /\ 0 <= fuel after_shot
  /\ fst (_fix_engine after_shot) = after_shot.
Proof.
  split; [exact reachable_after_shot|].
  destruct (ledger_never_negative after_shot reachable_after_shot)
    as ((Hf & Hs & _) & _ & _ & _ & Hp & _).
  split; [exact Hs|]. split; [exact Hf|].
  apply Hp. vm_compute. reflexivity.
Defined.


Lemma fix_engine_contract_at_work :
  _fix_engine breakdown_level = (breakdown_level, [Not_enough_parts])
  /\ parts with_part = 1
  /\ parts (fst (_fix_engine with_part)) = 0
  /\ engine_broken (fst (_fix_engine with_part)) = false
  /\ driving (fst (_fix_engine with_part)) = false
  /\ fst (_fix_engine init) = init.
Proof.
  pose proof fix_engine_contract as F.
  split.
  { destruct (F breakdown_level) as (_ & _ & C).
    apply C; vm_compute; reflexivity. }
  split; [reflexivity|].
  destruct (F with_part) as (A & _ & _).
  destruct A as (_ & A2 & A3 & A4 & _);
    [vm_compute; reflexivity | vm_compute; reflexivity
     | vm_compute; discriminate |].
  split; [exact A2|]. split; [exact A3|]. split; [exact A4|].
  destruct (F init) as (_ & B & _).
  apply B. intros (Ha & _). vm_compute in Ha. discriminate Ha.
Defined.

Lemma game_over_is_terminal_witness :
  reachable all_lost
  /\ crew all_lost <= 0
  /\ destroyed all_lost = true
  /\ dispatch Ev_start all_lost = (all_lost, [])
  /\ 0 < crew last_man
  /\ In Game_Over
       (snd (dispatch (Ev_scavenge greedy false draws_die) last_man)).
Proof.
  assert (Hc : crew all_lost <= 0) by (vm_compute; discriminate).
  assert (Hl : 0 < crew last_man) by (vm_compute; reflexivity).
  split; [exact reachable_all_lost|]. split; [exact Hc|].
  destruct (game_over_is_terminal all_lost reachable_all_lost) as [T _].
  destruct (T Hc) as (T1 & T2 & _).
  split; [exact T1|]. split; [apply T2|]. split; [exact Hl|].
  assert (Hz : crew (fst (dispatch (Ev_scavenge greedy false draws_die)
                            last_man)) <= 0) by (vm_compute; discriminate).
  destruct (game_over_is_terminal last_man reachable_last_man) as [_ S].
  destruct (S (Ev_scavenge greedy false draws_die) Hl Hz) as (_ & S2).
  exact S2.
Defined.

Lemma start_level_has_a_part_witness :
  driving init = true
  /\ 1 <= Level.parts (level (_driver_stop draws_one_zombie init))
  /\ 1 <= Level.parts (level (_trigger_breakdown_level draws_one_zombie init)).
Proof.
  assert (Hd : driving init = true) by reflexivity.
  split; [exact Hd|].
  destruct (start_level_has_a_part draws_one_zombie init) as [_ H].
  destruct (H Hd) as (H1 & H2 & _).
  split; [exact H1 | exact H2].
Defined.

Lemma scavenge_failure_frame_witness :
  (scavenge_chance quick true left_slit_level <= r_survive draws_die)%Q
  /\ crew (fst (_resolve_scavenge quick true draws_die left_slit_level))
       = crew left_slit_level - 1
  /\ sprites_by_view (fst (_resolve_scavenge quick true draws_die
                             left_slit_level))
       = sprites_by_view left_slit_level
  /\ fuel (fst (_resolve_scavenge quick true draws_die left_slit_level))
       = fuel left_slit_level.
Proof.
  assert (H : (scavenge_chance quick true left_slit_level
               <= r_survive draws_die)%Q) by (vm_compute; discriminate).
  split; [exact H|].
  pose proof (scavenge_failure_frame quick true draws_die left_slit_level H)
    as F.
  cbv zeta in F. destruct F as (F1 & _ & F3 & _ & _ & _ & F7 & _).
  split; [exact F7|]. split; [exact F1 | exact F3].
Defined.

(** ** More on the cannon and the machine gun *)

Lemma find_clicked_none (ex ey : Z) (l : list Sprite.t) :
  forall i : nat,
    find_clicked ex ey i l = None <-> zombie_under ex ey l = false.
Proof.
  unfold zombie_under.
  induction l as [|sp tl IH]; intros i; cbn [find_clicked existsb].
  - split; reflexivity.
  - specialize (IH (S i)).
    destruct (find_clicked ex ey (S i) tl) as [j|].
    + split; [discriminate|]. intros H. apply orb_false_iff in H.
      destruct H as [_ H]. apply IH in H. discriminate H.
    + destruct (zombie_hit ex ey sp); cbn [orb].
      * split; discriminate.
      * split; intros _; [apply IH|]; reflexivity.
Qed.

(** The index found is that of a zombie under the point, and no sprite
    behind it in the list is one. *)
Lemma find_clicked_last (ex ey : Z) (l : list Sprite.t) :
  forall i j : nat,
    find_clicked ex ey i l = Some j ->
    exists k : nat,
      j = (i + k)%nat
      /\ (exists sp, nth_error l k = Some sp /\ zombie_hit ex ey sp = true)
      /\ zombie_under ex ey (skipn (S k) l) = false.
Proof.
  induction l as [|a tl IH]; intros i j H; cbn [find_clicked] in H.
  - discriminate H.
  - destruct (find_clicked ex ey (S i) tl) as [n|] eqn:E.
    + injection H as <-. destruct (IH (S i) n E) as (k & -> & Hk & Hs).
      exists (S k). split; [lia|]. split; [exact Hk | exact Hs].
    + destruct (zombie_hit ex ey a) eqn:Z; [|discriminate H].
      injection H as <-. exists 0%nat. split; [lia|].
      split; [exists a; split; [reflexivity | exact Z]|].
      cbn [skipn]. apply (find_clicked_none ex ey tl (S i)). exact E.
Qed.

(** Which weapon a shot used. *)
Lemma shot_weapon (ex ey num : Z) (g : TankGame) :
  let g' := fst (_on_canvas_click ex ey num g) in
  g' <> g ->
  snd (_on_canvas_click ex ey num g) = []
  /\ ((shells g' = shells g - 1 /\ ammo g' = ammo g /\ 0 < shells g
       /\ num = 1 /\ current_view_key g <> OUT_DRIVER)
      \/ (ammo g' = ammo g - MG_AMMO_COST /\ shells g' = shells g
          /\ MG_AMMO_COST <= ammo g
          /\ (num = 3 \/ current_view_key g = OUT_DRIVER))).
Proof.
  cbv zeta. unfold _on_canvas_click, kill_zombie.
  destruct (negb (Level.active (level g))); [intros []; reflexivity|].
  destruct (sprites_at (current_view_key g) (sprites_by_view g))
    as [sprites|]; [|intros []; reflexivity].
  destruct (find_clicked ex ey 0 sprites) as [i|]; [|intros []; reflexivity].
  fields. remember (current_view_key g) as v eqn:Ev.
  assert (Hmg : (ammo g <? MG_AMMO_COST) = false -> MG_AMMO_COST <= ammo g)
    by (intros H; apply Z.ltb_ge in H; exact H).
  assert (Hsh : (shells g <=? 0) = false -> 0 < shells g)
    by (intros H; apply Z.leb_gt in H; exact H).
  destruct v;
    repeat match goal with
           | |- context [if ?b then _ else _] => destruct b eqn:?
           end;
    fields; intros Hne; try (exfalso; apply Hne; reflexivity);
    (split; [reflexivity|]);
    try (right; repeat split; auto; fail);
    try match goal with
        | H : (num =? 1) = true |- _ =>
            apply Z.eqb_eq in H; left; repeat split; auto; discriminate
        end;
    try match goal with
        | H : (num =? 3) = true |- _ =>
            apply Z.eqb_eq in H; right; repeat split; auto
        end.
Qed.

(** X1. A click that changes anything is a shot: it opens no message box,
    spends either exactly one shell (left button, gunner slits) or exactly
    one machine-gun burst of 33 ammo (right button, or any button at the
    driver's slit), never both; it removes exactly one zombie sprite and no
    sprite of another kind, and leaves every other counter, the flags, the
    level and the view as they were. *)
Theorem shot_spends_one_round_on_one_zombie :
  forall (ex ey num : Z) (g : TankGame),
    let g' := fst (_on_canvas_click ex ey num g) in
    g' <> g ->
    snd (_on_canvas_click ex ey num g) = []
    /\ ((shells g' = shells g - 1 /\ ammo g' = ammo g /\ 0 < shells g
         /\ num = 1 /\ current_view_key g <> OUT_DRIVER)
        \/ (ammo g' = ammo g - MG_AMMO_COST /\ shells g' = shells g
            /\ MG_AMMO_COST <= ammo g
            /\ (num = 3 \/ current_view_key g = OUT_DRIVER)))
    /\ zombies_alive g' = zombies_alive g - 1
    /\ (forall k, k <> zombie_ ->
          _count_remaining_items (sprites_by_view g') k
            = _count_remaining_items (sprites_by_view g) k)
    /\ fuel g' = fuel g /\ parts g' = parts g /\ guns g' = guns g
    /\ crew g' = crew g /\ level g' = level g
    /\ driving g' = driving g /\ engine_broken g' = engine_broken g
    /\ out_of_fuel g' = out_of_fuel g
    /\ current_view_key g' = current_view_key g.
Proof.
  intros ex ey num g g' Hne. subst g'.
  destruct (shot_weapon ex ey num g Hne) as [Hm Hw].
  destruct (shot_removes_one_sprite ex ey num g Hne) as (Hz & Ho & _).
  pose proof (canvas_click_effect ex ey num g) as K. cbv zeta in K.
  destruct K as (Kf & Kp & Kg & Kc & Kd & Ke & Ko & Kl & _ & Kv & _).
  repeat split; assumption.
Qed.

(** X2. Aiming at empty ground is free: in a level, when no zombie sprite
    of the current view lies under the click, nothing changes and no
    message box opens, whatever the button and however little ammunition is
    left. *)
Theorem click_on_empty_ground_is_free :
  forall (ex ey num : Z) (g : TankGame) (sprites : list Sprite.t),
    sprites_at (current_view_key g) (sprites_by_view g) = Some sprites ->
    zombie_under ex ey sprites = false ->
    _on_canvas_click ex ey num g = (g, []).
Proof.
  intros ex ey num g sprites Hs Hz. unfold _on_canvas_click.
  rewrite Hs. apply (find_clicked_none ex ey sprites 0) in Hz. rewrite Hz.
  destruct (negb (Level.active (level g))); reflexivity.
Qed.

(** X3. A shot takes the topmost zombie under the click: the sprite deleted
    from the list of the current view is a zombie containing the point, and
    no sprite drawn after it is one; the lists of the other views are not
    touched. *)
Theorem shot_takes_topmost_zombie :
  forall (ex ey num : Z) (g : TankGame) (sprites : list Sprite.t),
    let g' := fst (_on_canvas_click ex ey num g) in
    sprites_at (current_view_key g) (sprites_by_view g) = Some sprites ->
    g' <> g ->
    exists (i : nat) (sp : Sprite.t),
      nth_error sprites i = Some sp
      /\ Sprite.kind sp = zombie_
      /\ zombie_hit ex ey sp = true
      /\ zombie_under ex ey (skipn (S i) sprites) = false
      /\ sprites_by_view g'
         = store_at (current_view_key g) (del_nth i sprites)
             (sprites_by_view g).
Proof.
  intros ex ey num g sprites g' Hs. subst g'.
  unfold _on_canvas_click, kill_zombie. rewrite Hs.
  destruct (negb (Level.active (level g))); [intros []; reflexivity|].
  destruct (find_clicked ex ey 0 sprites) as [i|] eqn:Hf;
    [|intros []; reflexivity].
  destruct (find_clicked_last ex ey sprites 0 i Hf)
    as (k & Hk & (sp & Hn & Hh) & Hu).
  cbn [Nat.add] in Hk. subst k.
  intros Hne. exists i, sp.
  split; [exact Hn|]. split.
  { unfold zombie_hit in Hh. apply andb_true_iff in Hh. destruct Hh as [Hh _].
    apply andb_true_iff in Hh. destruct Hh as [Hh _].
    apply Kind_eqb_eq. exact Hh. }
  split; [exact Hh|]. split; [exact Hu|].
  revert Hne. fields. remember (current_view_key g) as v eqn:Ev.
  destruct v;
    repeat match goal with
           | |- context [if ?b then _ else _] => destruct b eqn:?
           end;
    fields; intros Hne; try (exfalso; apply Hne; reflexivity); reflexivity.
Qed.

(** ** More on the level state machine *)

Lemma set_fuel_same (g : TankGame) : set_fuel (fuel g) g = g.
Proof. destruct g; reflexivity. Qed.

Lemma fuel_tick_burns (ld : LevelDraws) (g : TankGame) :
  driving g = true -> 1 < fuel g ->
  _fuel_tick ld g = set_fuel (fuel g - 1) g.
Proof.
  intros Hd Hf. unfold _fuel_tick, FUEL_CONSUMPTION_PER_SEC.
  rewrite Hd. cbn [negb]. fields.
  replace (fuel g - 1 <=? 0) with false by (symmetry; apply Z.leb_gt; lia).
  reflexivity.
Qed.

Lemma fuel_tick_last (ld : LevelDraws) (g : TankGame) :
  driving g = true -> fuel g <= 1 ->
  _fuel_tick ld g = _start_level Out_of_fuel ld (set_fuel 0 g).
Proof.
  intros Hd Hf. unfold _fuel_tick, FUEL_CONSUMPTION_PER_SEC.
  rewrite Hd. cbn [negb]. fields.
  replace (fuel g - 1 <=? 0) with true by (symmetry; apply Z.leb_le; lia).
  unfold _trigger_out_of_fuel_level. fields. rewrite Hd. reflexivity.
Qed.

Lemma fuel_ticks_burn (lds : list LevelDraws) :
  forall g : TankGame,
    destroyed g = false -> driving g = true ->
    Z.of_nat (length lds) < fuel g ->
    run (map Ev_fuel_tick lds) g
      = set_fuel (fuel g - Z.of_nat (length lds)) g.
Proof.
  induction lds as [|ld lds IH]; intros g Hx Hd Hn.
  - cbn. rewrite Z.sub_0_r. symmetry. apply set_fuel_same.
  - cbn [map length] in *. unfold run. cbn [fold_left].
    unfold dispatch at 2. rewrite Hx. cbn [handle fst].
    rewrite fuel_tick_burns by (try assumption; lia).
    change (fold_left (fun g0 e => fst (dispatch e g0)) (map Ev_fuel_tick lds)
              (set_fuel (fuel g - 1) g))
      with (run (map Ev_fuel_tick lds) (set_fuel (fuel g - 1) g)).
    rewrite IH by (fields; try assumption; lia).
    fields. unfold set_fuel. fields. f_equal. lia.
Qed.

Lemma run_cons (e : Event) (es : list Event) (g : TankGame) :
  run (e :: es) g = run es (fst (dispatch e g)).
Proof. reflexivity. Qed.

Lemma fuel_ticks_in_level (later : list LevelDraws) (g : TankGame) :
  driving g = false -> run (map Ev_fuel_tick later) g = g.
Proof.
  intros Hd. induction later as [|l later IH]; [reflexivity|].
  cbn [map]. rewrite run_cons.
  assert (E : fst (dispatch (Ev_fuel_tick l) g) = g).
  { unfold dispatch. destruct (destroyed g); [reflexivity|].
    cbn [handle fst]. unfold _fuel_tick. rewrite Hd. reflexivity. }
  rewrite E. exact IH.
Qed.

(** X4. Driving burns one unit of fuel per tick and nothing else: as long
    as fuel is left after them, n ticks lower fuel by n and the tank keeps
    driving.  The tick that takes the last unit stops the tank in a level
    begun by "Out of fuel", with an empty tank, a sound engine and the
    out-of-fuel flag set; ticks delivered after that do nothing. *)
Theorem fuel_ticks_drain_the_tank :
  forall (lds : list LevelDraws) (ld : LevelDraws) (later : list LevelDraws)
         (g : TankGame),
    destroyed g = false -> driving g = true -> 0 < fuel g ->
    (Z.of_nat (length lds) < fuel g ->
       run (map Ev_fuel_tick lds) g
         = set_fuel (fuel g - Z.of_nat (length lds)) g)
    /\ (Z.of_nat (length lds) = fuel g - 1 ->
          let g' := run (map Ev_fuel_tick (lds ++ [ld])) g in
          g' = _start_level Out_of_fuel ld (set_fuel 0 g)
          /\ fuel g' = 0 /\ driving g' = false
          /\ Level.active (level g') = true
          /\ Level.reason (level g') = Out_of_fuel
          /\ out_of_fuel g' = true /\ engine_broken g' = false
          /\ run (map Ev_fuel_tick later) g' = g').
Proof.
  intros lds ld later g Hx Hd Hf. split.
  - intros Hn. apply fuel_ticks_burn; assumption.
  - intros Hn. cbv zeta.
    assert (E : run (map Ev_fuel_tick (lds ++ [ld])) g
                = _start_level Out_of_fuel ld (set_fuel 0 g)).
    { rewrite map_app. unfold run. rewrite fold_left_app.
      change (fold_left (fun g0 e => fst (dispatch e g0))
                (map Ev_fuel_tick lds) g)
        with (run (map Ev_fuel_tick lds) g).
      rewrite (fuel_ticks_burn lds g) by (try assumption; lia).
      cbn [map fold_left]. unfold dispatch. fields. rewrite Hx.
      cbn [handle fst].
      rewrite fuel_tick_last by (fields; try assumption; lia).
      reflexivity. }
    rewrite E. split; [reflexivity|].
    pose proof (start_level_fields Out_of_fuel ld (set_fuel 0 g)) as S.
    cbv zeta in S.
    destruct S as (Sf & _ & _ & _ & _ & _ & Sd & Se & So & Sa & Sr & Sx).
    repeat split; try assumption.
    apply fuel_ticks_in_level. exact Sd.
Qed.

Lemma flags_ok_start_level (reason : Reason) (ld : LevelDraws)
    (g : TankGame) :
  flags_ok (_start_level reason ld g).
Proof.
  pose proof (start_level_fields reason ld g) as S. cbv zeta in S.
  destruct S as (_ & _ & _ & _ & _ & _ & Sd & Se & So & _ & Sr & _).
  unfold flags_ok. rewrite Sd, Se, So, Sr.
  destruct reason; cbn [Reason_eqb]; split; intros H;
    try discriminate H; split; reflexivity.
Qed.

Lemma flags_ok_step (e : Event) (g : TankGame) :
  flags_ok g -> flags_ok (fst (dispatch e g)).
Proof.
  intros F. unfold dispatch. destruct (destroyed g); [exact F|].
  destruct e as [ld | ld | ld | | v | v | ex ey num | | approach give_gun rd | ];
    cbn [handle fst].
  - unfold _fuel_tick, _trigger_out_of_fuel_level.
    destruct (driving g) eqn:Hd; cbn [negb]; [|exact F]. fields.
    destruct (fuel g - FUEL_CONSUMPTION_PER_SEC <=? 0).
    + rewrite Hd. cbn [negb]. apply flags_ok_start_level.
    + destruct F as [F1 F2]. split; fields; intros H;
        [destruct (F1 H) | destruct (F2 H)]; congruence.
  - unfold _trigger_breakdown_level.
    destruct (negb (driving g)); [exact F | apply flags_ok_start_level].
  - unfold _driver_stop.
    destruct (negb (driving g)); [exact F | apply flags_ok_start_level].
  - unfold _driver_start. break_match; cbn [fst]; try exact F.
    unfold _show_view, _start_timers_for_driving, flags_ok. fields.
    split; discriminate.
  - exact F.
  - exact F.
  - pose proof (canvas_click_effect ex ey num g) as K. cbv zeta in K.
    destruct K as (_ & _ & _ & _ & Kd & Ke & Ko & Kl & _).
    unfold flags_ok. rewrite Kd, Ke, Ko, Kl. exact F.
  - unfold _fix_engine. break_match; cbn [fst]; try exact F.
    destruct F as [F1 F2]. unfold flags_ok. fields.
    split; [discriminate | exact F2].
  - unfold scavenge.
    destruct (_open_scavenge_dialog g) as [[|] msgs]; [|exact F].
    unfold flags_ok.
    destruct (Qltb (r_survive rd) (scavenge_chance approach give_gun g)) eqn:S.
    + unfold _resolve_scavenge. rewrite S. cbn [negb].
      destruct (give_gun && (0 <? guns g)); fields; exact F.
    + rewrite (resolve_scavenge_lost _ _ _ _ S). cbv zeta.
      destruct (crew g - 1 <=? 0), (give_gun && (0 <? guns g)); fields;
        exact F.
  - exact F.
Qed.

Lemma reachable_flags_ok (g : TankGame) : reachable g -> flags_ok g.
Proof.
  induction 1 as [|g e R IH V].
  - split; discriminate.
  - apply flags_ok_step. exact IH.
Qed.

(** X5. In every reachable state the flags agree with the level: a level
    is active exactly when the tank is not driving; the engine is broken
    only in a level begun by "Engine breakdown", the out-of-fuel flag is set
    only in a level begun by "Out of fuel" (so never both); a driving tank
    has fuel. *)
Theorem lifecycle_flags_agree :
  forall g : TankGame, reachable g -> lifecycle_ok g.
Proof.
  intros g R. pose proof (reachable_inv g R) as I.
  destruct (reachable_flags_ok g R) as [F1 F2].
  unfold lifecycle_ok. split; [apply I|]. split; [exact F1|].
  split; [exact F2|]. intros Hd. apply session_inv_driving_fuel; assumption.
Qed.

(** ** More on the pool of a level *)

Lemma start_level_level (reason : Reason) (ld : LevelDraws) (g : TankGame) :
  level (_start_level reason ld g)
  = Level.mk true reason (d_fuel_cans ld) (Z.max 1 (d_parts ld))
      (d_shells ld) (d_zombies ld) (d_ammo_boxes ld).
Proof. reflexivity. Qed.

Lemma pool_bounded_start_level (reason : Reason) (ld : LevelDraws)
    (g : TankGame) :
  valid_level_draws ld -> pool_bounded (_start_level reason ld g).
Proof.
  intros (Vp & Vf & Vs & Vz & Va & _) k.
  rewrite start_level_counts, start_level_level.
  destruct k; cbn [level_count level_count_max Level.fuel_cans Level.parts
                   Level.shells Level.zombies Level.ammo_boxes]; lia.
Qed.

Lemma pool_bounded_same (g g' : TankGame) :
  sprites_by_view g' = sprites_by_view g ->
  (forall k, level_count (level g') k = level_count (level g) k) ->
  pool_bounded g -> pool_bounded g'.
Proof.
  intros Hs Hl B k. rewrite Hs, Hl. apply B.
Qed.

Lemma pool_bounded_fewer (g g' : TankGame) :
  (forall k, _count_remaining_items (sprites_by_view g') k
             <= _count_remaining_items (sprites_by_view g) k) ->
  level g' = level g ->
  pool_bounded g -> pool_bounded g'.
Proof.
  intros Hs Hl B k. rewrite Hl. specialize (B k). specialize (Hs k).
  pose proof (count_remaining_nonneg (sprites_by_view g') k). lia.
Qed.

(** The sprites of a bounded pool are few: their counts are exact as
    floats. *)
Lemma pool_bounded_small (g : TankGame) :
  pool_bounded g ->
  forall k, 0 <= _count_remaining_items (sprites_by_view g) k < 2 ^ 53.
Proof.
  intros B k. destruct (B k) as [[H1 H2] H3].
  change (2 ^ 53) with 9007199254740992.
  destruct k; cbn [level_count_max] in H3; lia.
Qed.

Lemma pool_bounded_step (e : Event) (g : TankGame) :
  pool_bounded g -> valid_event e -> pool_bounded (fst (dispatch e g)).
Proof.
  intros B V. unfold dispatch. destruct (destroyed g); [exact B|].
  destruct e as [ld | ld | ld | | v | v | ex ey num | | approach give_gun rd | ];
    cbn [handle fst].
  - unfold _fuel_tick, _trigger_out_of_fuel_level.
    destruct (driving g) eqn:Hd; cbn [negb]; [|exact B]. fields.
    destruct (fuel g - FUEL_CONSUMPTION_PER_SEC <=? 0).
    + rewrite Hd. cbn [negb]. apply pool_bounded_start_level. exact V.
    + apply (pool_bounded_same g); [reflexivity | reflexivity | exact B].
  - unfold _trigger_breakdown_level.
    destruct (negb (driving g));
      [exact B | apply pool_bounded_start_level; exact V].
  - unfold _driver_stop.
    destruct (negb (driving g));
      [exact B | apply pool_bounded_start_level; exact V].
  - unfold _driver_start. break_match; cbn [fst]; exact B.
  - exact B.
  - exact B.
  - pose proof (canvas_click_effect ex ey num g) as K. cbv zeta in K.
    destruct K as (_ & _ & _ & _ & _ & _ & _ & Kl & _ & _ & K).
    assert (Hs : fst (_on_canvas_click ex ey num g) = g
                 \/ fst (_on_canvas_click ex ey num g) <> g).
    { destruct K as [K | [(K1 & K2 & _) | (K1 & K2 & _)]];
        [left; exact K | right | right]; intros E; rewrite E in K2;
        unfold MG_AMMO_COST in *; lia. }
    destruct Hs as [-> | Hne]; [exact B|].
    destruct (shot_removes_one_sprite ex ey num g Hne) as (Hz & Ho & _).
    unfold zombies_alive in Hz.
    apply (pool_bounded_fewer g); [| exact Kl | exact B].
    intros k. destruct k; try (rewrite Ho by discriminate; lia).
    rewrite Hz. lia.
  - unfold _fix_engine. break_match; cbn [fst]; exact B.
  - unfold scavenge.
    destruct (_open_scavenge_dialog g) as [[|] msgs]; [|exact B].
    destruct V as (_ & Vf & _).
    destruct (Qltb (r_survive rd) (scavenge_chance approach give_gun g)) eqn:S.
    + pose proof (resolve_scavenge_returned approach give_gun rd g S) as R.
      cbv zeta in R.
      destruct R as (_ & _ & _ & _ & _ & _ & Rm & Rl & _).
      pose proof (take_loot_bounds (_count_remaining_items (sprites_by_view g))
                    (B64.mul (r_frac rd) (max_frac_of approach)) (r_pick rd)
                    (loot_shares_bounds approach (r_frac rd) _ Vf
                       (pool_bounded_small g B))) as L.
      cbv zeta in L. destruct L as (Lp & Ls & Lf & La).
      pose proof (remove_loot_counts _ (sprites_by_view g) Lp Ls Lf La) as C.
      cbv zeta in C. destruct C as (Cp & Cs & Cf & Ca & Cz).
      apply (pool_bounded_fewer g); [| exact Rl | exact B].
      intros k. rewrite Rm. destruct k; lia.
    + rewrite (resolve_scavenge_lost _ _ _ _ S). cbv zeta.
      destruct (crew g - 1 <=? 0), (give_gun && (0 <? guns g));
        (apply (pool_bounded_same g); [reflexivity | reflexivity | exact B]).
  - exact B.
Qed.

Lemma reachable_pool_bounded (g : TankGame) : reachable g -> pool_bounded g.
Proof.
  induction 1 as [|g e R IH V].
  - intros k. destruct k; cbn; lia.
  - apply pool_bounded_step; assumption.
Qed.

(** X6. In every reachable state the sprites of each kind are at most as
    many as the level counter of that kind, and the counters stay within
    the ranges they are drawn from: never more than 3 fuel cans, 3 parts, 3
    shells, 2 ammo boxes and 6 zombies.  In particular the zombie counter
    the survival chance reads never falls below the zombies still drawn. *)
Theorem sprites_covered_by_level_counters :
  forall g : TankGame,
    reachable g ->
    (forall k : Kind,
       0 <= _count_remaining_items (sprites_by_view g) k
         <= level_count (level g) k
       /\ level_count (level g) k <= level_count_max k)
    /\ 0 <= zombies_alive g <= Level.zombies (level g)
    /\ Level.zombies (level g) <= 6.
Proof.
  intros g R. pose proof (reachable_pool_bounded g R) as B.
  split; [exact B|]. destruct (B zombie_) as [H1 H2].
  cbn [level_count level_count_max] in *. unfold zombies_alive. lia.
Qed.

Lemma all_sprites_append (P : Sprite.t -> Prop) (v : View) (sp : Sprite.t)
    (m : SpriteMap) :
  all_sprites P m -> P sp -> all_sprites P (append_at v sp m).
Proof.
  intros (H1 & H2 & H3) Hp. unfold all_sprites, append_at.
  destruct v; cbn [sprites_at store_at at_OUT_DRIVER at_OUT_LEFT at_OUT_RIGHT];
    repeat split; try assumption;
    (apply Forall_app; split;
     [assumption | apply Forall_cons; [exact Hp | apply Forall_nil]]).
Qed.

Lemma all_sprites_place (P : Sprite.t -> Prop) (ld : LevelDraws)
    (kind : Kind) (n : Z) (m : SpriteMap) :
  (forall i, P (Sprite.mk kind (px (d_place ld kind i))
                  (py (d_place ld kind i)) 50 50)) ->
  all_sprites P m -> all_sprites P (place ld kind n m).
Proof.
  intros Hp. unfold place. generalize 0%nat. revert m.
  induction (Z.to_nat n) as [|c IH]; intros m i Hm; cbn [place_from].
  - exact Hm.
  - apply IH. apply all_sprites_append; [exact Hm | apply Hp].
Qed.

(** X7. A level starts with a fresh pool: whatever sprites the previous
    level left behind, the outside views show exactly the drawn number of
    fuel cans, parts, shells, zombies and ammo boxes, which are also the
    counters of the level; every sprite is 50 by 50 and lies in the bottom
    third of the picture; the ledger is not touched, and the engine is
    broken exactly when the level was begun by a breakdown. *)
Theorem start_level_fresh_pool :
  forall (reason : Reason) (ld : LevelDraws) (g : TankGame),
    valid_level_draws ld ->
    let g' := _start_level reason ld g in
    (forall k, _count_remaining_items (sprites_by_view g') k
               = level_count (level g') k)
    /\ level_count (level g') fuel_ = d_fuel_cans ld
    /\ level_count (level g') part_ = d_parts ld
    /\ level_count (level g') shell_ = d_shells ld
    /\ level_count (level g') zombie_ = d_zombies ld
    /\ level_count (level g') ammo_ = d_ammo_boxes ld
    /\ all_sprites well_placed (sprites_by_view g')
    /\ (fuel g' = fuel g /\ parts g' = parts g /\ shells g' = shells g
        /\ guns g' = guns g /\ crew g' = crew g /\ ammo g' = ammo g)
    /\ engine_broken g' = Reason_eqb reason Engine_breakdown
    /\ out_of_fuel g' = Reason_eqb reason Out_of_fuel.
Proof.
  intros reason ld g V g'. subst g'.
  pose proof V as (Vp & Vf & Vs & Vz & Va & Vxy).
  pose proof (start_level_fields reason ld g) as S. cbv zeta in S.
  destruct S as (Sf & Sp & Ss & Sg & Sc & Sa & _ & Se & So & _).
  split.
  { intros k. rewrite start_level_counts, start_level_level.
    destruct k; cbn [level_count Level.fuel_cans Level.parts Level.shells
                     Level.zombies Level.ammo_boxes]; lia. }
  rewrite start_level_level.
  cbn [level_count Level.fuel_cans Level.parts Level.shells Level.zombies
       Level.ammo_boxes].
  split; [reflexivity|]. split; [lia|].
  split; [reflexivity|]. split; [reflexivity|]. split; [reflexivity|].
  split.
  { assert (Hw : forall kind i,
               well_placed (Sprite.mk kind (px (d_place ld kind i))
                              (py (d_place ld kind i)) 50 50)).
    { intros kind i. destruct (Vxy kind i) as [Hx Hy].
      unfold well_placed, VIEW_W, VIEW_H in *.
      cbn [Sprite.w Sprite.h Sprite.x Sprite.y]. lia. }
    unfold _start_level, _populate_outside_sprites. fields.
    repeat apply all_sprites_place; try apply Hw.
    unfold all_sprites, no_sprites.
    cbn [at_OUT_DRIVER at_OUT_LEFT at_OUT_RIGHT].
    repeat split; apply Forall_nil. }
  repeat split; assumption.
Qed.

(** ** More on repairs, starts and scavenging *)

(** X8. On a breakdown level START is refused until the engine is mended:
    with a part aboard, and fuel in the tank, repairing and then starting
    resumes driving in the driver's view with the level closed and exactly
    one part spent, while the rest of the ledger and the sprites are left as
    they were. *)
Theorem repair_then_start_resumes_driving :
  forall g : TankGame,
    Level.active (level g) = true -> driving g = false ->
    engine_broken g = true -> 1 <= parts g -> 0 < fuel g ->
    _driver_start g = (g, [Cannot_start_engine_broken])
    /\ snd (_fix_engine g) = [Engine_fixed]
    /\ let g' := fst (_driver_start (fst (_fix_engine g))) in
       snd (_driver_start (fst (_fix_engine g))) = []
       /\ driving g' = true /\ Level.active (level g') = false
       /\ engine_broken g' = false /\ out_of_fuel g' = false
       /\ current_view_key g' = DRIVER
       /\ parts g' = parts g - 1
       /\ fuel g' = fuel g /\ shells g' = shells g /\ guns g' = guns g
       /\ crew g' = crew g /\ ammo g' = ammo g
       /\ sprites_by_view g' = sprites_by_view g.
Proof.
  intros g Ha Hd Hb Hp Hf.
  assert (Hp' : (parts g <=? 0) = false) by (apply Z.leb_gt; lia).
  assert (Hf' : (fuel g <=? 0) = false) by (apply Z.leb_gt; lia).
  split; [unfold _driver_start; rewrite Hd, Hb; reflexivity|].
  unfold _fix_engine. rewrite Ha, Hb, Hp'. cbn [negb fst snd].
  split; [reflexivity|].
  unfold _driver_start. fields. rewrite Hd, Hf', andb_false_r.
  cbn [fst snd]. unfold _show_view, _start_timers_for_driving. fields.
  repeat split; reflexivity.
Qed.

Lemma remove_from_zero (kind : Kind) (l : list Sprite.t) :
  remove_from kind l 0 = (l, 0%nat).
Proof. destruct l; reflexivity. Qed.

Lemma remove_from_others (kind : Kind) (l : list Sprite.t) :
  forall n : nat, others kind (fst (remove_from kind l n)) = others kind l.
Proof.
  unfold others. induction l as [|sp tl IH]; intros n.
  - reflexivity.
  - destruct n as [|r]; [reflexivity|]. cbn [remove_from].
    destruct (Kind_eqb (Sprite.kind sp) kind) eqn:E.
    + cbn [filter]. rewrite E. cbn [negb]. apply IH.
    + specialize (IH (S r)).
      destruct (remove_from kind tl (S r)) as [tl' r'].
      cbn [fst filter] in *. rewrite E. cbn [negb]. f_equal. exact IH.
Qed.

Lemma remove_items_zero (kind : Kind) (n : Z) (m : SpriteMap) :
  n <= 0 -> _remove_items_from_map kind n m = m.
Proof.
  intros Hn. unfold _remove_items_from_map.
  replace (Z.to_nat n) with 0%nat by lia.
  rewrite !remove_from_zero. destruct m; reflexivity.
Qed.

(** X9. [_remove_items_from_map] deletes exactly as many sprites of the
    kind as asked for, or all of them when fewer are left, and nothing when
    asked for none or a negative number; the sprites of the other kinds keep
    their places in every view; the driver's view is emptied first, so that
    the gunners' views are not touched when it holds enough. *)
Theorem remove_items_from_map_spec :
  forall (kind : Kind) (n : Z) (m : SpriteMap),
    let m' := _remove_items_from_map kind n m in
    _count_remaining_items m' kind
      = _count_remaining_items m kind
        - Z.min (Z.max 0 n) (_count_remaining_items m kind)
    /\ others kind (at_OUT_DRIVER m') = others kind (at_OUT_DRIVER m)
    /\ others kind (at_OUT_LEFT m') = others kind (at_OUT_LEFT m)
    /\ others kind (at_OUT_RIGHT m') = others kind (at_OUT_RIGHT m)
    /\ (n <= Z.of_nat (count_kind kind (at_OUT_DRIVER m)) ->
        at_OUT_LEFT m' = at_OUT_LEFT m /\ at_OUT_RIGHT m' = at_OUT_RIGHT m)
    /\ (n <= 0 -> m' = m).
Proof.
  intros kind n m. cbv zeta.
  split; [|split; [|split; [|split; [|split]]]];
    try (intros Hn; apply remove_items_zero; exact Hn);
    unfold _count_remaining_items, _remove_items_from_map.
  - pose proof (remove_from_same kind (at_OUT_DRIVER m) (Z.to_nat n)) as [A1 A2].
    destruct (remove_from kind (at_OUT_DRIVER m) (Z.to_nat n)) as [l1 r1].
    pose proof (remove_from_same kind (at_OUT_LEFT m) r1) as [B1 B2].
    destruct (remove_from kind (at_OUT_LEFT m) r1) as [l2 r2].
    pose proof (remove_from_same kind (at_OUT_RIGHT m) r2) as [C1 C2].
    destruct (remove_from kind (at_OUT_RIGHT m) r2) as [l3 r3].
    cbn [fst snd at_OUT_DRIVER at_OUT_LEFT at_OUT_RIGHT] in *. lia.
  - pose proof (remove_from_others kind (at_OUT_DRIVER m) (Z.to_nat n)) as A.
    destruct (remove_from kind (at_OUT_DRIVER m) (Z.to_nat n)) as [l1 r1].
    destruct (remove_from kind (at_OUT_LEFT m) r1) as [l2 r2].
    destruct (remove_from kind (at_OUT_RIGHT m) r2) as [l3 r3]. exact A.
  - destruct (remove_from kind (at_OUT_DRIVER m) (Z.to_nat n)) as [l1 r1].
    pose proof (remove_from_others kind (at_OUT_LEFT m) r1) as A.
    destruct (remove_from kind (at_OUT_LEFT m) r1) as [l2 r2].
    destruct (remove_from kind (at_OUT_RIGHT m) r2) as [l3 r3]. exact A.
  - destruct (remove_from kind (at_OUT_DRIVER m) (Z.to_nat n)) as [l1 r1].
    destruct (remove_from kind (at_OUT_LEFT m) r1) as [l2 r2].
    pose proof (remove_from_others kind (at_OUT_RIGHT m) r2) as A.
    destruct (remove_from kind (at_OUT_RIGHT m) r2) as [l3 r3]. exact A.
  - intros Hn.
    pose proof (remove_from_same kind (at_OUT_DRIVER m) (Z.to_nat n)) as [_ A2].
    destruct (remove_from kind (at_OUT_DRIVER m) (Z.to_nat n)) as [l1 r1].
    cbn [snd] in A2. assert (E : r1 = 0%nat) by lia.
    clear A2. subst r1.
    rewrite !remove_from_zero. split; reflexivity.
Qed.

Lemma clamp_monotone (x y lo hi : Q) :
  (x <= y)%Q -> (_clamp x lo hi <= _clamp y lo hi)%Q.
Proof.
  intros H. rewrite !clamp_spec.
  apply Q.max_le_compat_l. apply Q.min_le_compat_l. exact H.
Qed.

Lemma chance_fewer_zombies (approach : Approach) (give_gun : bool)
    (g1 g2 : TankGame) :
  guns g1 = guns g2 ->
  Level.zombies (level g1) <= Level.zombies (level g2) ->
  (scavenge_chance approach give_gun g2
   <= scavenge_chance approach give_gun g1)%Q.
Proof.
  intros Hg Hz. unfold scavenge_chance. rewrite Hg.
  assert (Hq : (base_of approach
                - inject_Z (Level.zombies (level g2)) * ZOMBIE_PENALTY_PER_ZOMBIE
                <= base_of approach
                   - inject_Z (Level.zombies (level g1))
                     * ZOMBIE_PENALTY_PER_ZOMBIE)%Q).
  { apply Qplus_le_r. apply Qopp_le_compat.
    apply Qmult_le_compat_r; [|unfold Qle; simpl; lia].
    rewrite <- Zle_Qle. exact Hz. }
  apply clamp_monotone.
  destruct (give_gun && (0 <? guns g2));
    [apply Qplus_le_l; exact Hq | exact Hq].
Qed.

(** X10. The survival chance is ordered as the player expects: for the
    same approach and gun it never rises with the zombie counter of the
    level, a gun never lowers it, and Quick is at least as safe as
    Moderate, which is at least as safe as Greedy. *)
Theorem chance_orderings :
  forall (approach : Approach) (give_gun : bool) (g : TankGame),
    (forall g2 : TankGame,
       guns g = guns g2 ->
       Level.zombies (level g) <= Level.zombies (level g2) ->
       (scavenge_chance approach give_gun g2
        <= scavenge_chance approach give_gun g)%Q)
    /\ (scavenge_chance approach false g
        <= scavenge_chance approach true g)%Q
    /\ (scavenge_chance greedy give_gun g
        <= scavenge_chance moderate give_gun g)%Q
    /\ (scavenge_chance moderate give_gun g
        <= scavenge_chance quick give_gun g)%Q.
Proof.
  intros approach give_gun g. split; [|split; [|split]].
  - intros g2 Hg Hz. apply chance_fewer_zombies; assumption.
  - unfold scavenge_chance. apply clamp_monotone. cbn [andb].
    destruct (0 <? guns g); [|apply Qle_refl].
    rewrite <- (Qplus_0_r
                  (base_of approach
                   - inject_Z (Level.zombies (level g))
                     * ZOMBIE_PENALTY_PER_ZOMBIE)) at 1.
    apply Qplus_le_r. unfold GUN_BONUS, Qle. simpl. lia.
  - unfold scavenge_chance. apply clamp_monotone.
    destruct (give_gun && (0 <? guns g));
      repeat apply Qplus_le_l; unfold base_of, Qle; simpl; lia.
  - unfold scavenge_chance. apply clamp_monotone.
    destruct (give_gun && (0 <? guns g));
      repeat apply Qplus_le_l; unfold base_of, Qle; simpl; lia.
Qed.

(** X11. The zombie counter is stale, never flattering: in every reachable
    state the chance the game computes is at most the chance the zombies
    still drawn in the outside views would give. *)
Theorem stale_counter_never_raises_chance :
  forall (approach : Approach) (give_gun : bool) (g : TankGame),
    reachable g ->
    (scavenge_chance approach give_gun g
     <= scavenge_chance approach give_gun
          (set_level (set_level_zombies (zombies_alive g) (level g)) g))%Q.
Proof.
  intros approach give_gun g R.
  pose proof (reachable_pool_bounded g R zombie_) as [[_ H] _].
  cbn [level_count] in H.
  apply chance_fewer_zombies; [reflexivity|].
  fields. unfold set_level_zombies. cbn [Level.zombies]. exact H.
Qed.

(** ** More on the loot *)












(** ** The second prototype: fades, levels, clicks and repairs *)

Lemma v2_frames_add (n m : nat) (g : V2.Game) :
  V2.frames (n + m) g = V2.frames m (V2.frames n g).
Proof.
  revert g. induction n as [|n IH]; intros g; [reflexivity|].
  cbn [Nat.add V2.frames]. apply IH.
Qed.

Lemma v2_update_fade_idle (g : V2.Game) :
  V2.fading g = false -> V2.update_fade g = g.
Proof. intros H. unfold V2.update_fade. rewrite H. reflexivity. Qed.

Lemma v2_frames_idle (n : nat) (g : V2.Game) :
  V2.fading g = false -> V2.frames n g = g.
Proof.
  intros H. induction n as [|n IH]; [reflexivity|].
  cbn [V2.frames]. rewrite v2_update_fade_idle by exact H. exact IH.
Qed.

(** X15. A change of view is a fade of exactly 30 frames: for 15 frames
    the screen darkens in steps of 18 while the old view stays, at the 15th
    frame, at full black, the view becomes the requested one, after 30
    frames the fade is over and further frames change nothing.  While it
    lasts a request for another view is ignored; nothing but the view and
    the fade fields is touched. *)
Theorem v2_fade_takes_thirty_frames :
  forall (new_view other : V2.View) (g : V2.Game),
    V2.fading g = false ->
    let g1 := V2.start_fade_to new_view g in
    (forall n : nat, (n < 15)%nat ->
       V2.frames n g1
       = V2.set_fade (V2.view g) true (18 * Z.of_nat n) V2.phase_out
           (Some new_view) g)
    /\ (forall n : nat, (n < 15)%nat ->
          V2.frames (15 + n) g1
          = V2.set_fade new_view true (255 - 18 * Z.of_nat n) V2.phase_in
              (Some new_view) g)
    /\ (forall n : nat, (30 <= n)%nat ->
          V2.frames n g1 = V2.set_fade new_view false 0 V2.phase_in None g)
    /\ (forall n : nat, (n < 30)%nat ->
          V2.start_fade_to other (V2.frames n g1) = V2.frames n g1).
Proof.
  intros new_view other g Hf g1.
  assert (A : forall n : nat, (n < 15)%nat ->
            V2.frames n g1
            = V2.set_fade (V2.view g) true (18 * Z.of_nat n) V2.phase_out
                (Some new_view) g).
  { subst g1. unfold V2.start_fade_to. rewrite Hf. intros n Hn.
    do 15 (destruct n as [|n]; [reflexivity|]). lia. }
  assert (B : forall n : nat, (n < 15)%nat ->
            V2.frames (15 + n) g1
            = V2.set_fade new_view true (255 - 18 * Z.of_nat n) V2.phase_in
                (Some new_view) g).
  { subst g1. unfold V2.start_fade_to. rewrite Hf. intros n Hn.
    do 15 (destruct n as [|n]; [reflexivity|]). lia. }
  assert (C : V2.frames 30 g1
              = V2.set_fade new_view false 0 V2.phase_in None g).
  { subst g1. unfold V2.start_fade_to. rewrite Hf. reflexivity. }
  split; [exact A|]. split; [exact B|]. split.
  - intros n Hn. replace n with (30 + (n - 30))%nat by lia.
    rewrite v2_frames_add, C. apply v2_frames_idle. reflexivity.
  - intros n Hn. destruct (Nat.lt_ge_cases n 15) as [H | H].
    + rewrite (A n H). reflexivity.
    + replace n with (15 + (n - 15))%nat by lia.
      rewrite B by lia. reflexivity.
Qed.


Lemma v2_choice_outside (i : nat) :
  let v := choice V2.views i V2.VIEW_OUT_DRIVER in
  v = V2.VIEW_OUT_DRIVER \/ v = V2.VIEW_OUT_LEFT \/ v = V2.VIEW_OUT_RIGHT.
Proof.
  unfold choice, V2.views. cbn [length].
  destruct (Nat.modulo i 3) as [|[|[|[|n]]]]; cbn; auto.
Qed.

Lemma v2_count_append {A : Type} (P : A -> bool) (v : V2.View) (a : A)
    (d : V2.Outside A) :
  v = V2.VIEW_OUT_DRIVER \/ v = V2.VIEW_OUT_LEFT \/ v = V2.VIEW_OUT_RIGHT ->
  (length (filter P (V2.at_out_driver (V2.append v a d)))
   + length (filter P (V2.at_out_left (V2.append v a d)))
   + length (filter P (V2.at_out_right (V2.append v a d))))%nat
  = (length (filter P (V2.at_out_driver d))
     + length (filter P (V2.at_out_left d))
     + length (filter P (V2.at_out_right d))
     + (if P a then 1 else 0))%nat.
Proof.
  intros [-> | [-> | ->]]; unfold V2.append;
    cbn [V2.get V2.put V2.at_out_driver V2.at_out_left V2.at_out_right];
    rewrite filter_app, length_app; cbn [filter];
    destruct (P a); cbn [length]; lia.
Qed.

Lemma v2_count_spawn {A : Type} (P : A -> bool) (mk : V2.SpawnDraw -> A)
    (draw : nat -> V2.SpawnDraw) (b : bool) :
  (forall s, P (mk s) = b) ->
  forall (n i : nat) (d : V2.Outside A),
    (length (filter P (V2.at_out_driver (V2.spawn mk draw i n d)))
     + length (filter P (V2.at_out_left (V2.spawn mk draw i n d)))
     + length (filter P (V2.at_out_right (V2.spawn mk draw i n d))))%nat
    = (length (filter P (V2.at_out_driver d))
       + length (filter P (V2.at_out_left d))
       + length (filter P (V2.at_out_right d))
       + (if b then n else 0))%nat.
Proof.
  intros Hb. induction n as [|n IH]; intros i d; cbn [V2.spawn].
  - destruct b; lia.
  - rewrite IH, v2_count_append by apply v2_choice_outside.
    rewrite Hb. destruct b; lia.
Qed.

(** X16. Every level of the second prototype, whatever its reason (a
    manual stop too), stops the tank with a broken engine and the scavenge
    menu closed, and replaces the content of the outside views: 1 to 3
    parts, the drawn numbers of fuel cans, shell pick-ups and zombies, every
    item uncollected and every zombie alive; the ledger is not touched. *)
Theorem v2_begin_level_spawns :
  forall (reason : V2.Reason) (ld : V2.LevelDraws) (g : V2.Game),
    0 <= V2.d_extra_parts ld <= V2.EXTRA_PARTS_MAX ->
    0 <= V2.d_fuel ld -> 0 <= V2.d_shells ld -> 0 <= V2.d_zombies ld ->
    let g' := fst (V2.begin_level reason ld g) in
    V2.level_active g' = true /\ V2.engine_broken g' = true
    /\ V2.driving g' = false /\ V2.scavenge_mode g' = false
    /\ V2.count_items (V2.is_kind V2.part_item) (V2.level_items g')
       = 1 + V2.d_extra_parts ld
    /\ 1 <= V2.count_items (V2.is_kind V2.part_item) (V2.level_items g') <= 3
    /\ V2.count_items (V2.is_kind V2.fuel_item) (V2.level_items g')
       = V2.d_fuel ld
    /\ V2.count_items (V2.is_kind V2.shells_item) (V2.level_items g')
       = V2.d_shells ld
    /\ V2.count_items V2.collected (V2.level_items g') = 0
    /\ V2.total_zombies_alive g' = V2.d_zombies ld
    /\ (V2.fuel g' = V2.fuel g /\ V2.shells g' = V2.shells g
        /\ V2.guns g' = V2.guns g /\ V2.crew g' = V2.crew g
        /\ V2.parts g' = V2.parts g).
Proof.
  intros reason ld g He Hf Hs Hz g'. subst g'.
  unfold V2.EXTRA_PARTS_MAX in He.
  assert (Hc : forall P bp bf bs,
             (forall s, P (V2.new_part s) = bp) ->
             (forall s, P (V2.new_fuel s) = bf) ->
             (forall s, P (V2.new_shells s) = bs) ->
             V2.count_items P
               (V2.level_items (fst (V2.begin_level reason ld g)))
             = (if bp then 1 + V2.d_extra_parts ld else 0)
               + (if bf then V2.d_fuel ld else 0)
               + (if bs then V2.d_shells ld else 0)).
  { intros P bp bf bs Hp Hfu Hsh.
    unfold V2.begin_level, V2._generate_level_spawns, V2.count_items,
      V2.set_level, V2.MIN_PARTS_PER_LEVEL.
    cbn [fst V2.level_items].
    rewrite (v2_count_spawn P _ _ bs Hsh), (v2_count_spawn P _ _ bf Hfu),
      (v2_count_spawn P _ _ bp Hp).
    cbn [V2.at_out_driver V2.at_out_left V2.at_out_right filter length].
    destruct bp, bf, bs; lia. }
  assert (Hp := Hc (V2.is_kind V2.part_item) true false false
                  (fun _ => eq_refl) (fun _ => eq_refl) (fun _ => eq_refl)).
  assert (Hfu := Hc (V2.is_kind V2.fuel_item) false true false
                   (fun _ => eq_refl) (fun _ => eq_refl) (fun _ => eq_refl)).
  assert (Hsh := Hc (V2.is_kind V2.shells_item) false false true
                   (fun _ => eq_refl) (fun _ => eq_refl) (fun _ => eq_refl)).
  assert (Hco := Hc V2.collected false false false
                   (fun _ => eq_refl) (fun _ => eq_refl) (fun _ => eq_refl)).
  assert (Hzo : V2.total_zombies_alive (fst (V2.begin_level reason ld g))
                = V2.d_zombies ld).
  { unfold V2.total_zombies_alive, V2.count_alive, V2.begin_level,
      V2._generate_level_spawns, V2.set_level.
    cbn [fst V2.level_zombies].
    rewrite (v2_count_spawn V2.alive V2.new_zombie _ true (fun _ => eq_refl)).
    cbn [V2.at_out_driver V2.at_out_left V2.at_out_right filter length].
    lia. }
  cbn beta iota in Hp, Hfu, Hsh, Hco.
  repeat split; try reflexivity; try lia.
Qed.

Lemma v2_shoot_first_none (pos : Z * Z) (l : list V2.Zombie) :
  V2.shoot_first pos l = None
  <-> existsb (fun z => V2.alive z && V1.collidepoint (V2.zrect z) pos) l
      = false.
Proof.
  induction l as [|z tl IH]; cbn [V2.shoot_first existsb].
  - split; reflexivity.
  - destruct (V2.alive z && V1.collidepoint (V2.zrect z) pos); cbn [orb].
    + split; discriminate.
    + destruct (V2.shoot_first pos tl); cbn [option_map].
      * split; [discriminate|]. intros H. apply IH in H. discriminate H.
      * split; intros _; [apply IH|]; reflexivity.
Qed.

Lemma v2_shoot_first_kills_one (pos : Z * Z) (l l' : list V2.Zombie) :
  V2.shoot_first pos l = Some l' ->
  S (V2.count_alive l') = V2.count_alive l /\ length l' = length l.
Proof.
  unfold V2.count_alive. revert l'.
  induction l as [|z tl IH]; intros l' H; cbn [V2.shoot_first] in H.
  - discriminate H.
  - destruct (V2.alive z && V1.collidepoint (V2.zrect z) pos) eqn:E.
    + injection H as <-. apply andb_true_iff in E. destruct E as [E _].
      cbn [filter V2.alive length]. rewrite E. cbn [length]. split; reflexivity.
    + destruct (V2.shoot_first pos tl) as [tl'|]; [|discriminate H].
      cbn [option_map] in H. injection H as <-.
      destruct (IH tl' eq_refl) as [I1 I2].
      cbn [filter length]. destruct (V2.alive z); cbn [length]; lia.
Qed.

Lemma v2_clamp_chance_monotone (risk : V2.Risk) (give_gun : bool)
    (g1 g2 : V2.Game) :
  V2.guns g1 = V2.guns g2 ->
  V2.total_zombies_alive g1 <= V2.total_zombies_alive g2 ->
  (V2.scavenge_chance risk give_gun g2
   <= V2.scavenge_chance risk give_gun g1)%Q.
Proof.
  intros Hg Hz. unfold V2.scavenge_chance. rewrite Hg.
  apply (clamp_monotone _ _ (5 # 100) (95 # 100)). apply Qplus_le_l. apply Qplus_le_r.
  apply Qopp_le_compat. apply Qmult_le_l; [reflexivity|].
  rewrite <- Zle_Qle. exact Hz.
Qed.

(** X17. The cannon of the second prototype: in a level, with a shell
    aboard, a click on a living zombie of the current view spends exactly
    one shell and kills exactly one zombie, so that the survival chance of
    the next scavenger does not fall; a click that meets no living zombie
    costs nothing, and without a shell nothing happens at all. *)
Theorem v2_shot_kills_one_zombie :
  forall (pos : Z * Z) (g : V2.Game),
    V2.level_active g = true ->
    let under :=
      existsb (fun z => V2.alive z && V1.collidepoint (V2.zrect z) pos)
        (V2.get (V2.view g) (V2.level_zombies g)) in
    let g' := fst (V2.handle_shot_click pos g) in
    (V2.shells g < 1 -> V2.handle_shot_click pos g = (g, [V2.Out_of_shells]))
    /\ (1 <= V2.shells g -> under = false ->
        V2.handle_shot_click pos g = (g, [V2.No_target]))
    /\ (1 <= V2.shells g -> under = true ->
        snd (V2.handle_shot_click pos g) = [V2.Zombie_down]
        /\ V2.shells g' = V2.shells g - 1
        /\ V2.total_zombies_alive g' = V2.total_zombies_alive g - 1
        /\ V2.level_items g' = V2.level_items g
        /\ V2.fuel g' = V2.fuel g /\ V2.parts g' = V2.parts g
        /\ V2.guns g' = V2.guns g /\ V2.crew g' = V2.crew g
        /\ forall risk give_gun,
             (V2.scavenge_chance risk give_gun g
              <= V2.scavenge_chance risk give_gun g')%Q).
Proof.
  intros pos g Ha under g'. subst under g'.
  unfold V2.handle_shot_click, V2.SHELLS_PER_SHOT. rewrite Ha. cbn [negb].
  split; [|split].
  - intros Hs. replace (V2.shells g <? 1) with true
      by (symmetry; apply Z.ltb_lt; exact Hs). reflexivity.
  - intros Hs Hu. replace (V2.shells g <? 1) with false
      by (symmetry; apply Z.ltb_ge; exact Hs).
    apply v2_shoot_first_none in Hu. rewrite Hu. reflexivity.
  - intros Hs Hu. replace (V2.shells g <? 1) with false
      by (symmetry; apply Z.ltb_ge; exact Hs).
    destruct (V2.shoot_first pos (V2.get (V2.view g) (V2.level_zombies g)))
      as [zs|] eqn:E.
    2:{ apply v2_shoot_first_none in E. congruence. }
    destruct (v2_shoot_first_kills_one _ _ _ E) as [K _].
    assert (Hz : V2.total_zombies_alive
                   (V2.set_level (V2.level_items g)
                      (V2.put (V2.view g) zs (V2.level_zombies g))
                      (V2.set_ledger (V2.fuel g) (V2.shells g - 1) (V2.guns g)
                         (V2.crew g) (V2.parts g) g))
                 = V2.total_zombies_alive g - 1).
    { unfold V2.total_zombies_alive, V2.set_level, V2.set_ledger.
      cbn [V2.level_zombies].
      destruct (V2.view g); cbn [V2.get] in E, K;
        try (cbn in E; discriminate E);
        cbn [V2.put V2.at_out_driver V2.at_out_left V2.at_out_right]; lia. }
    cbn [fst snd]. repeat split; try reflexivity; try exact Hz.
    intros risk give_gun. apply v2_clamp_chance_monotone; [reflexivity|].
    refine (Z.le_trans _ _ _ (Z.eq_le_incl _ _ Hz) _). lia.
Qed.

Lemma v2_find_none_existsb {A : Type} (f : A -> bool) (l : list A) :
  find f l = None <-> existsb f l = false.
Proof.
  induction l as [|a tl IH]; cbn [find existsb].
  - split; reflexivity.
  - destruct (f a); cbn [orb]; [split; discriminate | exact IH].
Qed.

Lemma v2_pick_first_none (pos : Z * Z) (l : list V2.SpawnItem) :
  V2.pick_first pos l = None
  <-> find (fun it => negb (V2.collected it)
                      && V1.collidepoint (V2.rect it) pos) l = None.
Proof.
  induction l as [|a tl IH]; cbn [V2.pick_first find].
  - split; reflexivity.
  - destruct (negb (V2.collected a) && V1.collidepoint (V2.rect a) pos).
    + split; discriminate.
    + destruct (V2.pick_first pos tl) as [[x tl']|].
      * split; [discriminate|]. intros H. apply IH in H. discriminate H.
      * split; intros _; [apply IH|]; reflexivity.
Qed.

Lemma v2_is_kind_collect (k : V2.ItemKind) (it : V2.SpawnItem) :
  V2.is_kind k (V2.collect it) = V2.is_kind k it.
Proof. reflexivity. Qed.

Lemma v2_pick_first_some (pos : Z * Z) (l l' : list V2.SpawnItem)
    (it : V2.SpawnItem) :
  V2.pick_first pos l = Some (it, l') ->
  find (fun it => negb (V2.collected it)
                  && V1.collidepoint (V2.rect it) pos) l = Some it
  /\ length (filter V2.uncollected l) = S (length (filter V2.uncollected l'))
  /\ forall k, length (filter (V2.is_kind k) l')
               = length (filter (V2.is_kind k) l).
Proof.
  revert l'. induction l as [|a tl IH]; intros l' H;
    cbn [V2.pick_first find] in *.
  - discriminate H.
  - destruct (negb (V2.collected a) && V1.collidepoint (V2.rect a) pos) eqn:E.
    + injection H as <- <-. apply andb_true_iff in E. destruct E as [E _].
      split; [reflexivity|]. split.
      * cbn [filter]. unfold V2.uncollected at 1 3. cbn [V2.collect V2.collected].
        rewrite E. reflexivity.
      * intros k. cbn [filter]. rewrite v2_is_kind_collect.
        destruct (V2.is_kind k a); reflexivity.
    + destruct (V2.pick_first pos tl) as [[x tl']|]; [|discriminate H].
      injection H as <- <-. destruct (IH tl' eq_refl) as (I1 & I2 & I3).
      split; [exact I1|]. split.
      * cbn [filter]. destruct (V2.uncollected a); cbn [length]; lia.
      * intros k. cbn [filter]. specialize (I3 k).
        destruct (V2.is_kind k a); cbn [length]; lia.
Qed.

Lemma v2_get_inside {A : Type} (v : V2.View) (d : V2.Outside A) :
  V2.get v d <> [] ->
  v = V2.VIEW_OUT_DRIVER \/ v = V2.VIEW_OUT_LEFT \/ v = V2.VIEW_OUT_RIGHT.
Proof. destruct v; cbn [V2.get]; auto; intros H; contradiction H; reflexivity. Qed.

Lemma v2_count_put {A : Type} (P : A -> bool) (v : V2.View) (l : list A)
    (d : V2.Outside A) :
  v = V2.VIEW_OUT_DRIVER \/ v = V2.VIEW_OUT_LEFT \/ v = V2.VIEW_OUT_RIGHT ->
  (length (filter P (V2.at_out_driver (V2.put v l d)))
   + length (filter P (V2.at_out_left (V2.put v l d)))
   + length (filter P (V2.at_out_right (V2.put v l d)))
   + length (filter P (V2.get v d)))%nat
  = (length (filter P (V2.at_out_driver d))
     + length (filter P (V2.at_out_left d))
     + length (filter P (V2.at_out_right d))
     + length (filter P l))%nat.
Proof.
  intros [-> | [-> | ->]];
    cbn [V2.get V2.put V2.at_out_driver V2.at_out_left V2.at_out_right]; lia.
Qed.

Lemma v2_find_some_nonempty {A : Type} (f : A -> bool) (l : list A) (a : A) :
  find f l = Some a -> l <> [].
Proof. destruct l; [discriminate | discriminate]. Qed.

(** X18. Picking up by hand in the second prototype: during a level a click
    takes the first item of the current view that is not yet collected and
    lies under the cursor, marks that one item collected (no item leaves the
    lists) and credits exactly its worth to its own counter; a click that
    meets no such item, an already collected one included, changes nothing
    and shows nothing.  Zombies, guns and crew are never touched. *)
Theorem v2_item_click_collects_once :
  forall (pos : Z * Z) (g : V2.Game),
    V2.level_active g = true ->
    let under := fun it => negb (V2.collected it)
                           && V1.collidepoint (V2.rect it) pos in
    let g' := fst (V2.handle_item_click pos g) in
    (find under (V2.get (V2.view g) (V2.level_items g)) = None ->
     V2.handle_item_click pos g = (g, []))
    /\ (forall it,
          find under (V2.get (V2.view g) (V2.level_items g)) = Some it ->
          V2.count_items V2.uncollected (V2.level_items g')
          = V2.count_items V2.uncollected (V2.level_items g) - 1
          /\ (forall k, V2.count_items (V2.is_kind k) (V2.level_items g')
                        = V2.count_items (V2.is_kind k) (V2.level_items g))
          /\ V2.fuel g' = V2.fuel g + V2.worth V2.fuel_item it
          /\ V2.parts g' = V2.parts g + V2.worth V2.part_item it
          /\ V2.shells g' = V2.shells g + V2.worth V2.shells_item it
          /\ V2.level_zombies g' = V2.level_zombies g
          /\ V2.guns g' = V2.guns g /\ V2.crew g' = V2.crew g).
Proof.
  intros pos g Ha under g'. subst g'.
  unfold V2.handle_item_click. rewrite Ha. cbn [negb].
  split.
  - intros Hn. apply v2_pick_first_none in Hn. rewrite Hn. reflexivity.
  - intros it Hf.
    assert (Ho := v2_get_inside _ _ (v2_find_some_nonempty _ _ _ Hf)).
    destruct (V2.pick_first pos (V2.get (V2.view g) (V2.level_items g)))
      as [[x items]|] eqn:E.
    2:{ apply v2_pick_first_none in E. unfold under in Hf. congruence. }
    destruct (v2_pick_first_some _ _ _ _ E) as (P1 & P2 & P3).
    unfold under in Hf. rewrite P1 in Hf. injection Hf as ->.
    assert (Hu := v2_count_put V2.uncollected _ items (V2.level_items g) Ho).
    assert (Hk := fun k =>
              v2_count_put (V2.is_kind k) _ items (V2.level_items g) Ho).
    assert (C1 : forall g1 : V2.Game,
               V2.level_items g1
               = V2.put (V2.view g) items (V2.level_items g) ->
               V2.count_items V2.uncollected (V2.level_items g1)
               = V2.count_items V2.uncollected (V2.level_items g) - 1).
    { intros g1 ->. unfold V2.count_items. lia. }
    assert (C2 : forall (g1 : V2.Game) k,
               V2.level_items g1
               = V2.put (V2.view g) items (V2.level_items g) ->
               V2.count_items (V2.is_kind k) (V2.level_items g1)
               = V2.count_items (V2.is_kind k) (V2.level_items g)).
    { intros g1 k ->. unfold V2.count_items. specialize (Hk k).
      specialize (P3 k). lia. }
    unfold V2.worth.
    destruct (V2.kind it); cbn [fst];
      (split; [apply C1; reflexivity|]);
      (split; [intros k; apply C2; reflexivity|]);
      unfold V2.set_ledger, V2.set_level;
      cbn [V2.fuel V2.parts V2.shells V2.level_zombies V2.guns V2.crew];
      repeat split; lia.
Qed.

(** X19. The engine of the second prototype: a repair asks only for a part;
    it takes one whether or not the engine is broken and whether or not a
    level is on, and changes nothing else but the engine flag.  During a
    level the tank starts exactly when the engine is sound and fuel is left,
    which ends the level; so after a breakdown, one repair and one start
    put the tank back on the road for one part. *)
Theorem v2_repair_and_start :
  forall (g : V2.Game),
    (V2.parts g <= 0 -> V2.attempt_fix_engine g = (g, [V2.Not_enough_parts]))
    /\ (1 <= V2.parts g ->
        let g1 := fst (V2.attempt_fix_engine g) in
        V2.parts g1 = V2.parts g - 1 /\ V2.engine_broken g1 = false
        /\ V2.level_active g1 = V2.level_active g
        /\ V2.driving g1 = V2.driving g
        /\ V2.fuel g1 = V2.fuel g /\ V2.shells g1 = V2.shells g
        /\ V2.guns g1 = V2.guns g /\ V2.crew g1 = V2.crew g
        /\ V2.level_items g1 = V2.level_items g
        /\ V2.level_zombies g1 = V2.level_zombies g)
    /\ (V2.level_active g = true -> V2.engine_broken g = true ->
        V2.attempt_start_driving g = (g, [V2.Engine_still_broken]))
    /\ (V2.level_active g = true -> 1 <= V2.parts g -> 0 < V2.fuel g ->
        let g2 := fst (V2.attempt_start_driving
                         (fst (V2.attempt_fix_engine g))) in
        V2.driving g2 = true /\ V2.level_active g2 = false
        /\ V2.engine_broken g2 = false
        /\ V2.parts g2 = V2.parts g - 1 /\ V2.fuel g2 = V2.fuel g).
Proof.
  intros g. unfold V2.attempt_fix_engine, V2.attempt_start_driving.
  split; [|split; [|split]].
  - intros H. replace (V2.parts g <=? 0) with true
      by (symmetry; apply Z.leb_le; exact H). reflexivity.
  - intros H. replace (V2.parts g <=? 0) with false
      by (symmetry; apply Z.leb_gt; lia).
    cbn. repeat split; reflexivity.
  - intros Ha Hb. rewrite Ha, Hb. reflexivity.
  - intros Ha Hp Hf. replace (V2.parts g <=? 0) with false
      by (symmetry; apply Z.leb_gt; lia).
    cbn [fst V2.set_drive V2.set_ledger V2.level_active V2.engine_broken
           V2.fuel].
    rewrite Ha. replace (V2.fuel g <=? 0) with false
      by (symmetry; apply Z.leb_gt; lia).
    cbn. repeat split; reflexivity.
Qed.

(** X20. The second prototype never starts on an empty tank: with no fuel
    left a start is refused with the same message in a level and outside
    one, whatever made the level, and the state is not changed. *)
Theorem v2_no_start_without_fuel :
  forall (g : V2.Game),
    V2.fuel g <= 0 ->
    fst (V2.attempt_start_driving g) = g
    /\ (V2.engine_broken g = false \/ V2.level_active g = false ->
        snd (V2.attempt_start_driving g) = [V2.No_fuel]).
Proof.
  intros g Hf. unfold V2.attempt_start_driving.
  replace (V2.fuel g <=? 0) with true by (symmetry; apply Z.leb_le; exact Hf).
  split.
  - destruct (V2.level_active g), (V2.engine_broken g); reflexivity.
  - intros [-> | ->]; destruct (V2.level_active g);
      try destruct (V2.engine_broken g); reflexivity.
Qed.

(** X21. Clicks in the outside views of the second prototype.  From the
    driver's slit nothing is ever shot: the click is an item click, with a
    zombie under the cursor or not.  In a gunner's view during a level a
    living zombie under the cursor takes the click, so the items are left as
    they are, also when no shell is aboard; the click falls through to the
    items only when no living zombie is hit. *)
Theorem v2_outside_click_priority :
  forall (pos : Z * Z) (g : V2.Game),
    let hit :=
      existsb (fun z => V2.alive z && V1.collidepoint (V2.zrect z) pos)
        (V2.get (V2.view g) (V2.level_zombies g)) in
    let g' := fst (V2.handle_outside_click pos g) in
    (V2.view g = V2.VIEW_OUT_DRIVER ->
     V2.handle_outside_click pos g = V2.handle_item_click pos g
     /\ V2.level_zombies g' = V2.level_zombies g)
    /\ (V2.view g = V2.VIEW_OUT_LEFT \/ V2.view g = V2.VIEW_OUT_RIGHT ->
        V2.level_active g = true ->
        (hit = true ->
         V2.handle_outside_click pos g = V2.handle_shot_click pos g
         /\ V2.level_items g' = V2.level_items g
         /\ V2.fuel g' = V2.fuel g /\ V2.parts g' = V2.parts g
         /\ V2.shells g' <= V2.shells g)
        /\ (hit = false ->
            V2.handle_outside_click pos g = V2.handle_item_click pos g
            /\ V2.level_zombies g' = V2.level_zombies g)).
Proof.
  intros pos g hit g'. subst hit g'.
  assert (Hi : V2.level_zombies (fst (V2.handle_item_click pos g))
               = V2.level_zombies g).
  { unfold V2.handle_item_click.
    destruct (negb (V2.level_active g)); [reflexivity|].
    destruct (V2.pick_first pos (V2.get (V2.view g) (V2.level_items g)))
      as [[it items]|]; [|reflexivity].
    destruct (V2.kind it); reflexivity. }
  assert (Hs : V2.level_items (fst (V2.handle_shot_click pos g))
               = V2.level_items g
               /\ V2.fuel (fst (V2.handle_shot_click pos g)) = V2.fuel g
               /\ V2.parts (fst (V2.handle_shot_click pos g)) = V2.parts g
               /\ V2.shells (fst (V2.handle_shot_click pos g)) <= V2.shells g).
  { unfold V2.handle_shot_click, V2.SHELLS_PER_SHOT.
    destruct (negb (V2.level_active g)); [cbn; repeat split; lia|].
    destruct (V2.shells g <? 1); [cbn; repeat split; lia|].
    destruct (V2.shoot_first pos (V2.get (V2.view g) (V2.level_zombies g)));
      cbn; repeat split; lia. }
  split.
  - intros Hv. unfold V2.handle_outside_click. rewrite Hv.
    split; [reflexivity | exact Hi].
  - intros Hv Ha. unfold V2.handle_outside_click.
    rewrite Ha. split; intros Hh.
    + destruct Hv as [Hv | Hv]; rewrite Hv in *; rewrite Hh;
        (split; [reflexivity|]); exact Hs.
    + destruct Hv as [Hv | Hv]; rewrite Hv in *; rewrite Hh;
        (split; [reflexivity|]); exact Hi.
Qed.

Lemma v2_remaining_in_length (v : V2.View) (l : list V2.SpawnItem) :
  forall k, length (V2.remaining_in v k l) = length (filter V2.uncollected l).
Proof.
  induction l as [|a tl IH]; intros k; cbn [V2.remaining_in filter].
  - reflexivity.
  - rewrite length_app, IH. unfold V2.uncollected at 2.
    destruct (V2.collected a); reflexivity.
Qed.

Lemma v2_remaining_items_length (items : V2.Outside V2.SpawnItem) :
  Z.of_nat (length (V2.remaining_items items))
  = V2.count_items V2.uncollected items.
Proof.
  unfold V2.remaining_items, V2.count_items.
  rewrite !length_app, !v2_remaining_in_length. lia.
Qed.












Lemma v2_clamp_bounds (x lo hi : Q) :
  (lo <= hi)%Q -> (lo <= V2.clamp x lo hi /\ V2.clamp x lo hi <= hi)%Q.
Proof. exact (clamp_bounds x lo hi). Qed.


(** X23. A scavenger of the second prototype who does not come back: with
    crew left and something to find, a draw at or above the chance costs one
    crewman and, when a gun was asked for and one was there, that gun;
    fuel, parts, shells, items and zombies stay as they were, the menu is
    closed, and the game is over exactly when the crew is used up. *)
Theorem v2_scavenger_lost :
  forall (risk : V2.Risk) (give_gun : bool) (sd : V2.ScavDraws) (g : V2.Game),
    0 < V2.crew g ->
    V2.remaining_items (V2.level_items g) <> [] ->
    (V2.scavenge_chance risk give_gun g <= V2.r_survive sd)%Q ->
    let g' := fst (V2.do_scavenge risk give_gun sd g) in
    V2.crew g' = V2.crew g - 1
    /\ V2.guns g' = V2.guns g - (if give_gun && (0 <? V2.guns g) then 1 else 0)
    /\ V2.fuel g' = V2.fuel g /\ V2.parts g' = V2.parts g
    /\ V2.shells g' = V2.shells g
    /\ V2.level_items g' = V2.level_items g
    /\ V2.level_zombies g' = V2.level_zombies g
    /\ V2.scavenge_mode g' = false
    /\ V2.game_over g' = (V2.crew g =? 1) || V2.game_over g
    /\ 0 <= V2.guns g - V2.guns g' <= 1.
Proof.
  intros risk give_gun sd g Hcrew Hne Hs g'. subst g'.
  unfold V2.do_scavenge.
  replace (V2.crew g <=? 0) with false by (symmetry; apply Z.leb_gt; lia).
  destruct (V2.remaining_items (V2.level_items g)) as [|r0 rem];
    [contradiction Hne; reflexivity|].
  apply Qltb_false in Hs. rewrite Hs.
  assert (Hg : (if give_gun && (V2.guns g <=? 0) then false else give_gun)
               && (0 <? V2.guns g) = give_gun && (0 <? V2.guns g)).
  { destruct give_gun; cbn [andb]; [|reflexivity].
    destruct (V2.guns g <=? 0) eqn:E1; [|reflexivity].
    apply Z.leb_le in E1. symmetry. apply Z.ltb_ge. exact E1. }
  cbv zeta.
  set (g1 := V2.set_ledger (V2.fuel g) (V2.shells g) (V2.guns g)
               (V2.crew g - 1) (V2.parts g) g).
  change (V2.guns g1) with (V2.guns g). rewrite Hg.
  assert (Hk : (V2.crew g =? 1) = (V2.crew g - 1 <=? 0)).
  { destruct (Z.eqb_spec (V2.crew g) 1), (Z.leb_spec (V2.crew g - 1) 0);
      try reflexivity; lia. }
  rewrite Hk.
  destruct (give_gun && (0 <? V2.guns g));
    [change (V2.crew (V2.set_ledger (V2.fuel g1) (V2.shells g1)
                        (V2.guns g - 1) (V2.crew g1) (V2.parts g1) g1))
       with (V2.crew g - 1)
    | change (V2.crew g1) with (V2.crew g - 1)];
    destruct (V2.crew g - 1 <=? 0); cbn; repeat split; lia.
Qed.

(** X24. The survival chance of the second prototype lies between 5 % and
    95 %; asking for a gun never lowers it and changes nothing when no gun
    is aboard; the quick plan is never worse than the moderate one, nor the
    moderate one than the greedy one. *)
Theorem v2_chance_properties :
  forall (risk : V2.Risk) (give_gun : bool) (g : V2.Game),
    (5 # 100 <= V2.scavenge_chance risk give_gun g <= 95 # 100)%Q
    /\ (V2.scavenge_chance risk false g
        <= V2.scavenge_chance risk true g)%Q
    /\ (V2.guns g <= 0 ->
        V2.scavenge_chance risk true g = V2.scavenge_chance risk false g)
    /\ (V2.scavenge_chance V2.greedy give_gun g
        <= V2.scavenge_chance V2.moderate give_gun g)%Q
    /\ (V2.scavenge_chance V2.moderate give_gun g
        <= V2.scavenge_chance V2.quick give_gun g)%Q.
Proof.
  intros risk give_gun g.
  split; [apply v2_clamp_bounds; discriminate|].
  unfold V2.scavenge_chance. cbn [andb].
  split; [|split; [|split]].
  - apply (clamp_monotone _ _ (5 # 100) (95 # 100)). apply Qplus_le_r.
    destruct (V2.guns g <=? 0); discriminate.
  - intros H. replace (V2.guns g <=? 0) with true
      by (symmetry; apply Z.leb_le; exact H). reflexivity.
  - apply (clamp_monotone _ _ (5 # 100) (95 # 100)).
    apply Qplus_le_l. apply Qplus_le_l. discriminate.
  - apply (clamp_monotone _ _ (5 # 100) (95 # 100)).
    apply Qplus_le_l. apply Qplus_le_l. discriminate.
Qed.

Lemma v2_max_take_bounds (risk : V2.Risk) (g : V2.Game) :
  V2.remaining_items (V2.level_items g) <> [] ->
  1 <= V2.max_take risk g
    <= Z.of_nat (length (V2.remaining_items (V2.level_items g))).
Proof.
  intros Hne. unfold V2.max_take.
  set (n := Z.of_nat (length (V2.remaining_items (V2.level_items g)))).
  assert (Hn : 1 <= n).
  { subst n. destruct (V2.remaining_items (V2.level_items g));
      [contradiction Hne; reflexivity | cbn [length]; lia]. }
  split; [apply Z.le_max_l|].
  apply Z.max_lub; [exact Hn|].
  rewrite <- (Qfloor_Z n) at 2. apply Qfloor_resp_le.
  rewrite <- (Qmult_1_r (inject_Z n)) at 2.
  apply Qmult_le_l; [change 0%Q with (inject_Z 0); rewrite <- Zlt_Qlt; lia|].
  destruct risk; discriminate.
Qed.

(** X25. The sample of the second prototype always fits: whenever an item
    is left, the number of items a scavenger may take lies between 1 and
    the number of uncollected items, so [random.sample] is never asked for
    more than there is, and the first remaining item alone is a sample it
    can return. *)
Theorem v2_sample_fits :
  forall (risk : V2.Risk) (g : V2.Game) (r0 : V2.Ref) (rest : list V2.Ref),
    V2.remaining_items (V2.level_items g) = r0 :: rest ->
    1 <= V2.max_take risk g
      <= V2.count_items V2.uncollected (V2.level_items g)
    /\ V2.valid_sample risk g [r0].
Proof.
  intros risk g r0 rest E.
  assert (Hne : V2.remaining_items (V2.level_items g) <> [])
    by (rewrite E; discriminate).
  pose proof (v2_max_take_bounds risk g Hne) as B.
  rewrite v2_remaining_items_length in B.
  split; [exact B|].
  unfold V2.valid_sample. split; [|split].
  - constructor; [intros [] | constructor].
  - intros r [<- | []]. rewrite E. left. reflexivity.
  - cbn [length]. lia.
Qed.

Lemma v1_pop_first_zombie_count (l : list V1.SpriteObj) :
  length (filter V1.is_zombie (V1.pop_first_zombie l))
  = Nat.pred (length (filter V1.is_zombie l)).
Proof.
  induction l as [|a tl IH]; cbn [V1.pop_first_zombie filter].
  - reflexivity.
  - destruct (V1.is_zombie a) eqn:E.
    + reflexivity.
    + cbn [filter]. rewrite E. exact IH.
Qed.

Lemma v1_first_hit_del (mouse_pos : Z * Z) (l : list V1.SpriteObj) :
  forall i : nat,
    V1.first_hit mouse_pos l = Some i ->
    S (length (filter V1.is_zombie (del_nth i l)))
    = length (filter V1.is_zombie l).
Proof.
  induction l as [|a tl IH]; intros i H; cbn [V1.first_hit] in H.
  - discriminate H.
  - destruct (V1.is_zombie a && V1.collidepoint (V1.rect a) mouse_pos) eqn:E.
    + injection H as <-. apply andb_true_iff in E. destruct E as [E _].
      cbn [del_nth filter]. rewrite E. reflexivity.
    + destruct (V1.first_hit mouse_pos tl) as [j|]; [|discriminate H].
      cbn [option_map] in H. injection H as <-.
      cbn [del_nth filter]. specialize (IH j eq_refl).
      destruct (V1.is_zombie a); cbn [length]; lia.
Qed.

Lemma v1_pop_first_zombie_markers (l : list V1.SpriteObj) :
  V1Game.markers_of (V1.pop_first_zombie l) = V1Game.markers_of l.
Proof.
  unfold V1Game.markers_of.
  induction l as [|a tl IH]; cbn [V1.pop_first_zombie filter]; [reflexivity|].
  destruct (V1.is_zombie a) eqn:E; cbn [negb filter]; [reflexivity|].
  rewrite E. cbn [negb]. rewrite IH. reflexivity.
Qed.

Lemma v1_first_hit_markers (mouse_pos : Z * Z) (l : list V1.SpriteObj) :
  forall i : nat,
    V1.first_hit mouse_pos l = Some i ->
    V1Game.markers_of (del_nth i l) = V1Game.markers_of l.
Proof.
  unfold V1Game.markers_of.
  induction l as [|a tl IH]; intros i H; cbn [V1.first_hit] in H.
  - discriminate H.
  - destruct (V1.is_zombie a && V1.collidepoint (V1.rect a) mouse_pos) eqn:E.
    + injection H as <-. apply andb_true_iff in E. destruct E as [E _].
      cbn [del_nth filter]. rewrite E. reflexivity.
    + destruct (V1.first_hit mouse_pos tl) as [j|]; [|discriminate H].
      cbn [option_map] in H. injection H as <-.
      cbn [del_nth filter]. rewrite (IH j eq_refl). reflexivity.
Qed.

(** X26. The cannon of the first prototype.  Outside a level, or from a
    view that is not a gunner's slit, a click does nothing; without a shell
    it only shows "No shells left."; a click that hits no zombie does
    nothing.  A click on a zombie, the views being in step with the pool,
    costs exactly one shell and one zombie of the pool, deletes the zombie
    hit from the view clicked and the first zombie from each of the two
    other views, and touches neither the item markers of any view nor the
    items of the pool; the views are in step with the pool afterwards, as
    they are after any click. *)
Theorem v1_shot_keeps_views_in_step :
  forall (view : View) (mouse_pos : Z * Z) (g : V1.TankGame),
    let g' := V1.shoot_zombie_at view mouse_pos g in
    let s := V1.outside_sprites g in
    let s' := V1.outside_sprites g' in
    (V1.in_level g = false \/ V1Game.gunner_view view s = None -> g' = g)
    /\ (forall l,
          V1.in_level g = true -> V1Game.gunner_view view s = Some l ->
          V1.shells g <= 0 ->
          g' = V1.mk (V1.shells g) (V1.in_level g) (V1.level_pool g)
                 (Some V1.No_shells_left) s)
    /\ (forall l,
          V1.in_level g = true -> V1Game.gunner_view view s = Some l ->
          0 < V1.shells g -> V1.first_hit mouse_pos l = None -> g' = g)
    /\ (forall l i p,
          V1.in_level g = true -> V1Game.gunner_view view s = Some l ->
          0 < V1.shells g -> V1.first_hit mouse_pos l = Some i ->
          V1.level_pool g = Some p ->
          V1Game.in_step (V1.level_pool g) s ->
          V1.shells g' = V1.shells g - 1
          /\ V1.level_pool g'
             = Some (V1.LevelPool.mk (V1.LevelPool.fuelcans p)
                       (V1.LevelPool.shells p) (V1.LevelPool.parts p)
                       (V1.LevelPool.zombies p - 1))
          /\ V1Game.gunner_view view s' = Some (del_nth i l)
          /\ V1Game.count_zombies (V1.at_V_OUT_DRIVER s')
             = V1Game.count_zombies (V1.at_V_OUT_DRIVER s) - 1
          /\ V1Game.count_zombies (V1.at_V_OUT_LEFT s')
             = V1Game.count_zombies (V1.at_V_OUT_LEFT s) - 1
          /\ V1Game.count_zombies (V1.at_V_OUT_RIGHT s')
             = V1Game.count_zombies (V1.at_V_OUT_RIGHT s) - 1
          /\ V1Game.markers_of (V1.at_V_OUT_DRIVER s')
             = V1Game.markers_of (V1.at_V_OUT_DRIVER s)
          /\ V1Game.markers_of (V1.at_V_OUT_LEFT s')
             = V1Game.markers_of (V1.at_V_OUT_LEFT s)
          /\ V1Game.markers_of (V1.at_V_OUT_RIGHT s')
             = V1Game.markers_of (V1.at_V_OUT_RIGHT s)
          /\ V1.in_level g' = true /\ V1.popup_text g' = V1.popup_text g)
    /\ (V1Game.in_step (V1.level_pool g) s ->
        V1Game.in_step (V1.level_pool g') s').
Proof.
  intros view mouse_pos g g' s s'. subst g' s s'.
  split; [|split; [|split; [|split]]].
  - intros [H | H]; unfold V1.shoot_zombie_at.
    + rewrite H. reflexivity.
    + destruct (negb (V1.in_level g)); [reflexivity|].
      destruct view; try reflexivity; discriminate H.
  - intros l Hl Hv Hs. unfold V1.shoot_zombie_at. rewrite Hl. cbn [negb].
    replace (V1.shells g <=? 0) with true by (symmetry; apply Z.leb_le; lia).
    destruct view; try discriminate Hv; reflexivity.
  - intros l Hl Hv Hs Hh. unfold V1.shoot_zombie_at. rewrite Hl. cbn [negb].
    replace (V1.shells g <=? 0) with false by (symmetry; apply Z.leb_gt; lia).
    destruct view; try discriminate Hv; injection Hv as <-; rewrite Hh;
      reflexivity.
  - intros l i p Hl Hv Hs Hh Hp (p0 & Hp0 & H1 & H2 & H3).
    rewrite Hp in Hp0. injection Hp0 as <-.
    unfold V1Game.count_zombies in *.
    assert (Hz : (0 <? V1.LevelPool.zombies p) = true).
    { apply Z.ltb_lt.
      destruct view; try discriminate Hv; injection Hv as <-;
        apply v1_first_hit_del in Hh; lia. }
    unfold V1.shoot_zombie_at. rewrite Hl. cbn [negb].
    replace (V1.shells g <=? 0) with false by (symmetry; apply Z.leb_gt; lia).
    destruct view; try discriminate Hv; injection Hv as <-; rewrite Hh;
      pose proof (v1_first_hit_del _ _ _ Hh) as Hd;
      pose proof (v1_first_hit_markers _ _ _ Hh) as Hm;
      cbn [V1.shells V1.level_pool V1.outside_sprites V1.in_level
             V1.popup_text V1Game.gunner_view V1.at_V_OUT_DRIVER
             V1.at_V_OUT_LEFT V1.at_V_OUT_RIGHT];
      rewrite Hp; unfold V1.reduce_pool; rewrite Hz;
      rewrite ?v1_pop_first_zombie_count, ?v1_pop_first_zombie_markers;
      repeat split; try reflexivity; try exact Hm; try exact Hl; lia.
  - intros (p & Hp & H1 & H2 & H3).
    assert (Hsame : V1Game.in_step (V1.level_pool g) (V1.outside_sprites g))
      by (exists p; auto).
    unfold V1.shoot_zombie_at.
    destruct (negb (V1.in_level g)); [exact Hsame|].
    unfold V1Game.count_zombies in H1, H2, H3.
    destruct view; try exact Hsame.
    + destruct (V1.shells g <=? 0); [exists p; auto|].
      destruct (V1.first_hit mouse_pos
                  (V1.at_V_OUT_LEFT (V1.outside_sprites g))) as [i|] eqn:E;
        [|exact Hsame].
      apply v1_first_hit_del in E.
      assert (Hz : (0 <? V1.LevelPool.zombies p) = true)
        by (apply Z.ltb_lt; lia).
      cbn [V1.level_pool V1.outside_sprites]. rewrite Hp.
      unfold V1.reduce_pool. rewrite Hz.
      eexists. split; [reflexivity|].
      unfold V1Game.count_zombies.
      cbn [V1.LevelPool.zombies V1.at_V_OUT_DRIVER V1.at_V_OUT_LEFT
             V1.at_V_OUT_RIGHT].
      rewrite !v1_pop_first_zombie_count. repeat split; lia.
    + destruct (V1.shells g <=? 0); [exists p; auto|].
      destruct (V1.first_hit mouse_pos
                  (V1.at_V_OUT_RIGHT (V1.outside_sprites g))) as [i|] eqn:E;
        [|exact Hsame].
      apply v1_first_hit_del in E.
      assert (Hz : (0 <? V1.LevelPool.zombies p) = true)
        by (apply Z.ltb_lt; lia).
      cbn [V1.level_pool V1.outside_sprites]. rewrite Hp.
      unfold V1.reduce_pool. rewrite Hz.
      eexists. split; [reflexivity|].
      unfold V1Game.count_zombies.
      cbn [V1.LevelPool.zombies V1.at_V_OUT_DRIVER V1.at_V_OUT_LEFT
             V1.at_V_OUT_RIGHT].
      rewrite !v1_pop_first_zombie_count. repeat split; lia.
Qed.

Lemma v1_filter_zombie_sprites (P : V1.SpriteKind -> bool)
    (pos : nat -> Z * Z) :
  forall (n i : nat),
    length (filter (fun sp => P (V1.kind sp)) (V1Game.zombie_sprites pos i n))
    = if P V1.ZOMBIE then n else O.
Proof.
  induction n as [|n IH]; intros i; cbn [V1Game.zombie_sprites filter V1.kind].
  - destruct (P V1.ZOMBIE); reflexivity.
  - specialize (IH (S i)). destruct (P V1.ZOMBIE); cbn [length]; lia.
Qed.

Lemma v1_filter_marker_sprites (P : V1.SpriteKind -> bool)
    (pos : nat -> Z * Z) (ms : list V1.SpriteKind) :
  forall i : nat,
    length (filter (fun sp => P (V1.kind sp)) (V1Game.marker_sprites pos i ms))
    = length (filter P ms).
Proof.
  induction ms as [|m tl IH]; intros i;
    cbn [V1Game.marker_sprites filter V1.kind].
  - reflexivity.
  - specialize (IH (S i)). destruct (P m); cbn [length]; lia.
Qed.

Lemma v1_filter_permutation {A : Type} (P : A -> bool) (l1 l2 : list A) :
  Permutation l1 l2 -> length (filter P l1) = length (filter P l2).
Proof.
  induction 1 as [|x l l' _ IH|x y l|l l' l'' _ IH1 _ IH2]; cbn [filter].
  - reflexivity.
  - destruct (P x); cbn [length]; lia.
  - destruct (P x), (P y); reflexivity.
  - lia.
Qed.

Lemma v1_filter_repeat {A : Type} (P : A -> bool) (x : A) (n : nat) :
  length (filter P (repeat x n)) = if P x then n else O.
Proof.
  induction n as [|n IH]; cbn [repeat filter].
  - destruct (P x); reflexivity.
  - destruct (P x); cbn [length]; lia.
Qed.

Lemma v1_gen_sprites_count (P : V1.SpriteKind -> bool)
    (sd : V1Game.SpriteDraws) (view : View) (pool : V1.LevelPool.t) :
  Permutation (V1Game.shuffled sd) (V1Game.markers pool) ->
  length (filter (fun sp => P (V1.kind sp))
            (V1Game.gen_outside_sprites_for_view sd view pool))
  = ((if P V1.ZOMBIE then Z.to_nat (V1.LevelPool.zombies pool) else 0)
     + (if P V1.FUEL
        then Z.to_nat (Z.min (V1.LevelPool.fuelcans pool) 4) else 0)
     + (if P V1.PART
        then Z.to_nat (Z.min (V1.LevelPool.parts pool) 2) else 0)
     + (if P V1.SHELL
        then Z.to_nat (Z.min (V1.LevelPool.shells pool) 3) else 0))%nat.
Proof.
  intros Hperm. unfold V1Game.gen_outside_sprites_for_view.
  rewrite filter_app, length_app, v1_filter_zombie_sprites,
    v1_filter_marker_sprites, (v1_filter_permutation P _ _ Hperm).
  unfold V1Game.markers. rewrite !filter_app, !length_app, !v1_filter_repeat.
  lia.
Qed.

(** X27. A level of the first prototype: whatever the reason, a manual
    stop included, the tank stands with a broken engine; the pool holds 1
    or 2 parts, 1 to 5 fuel cans, 0 to 4 shells and 1 to 8 zombies; every
    outside view shows all the zombies of the pool, but at most 4 fuel
    markers and 3 shell markers, so a rich pool is understated; the ledger
    is not touched. *)
Theorem v1_start_new_level_pool :
  forall (reason : V1Game.Reason) (ld : V1Game.LevelDraws)
         (g : V1Game.TankGame),
    V1Game.valid_level_draws ld ->
    let g' := V1Game.start_new_level reason ld g in
    let st := V1Game.state g in
    let st' := V1Game.state g' in
    V1Game.in_level st' = true /\ V1Game.moving st' = false
    /\ V1Game.engine_broken st' = true
    /\ V1Game.popup_text st' = Some (V1Game.Level_started reason)
    /\ (exists pool,
          V1Game.level_pool st' = Some pool
          /\ 1 <= V1.LevelPool.parts pool <= 2
          /\ 1 <= V1.LevelPool.fuelcans pool <= 5
          /\ 0 <= V1.LevelPool.shells pool <= 4
          /\ 1 <= V1.LevelPool.zombies pool <= 8
          /\ forall l,
               l = V1.at_V_OUT_DRIVER (V1Game.outside_sprites g')
               \/ l = V1.at_V_OUT_LEFT (V1Game.outside_sprites g')
               \/ l = V1.at_V_OUT_RIGHT (V1Game.outside_sprites g') ->
               V1Game.count_kind V1.ZOMBIE l = V1.LevelPool.zombies pool
               /\ V1Game.count_kind V1.FUEL l
                  = Z.min (V1.LevelPool.fuelcans pool) 4
               /\ V1Game.count_kind V1.PART l = V1.LevelPool.parts pool
               /\ V1Game.count_kind V1.SHELL l
                  = Z.min (V1.LevelPool.shells pool) 3)
    /\ V1Game.in_step (V1Game.level_pool st') (V1Game.outside_sprites g')
    /\ V1Game.fuel st' = V1Game.fuel st
    /\ V1Game.shells st' = V1Game.shells st
    /\ V1Game.guns st' = V1Game.guns st
    /\ V1Game.crew st' = V1Game.crew st
    /\ V1Game.parts st' = V1Game.parts st.
Proof.
  intros reason ld g (Hz & Hf & Hs & Hp & Hperm) g' st st'.
  subst g' st st'.
  unfold V1Game.ZOMBIES_MIN, V1Game.ZOMBIES_MAX, V1Game.FUELCANS_MIN,
    V1Game.FUELCANS_MAX, V1Game.SHELLS_MIN, V1Game.SHELLS_MAX,
    V1Game.PARTS_MIN, V1Game.PARTS_MAX in *.
  set (pool := V1.LevelPool.mk (V1Game.d_fuelcans ld) (V1Game.d_shells ld)
                 (V1Game.d_parts ld) (V1Game.d_zombies ld)) in *.
  assert (Hc : forall (k : V1.SpriteKind) (v : View),
             V1Game.count_kind k
               (V1Game.gen_outside_sprites_for_view (V1Game.d_sprites ld v)
                  v pool)
             = match k with
               | V1.ZOMBIE => V1Game.d_zombies ld
               | V1.FUEL => Z.min (V1Game.d_fuelcans ld) 4
               | V1.PART => V1Game.d_parts ld
               | V1.SHELL => Z.min (V1Game.d_shells ld) 3
               end).
  { intros k v. unfold V1Game.count_kind.
    rewrite (v1_gen_sprites_count (V1Game.SpriteKind_eqb k) _ v pool
               (Hperm v)).
    destruct k; cbn [V1Game.SpriteKind_eqb pool V1.LevelPool.zombies
      V1.LevelPool.fuelcans V1.LevelPool.parts V1.LevelPool.shells]; lia. }
  assert (Hzs : forall v : View,
             V1Game.count_zombies
               (V1Game.gen_outside_sprites_for_view (V1Game.d_sprites ld v)
                  v pool)
             = V1Game.d_zombies ld).
  { intros v. exact (Hc V1.ZOMBIE v). }
  unfold V1Game.start_new_level. fold pool.
  cbn [V1Game.show_popup V1Game.on_state V1Game.state V1Game.outside_sprites
         V1Game.set_popup V1Game.set_pool V1Game.set_flags V1Game.in_level
         V1Game.moving V1Game.engine_broken V1Game.popup_text
         V1Game.level_pool V1Game.fuel V1Game.shells V1Game.guns V1Game.crew
         V1Game.parts V1.at_V_OUT_DRIVER V1.at_V_OUT_LEFT V1.at_V_OUT_RIGHT].
  split; [reflexivity|]. split; [reflexivity|]. split; [reflexivity|].
  split; [reflexivity|]. split.
  - exists pool. split; [reflexivity|].
    cbn [pool V1.LevelPool.zombies V1.LevelPool.fuelcans V1.LevelPool.parts
           V1.LevelPool.shells].
    split; [lia|]. split; [lia|]. split; [lia|]. split; [lia|].
    intros l [-> | [-> | ->]]; rewrite !Hc; repeat split; reflexivity.
  - split.
    + exists pool. split; [reflexivity|].
      split; [exact (Hzs OUT_DRIVER)|].
      split; [exact (Hzs OUT_LEFT) | exact (Hzs OUT_RIGHT)].
    + repeat split; reflexivity.
Qed.

(** X28. Engine and start in the first prototype: a sound engine is not
    repaired and keeps the part; after a level has begun a start is refused
    until a part is spent, so without a part the tank stays where it is;
    with a part and fuel, repair and start end the level, clear the sprites
    of all outside views and leave the pool of the level in the state; and on
    an empty tank a stopped tank never starts. *)
Theorem v1_repair_then_start :
  forall (reason : V1Game.Reason) (ld : V1Game.LevelDraws)
         (g : V1Game.TankGame),
    let g1 := V1Game.start_new_level reason ld g in
    let fixed := V1Game.attempt_fix_engine g1 in
    let g2 := V1Game.attempt_start fixed in
    (forall g0, V1Game.engine_broken (V1Game.state g0) = false ->
       V1Game.attempt_fix_engine g0
       = V1Game.show_popup V1Game.Engine_not_broken g0)
    /\ V1Game.attempt_start g1
       = V1Game.show_popup V1Game.Engine_still_broken g1
    /\ (V1Game.parts (V1Game.state g) <= 0 ->
        V1Game.moving (V1Game.state g2) = false
        /\ V1Game.in_level (V1Game.state g2) = true
        /\ V1Game.engine_broken (V1Game.state g2) = true)
    /\ (1 <= V1Game.parts (V1Game.state g) ->
        0 < V1Game.fuel (V1Game.state g) ->
        V1Game.moving (V1Game.state g2) = true
        /\ V1Game.in_level (V1Game.state g2) = false
        /\ V1Game.engine_broken (V1Game.state g2) = false
        /\ V1Game.parts (V1Game.state g2) = V1Game.parts (V1Game.state g) - 1
        /\ V1Game.fuel (V1Game.state g2) = V1Game.fuel (V1Game.state g)
        /\ V1Game.outside_sprites g2 = V1.mkSprites [] [] []
        /\ V1Game.level_pool (V1Game.state g2)
           = V1Game.level_pool (V1Game.state g1))
    /\ (forall g0, V1Game.moving (V1Game.state g0) = false ->
        V1Game.fuel (V1Game.state g0) <= 0 ->
        V1Game.moving (V1Game.state (V1Game.attempt_start g0)) = false).
Proof.
  intros reason ld g g1 fixed g2. subst g2 fixed g1.
  split; [|split; [|split; [|split]]].
  - intros g0 H. unfold V1Game.attempt_fix_engine. rewrite H. reflexivity.
  - reflexivity.
  - intros Hp. unfold V1Game.attempt_fix_engine, V1Game.start_new_level.
    cbn [V1Game.show_popup V1Game.on_state V1Game.state V1Game.set_popup
           V1Game.set_pool V1Game.set_flags V1Game.engine_broken
           V1Game.parts negb].
    replace (V1Game.parts (V1Game.state g) <=? 0) with true
      by (symmetry; apply Z.leb_le; exact Hp).
    cbn. repeat split; reflexivity.
  - intros Hp Hf. unfold V1Game.attempt_fix_engine, V1Game.start_new_level.
    cbn [V1Game.show_popup V1Game.on_state V1Game.state V1Game.set_popup
           V1Game.set_pool V1Game.set_flags V1Game.engine_broken
           V1Game.parts negb].
    replace (V1Game.parts (V1Game.state g) <=? 0) with false
      by (symmetry; apply Z.leb_gt; lia).
    unfold V1Game.attempt_start.
    cbn [V1Game.show_popup V1Game.on_state V1Game.state V1Game.set_popup
           V1Game.set_pool V1Game.set_flags V1Game.set_ledger
           V1Game.engine_broken V1Game.moving V1Game.fuel V1Game.in_level].
    replace (V1Game.fuel (V1Game.state g) <=? 0) with false
      by (symmetry; apply Z.leb_gt; lia).
    cbn. repeat split; reflexivity.
  - intros g0 Hm Hf. unfold V1Game.attempt_start. rewrite Hm.
    destruct (V1Game.engine_broken (V1Game.state g0)); [exact Hm|].
    replace (V1Game.fuel (V1Game.state g0) <=? 0) with true
      by (symmetry; apply Z.leb_le; exact Hf).
    exact Hm.
Qed.






(** X30. A scavenger of the first prototype who does not come back: one
    crewman is gone and, when a gun was asked for and one was aboard, that
    gun; fuel, shells, parts, the pool and the sprites are as before and the
    menu is closed.  The loss of the last man is only announced: no flag
    ends the game, and the state differs from an ordinary loss in the
    pop-up alone. *)
Theorem v1_scavenger_lost :
  forall (sd : V1Game.ScavDraws) (g : V1Game.TankGame) (mode : V1Game.Mode)
         (pool : V1.LevelPool.t),
    let st := V1Game.state g in
    let gave_gun :=
      V1Game.scavenging_give_gun st && (0 <? V1Game.guns st) in
    V1Game.scavenging_confirm st = true ->
    V1Game.scavenging_mode st = Some mode ->
    V1Game.in_level st = true ->
    V1Game.level_pool st = Some pool ->
    0 < V1Game.crew st ->
    (V1Game.scavenge_chance mode (V1.LevelPool.zombies pool) gave_gun
     <= V1Game.r_success sd)%Q ->
    let g' := V1Game.resolve_scavenge sd g in
    let st' := V1Game.state g' in
    V1Game.crew st' = V1Game.crew st - 1
    /\ V1Game.guns st' = V1Game.guns st - (if gave_gun then 1 else 0)
    /\ V1Game.fuel st' = V1Game.fuel st
    /\ V1Game.shells st' = V1Game.shells st
    /\ V1Game.parts st' = V1Game.parts st
    /\ V1Game.level_pool st' = Some pool
    /\ V1Game.outside_sprites g' = V1Game.outside_sprites g
    /\ V1Game.in_level st' = true
    /\ V1Game.moving st' = V1Game.moving st
    /\ V1Game.engine_broken st' = V1Game.engine_broken st
    /\ V1Game.scavenging_confirm st' = false
    /\ V1Game.scavenging_mode st' = None
    /\ V1Game.popup_text st'
       = Some (if V1Game.crew st =? 1 then V1Game.All_crew_gone
               else V1Game.Scavenge_failed mode (V1.LevelPool.zombies pool)
                      gave_gun).
Proof.
  intros sd g mode pool st gave_gun Hcf Hmo Hlv Hpo Hcr Hs g' st'.
  subst st' g' gave_gun st.
  unfold V1Game.resolve_scavenge. rewrite Hcf, Hmo, Hpo, Hlv. cbn [negb].
  replace (V1Game.crew (V1Game.state g) <=? 0) with false
    by (symmetry; apply Z.leb_gt; lia).
  apply Qltb_false in Hs. cbv zeta. rewrite Hs.
  assert (Hk : (V1Game.crew (V1Game.state g) =? 1)
               = (V1Game.crew (V1Game.state g) - 1 <=? 0)).
  { destruct (Z.eqb_spec (V1Game.crew (V1Game.state g)) 1),
             (Z.leb_spec (V1Game.crew (V1Game.state g) - 1) 0);
      try reflexivity; lia. }
  rewrite Hk.
  destruct (V1Game.scavenging_give_gun (V1Game.state g)
            && (0 <? V1Game.guns (V1Game.state g)));
    cbn [V1Game.set_popup V1Game.set_ledger V1Game.crew];
    destruct (V1Game.crew (V1Game.state g) - 1 <=? 0);
    cbn [V1Game.close_scavenge_menu V1Game.on_state V1Game.state
           V1Game.outside_sprites V1Game.set_menu V1Game.set_popup
           V1Game.set_ledger V1Game.level_pool V1Game.fuel V1Game.shells
           V1Game.parts V1Game.guns V1Game.crew V1Game.in_level
           V1Game.moving V1Game.engine_broken V1Game.popup_text
           V1Game.scavenging_confirm V1Game.scavenging_mode];
    repeat split; try reflexivity; try assumption; lia.
Qed.

(** ** Loot conservation, in the Tkinter game and in the first prototype *)




(** ** Starting on an empty tank *)

(** C7. On an empty tank START is refused and changes nothing.  In the
    Tkinter game, in every state a session reaches in which a level is
    active and fuel is 0, the level was begun by the fuel running out, and
    START leaves the state as it is and reports "no fuel"; whatever the
    state, reachable or not, a stopped tank without fuel is refused when
    its engine is broken or its level was begun by the fuel running out.
    In the first prototype START on a level without fuel shows one of the
    refusals "Already moving", "The engine is still broken" and "No fuel",
    the last when the tank stands with a sound engine, and changes nothing
    but that pop-up. *)
Theorem start_refused_without_fuel :
  (forall g : TankGame,
     reachable g -> Level.active (level g) = true -> fuel g = 0 ->
     Level.reason (level g) = Out_of_fuel
     /\ out_of_fuel g = true
     /\ engine_broken g = false
     /\ _driver_start g = (g, [Cannot_start_no_fuel]))
  /\ (forall g : TankGame,
        Level.active (level g) = true -> driving g = false -> fuel g = 0 ->
        out_of_fuel g = true \/ engine_broken g = true ->
        fst (_driver_start g) = g
        /\ (snd (_driver_start g) = [Cannot_start_engine_broken]
            \/ snd (_driver_start g) = [Cannot_start_no_fuel]))
  /\ (forall g : V1Game.TankGame,
        V1Game.in_level (V1Game.state g) = true ->
        V1Game.fuel (V1Game.state g) = 0 ->
        exists m,
          V1Game.attempt_start g = V1Game.show_popup m g
          /\ (m = V1Game.Already_moving \/ m = V1Game.Engine_still_broken
              \/ m = V1Game.No_fuel)
          /\ (V1Game.moving (V1Game.state g) = false ->
              V1Game.engine_broken (V1Game.state g) = false ->
              m = V1Game.No_fuel)).
Proof.
  split; [|split].
  - intros g R Ha Hf.
    pose proof (reachable_inv g R) as [_ _ F A].
    destruct (reachable_flags_ok g R) as [F1 F2].
    destruct F as [F | [Fd Fo]]; [lia|].
    destruct (F2 Fo) as [_ Hr].
    assert (He : engine_broken g = false).
    { destruct (engine_broken g) eqn:E; [|reflexivity].
      destruct (F1 eq_refl) as [_ Hb]. rewrite Hr in Hb. discriminate Hb. }
    split; [exact Hr|]. split; [exact Fo|]. split; [exact He|].
    unfold _driver_start. rewrite Fd, He, Fo, Hf. reflexivity.
  - intros g _ Hd Hf Hc. unfold _driver_start. rewrite Hd, Hf.
    destruct (engine_broken g); [split; [reflexivity | left; reflexivity]|].
    destruct Hc as [-> | Hc]; [|discriminate Hc].
    split; [reflexivity | right; reflexivity].
  - intros g _ Hf. unfold V1Game.attempt_start. rewrite Hf.
    destruct (V1Game.moving (V1Game.state g)).
    + exists V1Game.Already_moving.
      split; [reflexivity|]. split; [left; reflexivity | discriminate].
    + destruct (V1Game.engine_broken (V1Game.state g)).
      * exists V1Game.Engine_still_broken.
        split; [reflexivity|].
        split; [right; left; reflexivity | discriminate].
      * exists V1Game.No_fuel.
        split; [reflexivity|].
        split; [right; right; reflexivity | reflexivity].
Qed.

(** ** The three theorems at work *)

Lemma scavenge_chance_formula_witness :
  Level.zombies (level crowded_level) = 6
  /\ (scavenge_chance quick false crowded_level == 0.45)%Q
  /\ scavenge_chance_float quick false crowded_level
     = S754_finite false 8106479329266892 (-54)
  /\ percent_float quick false crowded_level = 44
  /\ (Qabs (B64.to_Q (scavenge_chance_float quick false crowded_level)
            - scavenge_chance quick false crowded_level) <= epsilon)%Q
  /\ V2.total_zombies_alive v2_level = 1
  /\ (Qabs (B64.to_Q (v2_scavenge_chance_float V2.quick false v2_level)
            - V2.scavenge_chance V2.quick false v2_level) <= epsilon)%Q.
Proof.
  assert (H6 : 0 <= Level.zombies (level crowded_level) <= 20)
    by (vm_compute; split; discriminate).
  assert (H1 : 0 <= V2.total_zombies_alive v2_level <= 20)
    by (vm_compute; split; discriminate).
  split; [reflexivity|]. split; [reflexivity|].
  split; [vm_compute; reflexivity|]. split; [vm_compute; reflexivity|].
  destruct (scavenge_chance_formula quick false) as [A B].
  destruct (A crowded_level) as (_ & _ & _ & _ & _ & _ & _ & A6).
  destruct (B v2_level) as (_ & _ & _ & _ & _ & _ & B6).
  split; [exact (A6 H6)|]. split; [reflexivity|]. exact (B6 H1).
Defined.




Lemma start_refused_without_fuel_witness :
  reachable ran_dry
  /\ Level.active (level ran_dry) = true
  /\ fuel ran_dry = 0
  /\ _driver_start ran_dry = (ran_dry, [Cannot_start_no_fuel])
  /\ V1Game.in_level (V1Game.state v1_dry_level) = true
  /\ V1Game.fuel (V1Game.state v1_dry_level) = 0
  /\ V1Game.engine_broken (V1Game.state v1_dry_level) = true
  /\ exists m,
       V1Game.attempt_start v1_dry_level = V1Game.show_popup m v1_dry_level
       /\ (m = V1Game.Already_moving \/ m = V1Game.Engine_still_broken
           \/ m = V1Game.No_fuel).
Proof.
  assert (Ha : Level.active (level ran_dry) = true)
    by (vm_compute; reflexivity).
  assert (Hf : fuel ran_dry = 0) by (vm_compute; reflexivity).
  assert (Hl : V1Game.in_level (V1Game.state v1_dry_level) = true)
    by (vm_compute; reflexivity).
  assert (Hz : V1Game.fuel (V1Game.state v1_dry_level) = 0)
    by (vm_compute; reflexivity).
  destruct start_refused_without_fuel as (A & _ & C).
  destruct (A ran_dry reachable_ran_dry Ha Hf) as (_ & _ & _ & A4).
  destruct (C v1_dry_level Hl Hz) as (m & C1 & C2 & _).
  split; [exact reachable_ran_dry|]. split; [exact Ha|]. split; [exact Hf|].
  split; [exact A4|]. split; [exact Hl|]. split; [exact Hz|].
  split; [vm_compute; reflexivity|].
  exists m. split; [exact C1 | exact C2].
Defined.

(** ** The theorems on the example sessions *)

Lemma left_slit_sprites_at :
  sprites_at (current_view_key left_slit_level)
    (sprites_by_view left_slit_level) = Some left_slit_sprites.
Proof. vm_compute. reflexivity. Qed.

Lemma left_slit_shot_changes :
  fst (_on_canvas_click 110 610 1 left_slit_level) <> left_slit_level.
Proof.
  intros H. apply (f_equal shells) in H. vm_compute in H. discriminate H.
Qed.

Lemma shot_spends_one_round_on_one_zombie_witness :
  fst (_on_canvas_click 110 610 1 left_slit_level) <> left_slit_level
  /\ zombies_alive (fst (_on_canvas_click 110 610 1 left_slit_level))
     = zombies_alive left_slit_level - 1
  /\ snd (_on_canvas_click 110 610 1 left_slit_level) = [].
Proof.
  split; [exact left_slit_shot_changes|].
  pose proof (shot_spends_one_round_on_one_zombie 110 610 1 left_slit_level
                left_slit_shot_changes) as C.
  destruct C as (C1 & _ & C3 & _).
  split; [exact C3 | exact C1].
Defined.

Lemma click_on_empty_ground_is_free_witness :
  sprites_at (current_view_key left_slit_level)
    (sprites_by_view left_slit_level) = Some left_slit_sprites
  /\ zombie_under 0 0 left_slit_sprites = false
  /\ _on_canvas_click 0 0 1 left_slit_level = (left_slit_level, []).
Proof.
  assert (H : zombie_under 0 0 left_slit_sprites = false)
    by (vm_compute; reflexivity).
  split; [exact left_slit_sprites_at|]. split; [exact H|].
  exact (click_on_empty_ground_is_free 0 0 1 left_slit_level left_slit_sprites
           left_slit_sprites_at H).
Defined.

Lemma shot_takes_topmost_zombie_witness :
  sprites_at (current_view_key left_slit_level)
    (sprites_by_view left_slit_level) = Some left_slit_sprites
  /\ fst (_on_canvas_click 110 610 1 left_slit_level) <> left_slit_level
  /\ exists (i : nat) (sp : Sprite.t),
       nth_error left_slit_sprites i = Some sp
       /\ Sprite.kind sp = zombie_
       /\ zombie_hit 110 610 sp = true.
Proof.
  split; [exact left_slit_sprites_at|].
  split; [exact left_slit_shot_changes|].
  destruct (shot_takes_topmost_zombie 110 610 1 left_slit_level
              left_slit_sprites left_slit_sprites_at left_slit_shot_changes)
    as (i & sp & A & B & C & _).
  exists i, sp. split; [exact A|]. split; [exact B | exact C].
Defined.

Lemma fuel_ticks_drain_the_tank_witness :
  destroyed init = false /\ driving init = true /\ 0 < fuel init
  /\ fuel (run (map Ev_fuel_tick [draws_one_zombie; draws_one_zombie]) init)
     = 198
  /\ out_of_fuel
       (run (map Ev_fuel_tick
               (repeat draws_one_zombie 199 ++ [draws_one_zombie])) init)
     = true.
Proof.
  assert (H1 : destroyed init = false) by reflexivity.
  assert (H2 : driving init = true) by reflexivity.
  assert (H3 : 0 < fuel init) by (vm_compute; reflexivity).
  split; [exact H1|]. split; [exact H2|]. split; [exact H3|]. split.
  - destruct (fuel_ticks_drain_the_tank [draws_one_zombie; draws_one_zombie]
                draws_one_zombie [] init H1 H2 H3) as [A _].
    assert (Hl : Z.of_nat (length [draws_one_zombie; draws_one_zombie])
                 < fuel init) by (vm_compute; reflexivity).
    rewrite (A Hl). reflexivity.
  - destruct (fuel_ticks_drain_the_tank (repeat draws_one_zombie 199)
                draws_one_zombie [] init H1 H2 H3) as [_ B].
    assert (Hl : Z.of_nat (length (repeat draws_one_zombie 199))
                 = fuel init - 1) by (vm_compute; reflexivity).
    destruct (B Hl) as (_ & _ & _ & _ & _ & B6 & _). exact B6.
Defined.

Lemma lifecycle_flags_agree_witness :
  reachable left_slit_level /\ lifecycle_ok left_slit_level.
Proof.
  split; [exact reachable_left_slit_level|].
  exact (lifecycle_flags_agree left_slit_level reachable_left_slit_level).
Defined.

Lemma sprites_covered_by_level_counters_witness :
  reachable after_shot
  /\ 0 <= zombies_alive after_shot <= Level.zombies (level after_shot).
Proof.
  split; [exact reachable_after_shot|].
  destruct (sprites_covered_by_level_counters after_shot reachable_after_shot)
    as (_ & H & _).
  exact H.
Defined.

Lemma start_level_fresh_pool_witness :
  valid_level_draws draws_one_zombie
  /\ level_count (level (_start_level Manual_stop draws_one_zombie init)) part_
     = d_parts draws_one_zombie
  /\ forall k,
       _count_remaining_items
         (sprites_by_view (_start_level Manual_stop draws_one_zombie init)) k
       = level_count (level (_start_level Manual_stop draws_one_zombie init)) k.
Proof.
  split; [exact valid_draws_one_zombie|].
  pose proof (start_level_fresh_pool Manual_stop draws_one_zombie init
                valid_draws_one_zombie) as C.
  cbv zeta in C. destruct C as (C1 & _ & C3 & _).
  split; [exact C3 | exact C1].
Defined.

Lemma repair_then_start_resumes_driving_witness :
  Level.active (level with_part) = true /\ driving with_part = false
  /\ engine_broken with_part = true /\ 1 <= parts with_part
  /\ 0 < fuel with_part
  /\ _driver_start with_part = (with_part, [Cannot_start_engine_broken])
  /\ driving (fst (_driver_start (fst (_fix_engine with_part)))) = true.
Proof.
  assert (H1 : Level.active (level with_part) = true)
    by (vm_compute; reflexivity).
  assert (H2 : driving with_part = false) by (vm_compute; reflexivity).
  assert (H3 : engine_broken with_part = true) by (vm_compute; reflexivity).
  assert (H4 : 1 <= parts with_part) by (vm_compute; discriminate).
  assert (H5 : 0 < fuel with_part) by (vm_compute; reflexivity).
  split; [exact H1|]. split; [exact H2|]. split; [exact H3|].
  split; [exact H4|]. split; [exact H5|].
  destruct (repair_then_start_resumes_driving with_part H1 H2 H3 H4 H5)
    as (A & _ & C).
  split; [exact A|]. cbv zeta in C. destruct C as (_ & C2 & _). exact C2.
Defined.

Lemma remove_items_from_map_spec_witness :
  0 <= 0
  /\ _remove_items_from_map part_ 0 (sprites_by_view left_slit_level)
     = sprites_by_view left_slit_level
  /\ _count_remaining_items
       (_remove_items_from_map zombie_ 1 (sprites_by_view left_slit_level))
       zombie_ = 0.
Proof.
  assert (H : 0 <= 0) by lia.
  split; [exact H|]. split.
  - destruct (remove_items_from_map_spec part_ 0
                (sprites_by_view left_slit_level))
      as (_ & _ & _ & _ & _ & B).
    exact (B H).
  - destruct (remove_items_from_map_spec zombie_ 1
                (sprites_by_view left_slit_level)) as (A & _).
    rewrite A. vm_compute. reflexivity.
Defined.

Lemma chance_orderings_witness :
  guns init = guns left_slit_level
  /\ Level.zombies (level init) <= Level.zombies (level left_slit_level)
  /\ (scavenge_chance quick false left_slit_level
      <= scavenge_chance quick false init)%Q.
Proof.
  assert (H1 : guns init = guns left_slit_level) by (vm_compute; reflexivity).
  assert (H2 : Level.zombies (level init)
               <= Level.zombies (level left_slit_level))
    by (vm_compute; discriminate).
  split; [exact H1|]. split; [exact H2|].
  destruct (chance_orderings quick false init) as (A & _).
  exact (A left_slit_level H1 H2).
Defined.

Lemma stale_counter_never_raises_chance_witness :
  reachable after_shot
  /\ (scavenge_chance quick false after_shot
      <= scavenge_chance quick false
           (set_level (set_level_zombies (zombies_alive after_shot)
                         (level after_shot)) after_shot))%Q.
Proof.
  split; [exact reachable_after_shot|].
  exact (stale_counter_never_raises_chance quick false after_shot
           reachable_after_shot).
Defined.

Lemma valid_draws_two_thirds : valid_scav_draws draws_two_thirds.
Proof.
  unfold valid_scav_draws, draws_two_thirds, FUEL_CAN_MIN, FUEL_CAN_MAX.
  cbn [r_survive r_frac r_fuel].
  split; [split; [discriminate | reflexivity]|].
  split; [repeat split; vm_compute; reflexivity|].
  intros _. lia.
Qed.







Lemma v2_fade_takes_thirty_frames_witness :
  V2.fading V2.init = false
  /\ (30 <= 30)%nat
  /\ V2.view (V2.frames 30 (V2.start_fade_to V2.VIEW_ENGINE V2.init))
     = V2.VIEW_ENGINE
  /\ V2.fading (V2.frames 30 (V2.start_fade_to V2.VIEW_ENGINE V2.init))
     = false.
Proof.
  assert (H : V2.fading V2.init = false) by reflexivity.
  assert (Hn : (30 <= 30)%nat) by lia.
  split; [exact H|]. split; [exact Hn|].
  destruct (v2_fade_takes_thirty_frames V2.VIEW_ENGINE V2.VIEW_CREW V2.init H)
    as (_ & _ & C & _).
  rewrite (C 30%nat Hn). split; reflexivity.
Defined.

Lemma v2_begin_level_spawns_witness :
  0 <= V2.d_extra_parts v2_draws <= V2.EXTRA_PARTS_MAX
  /\ 0 <= V2.d_fuel v2_draws /\ 0 <= V2.d_shells v2_draws
  /\ 0 <= V2.d_zombies v2_draws
  /\ V2.engine_broken v2_level = true
  /\ V2.count_items (V2.is_kind V2.part_item) (V2.level_items v2_level) = 1
  /\ V2.total_zombies_alive v2_level = 1.
Proof.
  assert (H1 : 0 <= V2.d_extra_parts v2_draws <= V2.EXTRA_PARTS_MAX)
    by (vm_compute; split; discriminate).
  assert (H2 : 0 <= V2.d_fuel v2_draws) by (vm_compute; discriminate).
  assert (H3 : 0 <= V2.d_shells v2_draws) by (vm_compute; discriminate).
  assert (H4 : 0 <= V2.d_zombies v2_draws) by (vm_compute; discriminate).
  split; [exact H1|]. split; [exact H2|]. split; [exact H3|].
  split; [exact H4|].
  pose proof (v2_begin_level_spawns V2.breakdown v2_draws V2.init H1 H2 H3 H4)
    as C.
  cbv zeta in C.
  destruct C as (_ & C2 & _ & _ & C5 & _ & _ & _ & _ & C10 & _).
  split; [exact C2|]. split; [exact C5 | exact C10].
Defined.

Lemma v2_shot_kills_one_zombie_witness :
  V2.level_active v2_left_level = true
  /\ 1 <= V2.shells v2_left_level
  /\ existsb (fun z => V2.alive z && V1.collidepoint (V2.zrect z) (300, 300))
       (V2.get (V2.view v2_left_level) (V2.level_zombies v2_left_level))
     = true
  /\ V2.shells (fst (V2.handle_shot_click (300, 300) v2_left_level))
     = V2.shells v2_left_level - 1
  /\ V2.total_zombies_alive
       (fst (V2.handle_shot_click (300, 300) v2_left_level))
     = V2.total_zombies_alive v2_left_level - 1.
Proof.
  assert (H1 : V2.level_active v2_left_level = true)
    by (vm_compute; reflexivity).
  assert (H2 : 1 <= V2.shells v2_left_level) by (vm_compute; discriminate).
  assert (H3 : existsb (fun z => V2.alive z
                                 && V1.collidepoint (V2.zrect z) (300, 300))
                 (V2.get (V2.view v2_left_level)
                    (V2.level_zombies v2_left_level)) = true)
    by (vm_compute; reflexivity).
  split; [exact H1|]. split; [exact H2|]. split; [exact H3|].
  pose proof (v2_shot_kills_one_zombie (300, 300) v2_left_level H1) as C.
  cbv zeta in C. destruct C as (_ & _ & C3).
  destruct (C3 H2 H3) as (_ & A & B & _).
  split; [exact A | exact B].
Defined.

Lemma v2_item_click_collects_once_witness :
  V2.level_active v2_left_level = true
  /\ find (fun it => negb (V2.collected it)
                     && V1.collidepoint (V2.rect it) (500, 300))
       (V2.get (V2.view v2_left_level) (V2.level_items v2_left_level))
     = Some (V2.new_part (V2.mkSpawnDraw 1 500 300 0))
  /\ V2.parts v2_with_part = 1
  /\ V2.count_items V2.uncollected (V2.level_items v2_with_part)
     = V2.count_items V2.uncollected (V2.level_items v2_left_level) - 1.
Proof.
  assert (H1 : V2.level_active v2_left_level = true)
    by (vm_compute; reflexivity).
  assert (H2 : find (fun it => negb (V2.collected it)
                               && V1.collidepoint (V2.rect it) (500, 300))
                 (V2.get (V2.view v2_left_level)
                    (V2.level_items v2_left_level))
               = Some (V2.new_part (V2.mkSpawnDraw 1 500 300 0)))
    by (vm_compute; reflexivity).
  split; [exact H1|]. split; [exact H2|].
  pose proof (v2_item_click_collects_once (500, 300) v2_left_level H1) as C.
  cbv zeta in C. destruct C as (_ & C2).
  destruct (C2 _ H2) as (A & _ & _ & B & _).
  split; [unfold v2_with_part; rewrite B; vm_compute; reflexivity | exact A].
Defined.

Lemma v2_repair_and_start_witness :
  V2.level_active v2_with_part = true /\ 1 <= V2.parts v2_with_part
  /\ 0 < V2.fuel v2_with_part
  /\ V2.driving (fst (V2.attempt_start_driving
                        (fst (V2.attempt_fix_engine v2_with_part)))) = true
  /\ V2.parts (fst (V2.attempt_start_driving
                      (fst (V2.attempt_fix_engine v2_with_part)))) = 0.
Proof.
  assert (H1 : V2.level_active v2_with_part = true)
    by (vm_compute; reflexivity).
  assert (H2 : 1 <= V2.parts v2_with_part) by (vm_compute; discriminate).
  assert (H3 : 0 < V2.fuel v2_with_part) by (vm_compute; reflexivity).
  split; [exact H1|]. split; [exact H2|]. split; [exact H3|].
  destruct (v2_repair_and_start v2_with_part) as (_ & _ & _ & C).
  destruct (C H1 H2 H3) as (A & _ & _ & B & _).
  split; [exact A|]. rewrite B. vm_compute. reflexivity.
Defined.

Lemma v2_no_start_without_fuel_witness :
  V2.fuel v2_dry <= 0
  /\ fst (V2.attempt_start_driving v2_dry) = v2_dry.
Proof.
  assert (H : V2.fuel v2_dry <= 0) by (vm_compute; discriminate).
  split; [exact H|].
  destruct (v2_no_start_without_fuel v2_dry H) as (A & _). exact A.
Defined.

Lemma v2_outside_click_priority_witness :
  (V2.view v2_left_level = V2.VIEW_OUT_LEFT
   \/ V2.view v2_left_level = V2.VIEW_OUT_RIGHT)
  /\ V2.level_active v2_left_level = true
  /\ existsb (fun z => V2.alive z && V1.collidepoint (V2.zrect z) (300, 300))
       (V2.get (V2.view v2_left_level) (V2.level_zombies v2_left_level))
     = true
  /\ V2.level_items (fst (V2.handle_outside_click (300, 300) v2_left_level))
     = V2.level_items v2_left_level.
Proof.
  assert (H1 : V2.view v2_left_level = V2.VIEW_OUT_LEFT
               \/ V2.view v2_left_level = V2.VIEW_OUT_RIGHT)
    by (left; vm_compute; reflexivity).
  assert (H2 : V2.level_active v2_left_level = true)
    by (vm_compute; reflexivity).
  assert (H3 : existsb (fun z => V2.alive z
                                 && V1.collidepoint (V2.zrect z) (300, 300))
                 (V2.get (V2.view v2_left_level)
                    (V2.level_zombies v2_left_level)) = true)
    by (vm_compute; reflexivity).
  split; [exact H1|]. split; [exact H2|]. split; [exact H3|].
  pose proof (v2_outside_click_priority (300, 300) v2_left_level) as C.
  cbv zeta in C. destruct C as (_ & C2).
  destruct (C2 H1 H2) as (A & _). destruct (A H3) as (_ & B & _). exact B.
Defined.



Lemma v2_scavenger_lost_witness :
  0 < V2.crew v2_level
  /\ V2.remaining_items (V2.level_items v2_level) <> []
  /\ (V2.scavenge_chance V2.quick true v2_level
      <= V2.r_survive v2_draws_die)%Q
  /\ V2.crew (fst (V2.do_scavenge V2.quick true v2_draws_die v2_level)) = 3
  /\ V2.guns (fst (V2.do_scavenge V2.quick true v2_draws_die v2_level)) = 3.
Proof.
  assert (H1 : 0 < V2.crew v2_level) by (vm_compute; reflexivity).
  assert (H2 : V2.remaining_items (V2.level_items v2_level) <> [])
    by (vm_compute; discriminate).
  assert (H3 : (V2.scavenge_chance V2.quick true v2_level
                <= V2.r_survive v2_draws_die)%Q)
    by (vm_compute; discriminate).
  split; [exact H1|]. split; [exact H2|]. split; [exact H3|].
  pose proof (v2_scavenger_lost V2.quick true v2_draws_die v2_level H1 H2 H3)
    as C.
  cbv zeta in C. destruct C as (C1 & C2 & _).
  split; [rewrite C1 | rewrite C2]; vm_compute; reflexivity.
Defined.

Lemma v2_chance_properties_witness :
  V2.guns v2_unarmed <= 0
  /\ V2.scavenge_chance V2.quick true v2_unarmed
     = V2.scavenge_chance V2.quick false v2_unarmed.
Proof.
  assert (H : V2.guns v2_unarmed <= 0) by (vm_compute; discriminate).
  split; [exact H|].
  destruct (v2_chance_properties V2.quick false v2_unarmed) as (_ & _ & C & _).
  exact (C H).
Defined.

Lemma v2_sample_fits_witness :
  V2.remaining_items (V2.level_items v2_level)
  = [(V2.VIEW_OUT_LEFT, 0%nat); (V2.VIEW_OUT_LEFT, 1%nat)]
  /\ V2.max_take V2.greedy v2_level <= 2
  /\ V2.valid_sample V2.greedy v2_level [(V2.VIEW_OUT_LEFT, 0%nat)].
Proof.
  assert (H : V2.remaining_items (V2.level_items v2_level)
              = [(V2.VIEW_OUT_LEFT, 0%nat); (V2.VIEW_OUT_LEFT, 1%nat)])
    by (vm_compute; reflexivity).
  split; [exact H|].
  destruct (v2_sample_fits V2.greedy v2_level _ _ H) as ((_ & A) & B).
  split; [|exact B].
  refine (Z.le_trans _ _ _ A _). vm_compute. discriminate.
Defined.

Lemma v1_cannon_level_in_step :
  V1Game.in_step (V1.level_pool v1_cannon_level)
    (V1.outside_sprites v1_cannon_level).
Proof.
  eexists. split; [vm_compute; reflexivity|].
  vm_compute. repeat split; reflexivity.
Qed.

Lemma v1_shot_keeps_views_in_step_witness :
  V1.in_level v1_cannon_level = true
  /\ 0 < V1.shells v1_cannon_level
  /\ V1.first_hit (110, 210)
       (V1.at_V_OUT_LEFT (V1.outside_sprites v1_cannon_level)) = Some O
  /\ V1.level_pool v1_cannon_level = Some (V1.LevelPool.mk 1 0 1 1)
  /\ V1Game.in_step (V1.level_pool v1_cannon_level)
       (V1.outside_sprites v1_cannon_level)
  /\ V1.shells (V1.shoot_zombie_at OUT_LEFT (110, 210) v1_cannon_level) = 5
  /\ V1.level_pool (V1.shoot_zombie_at OUT_LEFT (110, 210) v1_cannon_level)
     = Some (V1.LevelPool.mk 1 0 1 0)
  /\ V1Game.in_step
       (V1.level_pool (V1.shoot_zombie_at OUT_LEFT (110, 210) v1_cannon_level))
       (V1.outside_sprites
          (V1.shoot_zombie_at OUT_LEFT (110, 210) v1_cannon_level)).
Proof.
  assert (H1 : V1.in_level v1_cannon_level = true)
    by (vm_compute; reflexivity).
  assert (H2 : V1Game.gunner_view OUT_LEFT (V1.outside_sprites v1_cannon_level)
               = Some (V1.at_V_OUT_LEFT (V1.outside_sprites v1_cannon_level)))
    by reflexivity.
  assert (H3 : 0 < V1.shells v1_cannon_level) by (vm_compute; reflexivity).
  assert (H4 : V1.first_hit (110, 210)
                 (V1.at_V_OUT_LEFT (V1.outside_sprites v1_cannon_level))
               = Some O) by (vm_compute; reflexivity).
  assert (H5 : V1.level_pool v1_cannon_level
               = Some (V1.LevelPool.mk 1 0 1 1)) by (vm_compute; reflexivity).
  pose proof (v1_shot_keeps_views_in_step OUT_LEFT (110, 210) v1_cannon_level)
    as C.
  cbv zeta in C. destruct C as (_ & _ & _ & C4 & C5).
  destruct (C4 _ O _ H1 H2 H3 H4 H5 v1_cannon_level_in_step)
    as (A1 & A2 & _).
  split; [exact H1|]. split; [exact H3|]. split; [exact H4|].
  split; [exact H5|]. split; [exact v1_cannon_level_in_step|].
  split; [rewrite A1; vm_compute; reflexivity|].
  split; [rewrite A2; vm_compute; reflexivity|].
  exact (C5 v1_cannon_level_in_step).
Defined.

Lemma v1_valid_draws : V1Game.valid_level_draws v1_draws.
Proof.
  unfold V1Game.valid_level_draws.
  split; [vm_compute; split; discriminate|].
  split; [vm_compute; split; discriminate|].
  split; [vm_compute; split; discriminate|].
  split; [vm_compute; split; discriminate|].
  intros v. exact (Permutation_refl [V1.FUEL; V1.PART]).
Qed.

Lemma v1_start_new_level_pool_witness :
  V1Game.valid_level_draws v1_draws
  /\ V1Game.engine_broken (V1Game.state v1_level) = true
  /\ V1Game.in_step (V1Game.level_pool (V1Game.state v1_level))
       (V1Game.outside_sprites v1_level).
Proof.
  split; [exact v1_valid_draws|].
  pose proof (v1_start_new_level_pool V1Game.Manual_STOP v1_draws V1Game.init
                v1_valid_draws) as C.
  cbv zeta in C. destruct C as (_ & _ & C3 & _ & _ & C6 & _).
  split; [exact C3 | exact C6].
Defined.

Lemma v1_repair_then_start_witness :
  1 <= V1Game.parts (V1Game.state v1_spare_part)
  /\ 0 < V1Game.fuel (V1Game.state v1_spare_part)
  /\ V1Game.moving
       (V1Game.state
          (V1Game.attempt_start
             (V1Game.attempt_fix_engine
                (V1Game.start_new_level V1Game.Random_breakdown v1_draws
                   v1_spare_part)))) = true.
Proof.
  assert (H1 : 1 <= V1Game.parts (V1Game.state v1_spare_part))
    by (vm_compute; discriminate).
  assert (H2 : 0 < V1Game.fuel (V1Game.state v1_spare_part))
    by (vm_compute; reflexivity).
  split; [exact H1|]. split; [exact H2|].
  pose proof (v1_repair_then_start V1Game.Random_breakdown v1_draws
                v1_spare_part) as C.
  cbv zeta in C. destruct C as (_ & _ & _ & C4 & _).
  destruct (C4 H1 H2) as (A & _). exact A.
Defined.



Lemma v1_scavenger_lost_witness :
  V1Game.scavenging_confirm (V1Game.state v1_menu) = true
  /\ V1Game.scavenging_mode (V1Game.state v1_menu) = Some V1Game.QUICK
  /\ V1Game.in_level (V1Game.state v1_menu) = true
  /\ V1Game.level_pool (V1Game.state v1_menu)
     = Some (V1.LevelPool.mk 1 0 1 1)
  /\ 0 < V1Game.crew (V1Game.state v1_menu)
  /\ (V1Game.scavenge_chance V1Game.QUICK
        (V1.LevelPool.zombies (V1.LevelPool.mk 1 0 1 1))
        (V1Game.scavenging_give_gun (V1Game.state v1_menu)
         && (0 <? V1Game.guns (V1Game.state v1_menu)))
      <= V1Game.r_success v1_draws_die)%Q
  /\ V1Game.crew (V1Game.state (V1Game.resolve_scavenge v1_draws_die v1_menu))
     = V1Game.crew (V1Game.state v1_menu) - 1.
Proof.
  assert (H1 : V1Game.scavenging_confirm (V1Game.state v1_menu) = true)
    by (vm_compute; reflexivity).
  assert (H2 : V1Game.scavenging_mode (V1Game.state v1_menu)
               = Some V1Game.QUICK) by (vm_compute; reflexivity).
  assert (H3 : V1Game.in_level (V1Game.state v1_menu) = true)
    by (vm_compute; reflexivity).
  assert (H4 : V1Game.level_pool (V1Game.state v1_menu)
               = Some (V1.LevelPool.mk 1 0 1 1)) by (vm_compute; reflexivity).
  assert (H5 : 0 < V1Game.crew (V1Game.state v1_menu))
    by (vm_compute; reflexivity).
  assert (H7 : (V1Game.scavenge_chance V1Game.QUICK
                  (V1.LevelPool.zombies (V1.LevelPool.mk 1 0 1 1))
                  (V1Game.scavenging_give_gun (V1Game.state v1_menu)
                   && (0 <? V1Game.guns (V1Game.state v1_menu)))
                <= V1Game.r_success v1_draws_die)%Q)
    by (vm_compute; discriminate).
  split; [exact H1|]. split; [exact H2|]. split; [exact H3|].
  split; [exact H4|]. split; [exact H5|]. split; [exact H7|].
  pose proof (v1_scavenger_lost v1_draws_die v1_menu V1Game.QUICK
                (V1.LevelPool.mk 1 0 1 1) H1 H2 H3 H4 H5 H7) as C.
  cbv zeta in C. destruct C as (C1 & _). exact C1.
Defined.
